(** * Session, billing, order, KOT, reservation and registration handlers

    A shallow embedding of the request handlers of the point-of-sale
    backend over its relational (Sequelize) models:
    - routes/sessions.js and routes/kot.js;
    - routes/billing.js (src/unnamed/part_000);
    - routes/orders.js (second half of src/routes/auth.js, lines 238-645);
    - routes/reservations.js (src/unnamed/part_004);
    - routes/auth.js (first half of src/routes/auth.js);
    - models Table and Order (src/models), Reservation (second half of
      src/models/Table.js), Session (src/unnamed/part_007), MenuItem
      (src/unnamed/part_005).

    Conventions of the embedding:
    - a handler is a function from the store to a new store and the JSON
      response it sends; [await] is sequencing;
    - JS numbers and DECIMAL columns are exact rationals ([Q]); rounding of
      doubles and of DECIMAL(10,2) storage is not represented;
    - instants ([Date]) are milliseconds since the epoch ([Z]);
    - ORM calls succeed: connection failures and constraint violations are
      not represented, JS exceptions raised by the handler code itself are. *)

From Stdlib Require Import ZArith QArith Qround Qminmax List String Bool Lia Lqa.
Import ListNotations.

Local Open Scope string_scope.
Local Open Scope list_scope.
Local Open Scope Z_scope.

(** ** JavaScript primitives used by the handlers *)

Module Js.

(** [Math.ceil] on a number. *)
Definition Math_ceil (x : Q) : Z := Qceiling x.

(** [Math.max(a, b)]. *)
Definition Math_max (a b : Q) : Q := if Qle_bool a b then b else a.

(** [x > y] on numbers. *)
Definition gt (x y : Q) : bool := negb (Qle_bool x y).

(** [x || 0] on a number: [0] is the only falsy rational. *)
Definition or0 (x : Q) : Q := if Qeq_bool x 0 then 0%Q else x.

(** [x || 0] where [x] may be [undefined]. *)
Definition opt_or0 (x : option Q) : Q :=
  match x with Some v => or0 v | None => 0%Q end.

(** Truthiness of a nullable string: [null] and the empty string are falsy. *)
Definition truthy_str (s : option string) : bool :=
  match s with
  | None => false
  | Some s => negb (String.eqb s EmptyString)
  end.

(** [d || fallback] for a nullable [Date]: every [Date] object is truthy. *)
Definition date_or (d : option Z) (fallback : Z) : Z :=
  match d with Some t => t | None => fallback end.

(** [s.startsWith(p)]. *)
Fixpoint starts_with (p s : string) : bool :=
  match p, s with
  | EmptyString, _ => true
  | String a p', String b s' => Ascii.eqb a b && starts_with p' s'
  | String _ _, EmptyString => false
  end.

Fixpoint drop (n : nat) (s : string) : string :=
  match n, s with
  | O, _ => s
  | S n', String _ s' => drop n' s'
  | S _, EmptyString => EmptyString
  end.

(** [s.replace(pat, rep)] with a string pattern: only the first occurrence
    is replaced. *)
Fixpoint replace (pat rep s : string) : string :=
  if starts_with pat s then (rep ++ drop (String.length pat) s)%string
  else match s with
       | EmptyString => EmptyString
       | String c s' => String c (replace pat rep s')
       end.

(** Exceptions the handler code itself can raise. *)
Inductive Exn :=
| ReferenceError (ident : string)
| TypeError (what : string).

(** The identifiers a module binds at top level (its [require] lines and
    [const] declarations). *)
Definition Scope := list string.

Definition binds (G : Scope) (x : string) : bool :=
  existsb (String.eqb x) G.

End Js.

(** ** Enumerations of the models *)

Inductive TableStatus := available | occupied | reserved | maintenance.
Inductive PlugStatus := online | offline.
Inductive TableType := Snooker | Pool | PlayStation | Restaurant | Dining | Food.
Inductive SessionStatus := active | paused | completed | cancelled.
Inductive PaymentStatus := unpaid | paid | refunded.
Inductive PaymentMethod := cash | card | upi | online_payment.
Inductive OrderStatus :=
  o_pending | o_confirmed | o_preparing | o_ready | o_served | o_cancelled.
Inductive ItemStatus := i_pending | i_preparing | i_ready | i_served.
Inductive ReservationStatus :=
  r_confirmed | r_arrived | r_cancelled | r_completed | r_no_show.
Inductive Role := Admin | Manager | Staff | User_role.
Inductive DiscountType := percentage | fixed.

Definition TableStatus_eqb (a b : TableStatus) : bool :=
  match a, b with
  | available, available | occupied, occupied
  | reserved, reserved | maintenance, maintenance => true
  | _, _ => false
  end.

Definition SessionStatus_eqb (a b : SessionStatus) : bool :=
  match a, b with
  | active, active | paused, paused
  | completed, completed | cancelled, cancelled => true
  | _, _ => false
  end.

Definition PaymentStatus_eqb (a b : PaymentStatus) : bool :=
  match a, b with
  | unpaid, unpaid | paid, paid | refunded, refunded => true
  | _, _ => false
  end.

Definition ItemStatus_eqb (a b : ItemStatus) : bool :=
  match a, b with
  | i_pending, i_pending | i_preparing, i_preparing
  | i_ready, i_ready | i_served, i_served => true
  | _, _ => false
  end.

Definition ReservationStatus_eqb (a b : ReservationStatus) : bool :=
  match a, b with
  | r_confirmed, r_confirmed | r_arrived, r_arrived
  | r_cancelled, r_cancelled | r_completed, r_completed
  | r_no_show, r_no_show => true
  | _, _ => false
  end.

(** The string a [type] column holds. *)
Definition TableType_name (t : TableType) : string :=
  match t with
  | Snooker => "Snooker" | Pool => "Pool" | PlayStation => "PlayStation"
  | Restaurant => "Restaurant" | Dining => "Dining" | Food => "Food"
  end.

(** ** The relational models (directory models) *)

(** Columns no handler below reads or writes (JSON feature lists, images,
    descriptions, nutritional data) are left out of the rows. *)

Module Table.
(** models/Table.js *)
Record row := {
  id : Z;
  table_number : string;
  name : string;
  type : TableType;
  location : string;
  capacity : Z;
  status : TableStatus;
  hourly_rate : Q;
  plug_id : option string;
  plug_status : PlugStatus;
  current_session_id : option Z;
  session_start_time : option Z;
  session_end_time : option Z;
  customer_name : option string;
  customer_phone : option string;
  is_active : bool
}.
End Table.

Module Session.
Record extension := {
  extendedBy : Z;
  extendedAt : Z;
  reason : string
}.

(** models/Session.js *)
Record row := {
  id : Z;
  session_id : string;
  table_id : Z;
  table_number : string;
  customer_name : string;
  customer_phone : string;
  start_time : Z;
  end_time : option Z;
  duration : Z;
  hourly_rate : Q;
  session_cost : Q;
  total_order_cost : Q;
  subtotal : Q;
  tax : Q;
  service_fee : Q;
  discount : Q;
  total : Q;
  payment_status : PaymentStatus;
  payment_method : option PaymentMethod;
  status : SessionStatus;
  extensions : list extension;
  created_by : Z;
  plug_controlled : bool
}.
End Session.

Module Order.
(** models/Order.js *)
Record row := {
  id : Z;
  order_id : string;
  table_id : Z;
  table_number : string;
  customer_name : string;
  customer_phone : string;
  service_type : string;
  order_type : string;
  status : OrderStatus;
  subtotal : Q;
  tax : Q;
  discount : Q;
  total : Q;
  payment_status : PaymentStatus;
  payment_method : option PaymentMethod;
  kot_printed : bool;
  kot_printed_at : option Z;
  created_by : Z;
  special_instructions : option string;
  created_at : Z
}.
End Order.

Module OrderItem.
(** Modelled from the spec: models/OrderItem.js is not among the sources;
    the columns are those of the OrderItem entity of the data model and of
    the rows [OrderItem.create] receives in routes/orders.js. *)
Record row := {
  id : Z;
  order_id : Z;
  menu_item_id : Z;
  name : string;
  price : Q;
  quantity : Z;
  status : ItemStatus;
  special_instructions : option string
}.
End OrderItem.

Module MenuItem.
(** models/MenuItem.js *)
Record row := {
  id : Z;
  name : string;
  category : string;
  subcategory : string;
  price : Q;
  printer : string;
  is_available : bool;
  preparation_time : Z;
  is_popular : bool
}.
End MenuItem.

Module Reservation.
(** models/Reservation.js *)
Record row := {
  id : Z;
  reservation_id : string;
  customer_name : string;
  customer_phone : string;
  customer_email : option string;
  table_id : option Z;
  table_type : string;
  reservation_date : string;
  reservation_time : string;
  duration : Z;
  party_size : Z;
  special_requests : option string;
  status : ReservationStatus;
  sms_notification : bool;
  email_notification : bool;
  created_by : option Z
}.
End Reservation.

Module User.
(** The [discounts] entry of a permission bundle. *)
Record discounts := {
  item : bool;
  bill : bool;
  offers : bool;
  maxDiscount : option Q
}.

(** A permission bundle, as far as the handlers look into it; each level
    may be missing ([permissions = {}] for the role [User]). *)
Record permissions := {
  specialPermissions_discounts : option discounts;
  canManageStaff : bool
}.

(** Modelled from the spec: the relational models/User.js is not among
    the sources; the columns are those of the User entity of the data
    model and of the object [User.create] receives in routes/auth.js. *)
Record row := {
  id : Z;
  name : string;
  username : string;
  email : string;
  password : string;
  phone : string;
  role : Role;
  perms : option permissions;
  is_active : bool;
  last_login : option Z
}.
End User.

(** ** The store *)

Record DB := {
  tables : list Table.row;
  sessions : list Session.row;
  orders : list Order.row;
  order_items : list OrderItem.row;
  menu_items : list MenuItem.row;
  reservations : list Reservation.row;
  users : list User.row
}.

Definition with_tables (db : DB) (ts : list Table.row) : DB :=
  {| tables := ts; sessions := sessions db; orders := orders db;
     order_items := order_items db; menu_items := menu_items db;
     reservations := reservations db; users := users db |}.

Definition with_sessions (db : DB) (ss : list Session.row) : DB :=
  {| tables := tables db; sessions := ss; orders := orders db;
     order_items := order_items db; menu_items := menu_items db;
     reservations := reservations db; users := users db |}.

Definition with_orders (db : DB) (os : list Order.row) : DB :=
  {| tables := tables db; sessions := sessions db; orders := os;
     order_items := order_items db; menu_items := menu_items db;
     reservations := reservations db; users := users db |}.

Definition with_order_items (db : DB) (its : list OrderItem.row) : DB :=
  {| tables := tables db; sessions := sessions db; orders := orders db;
     order_items := its; menu_items := menu_items db;
     reservations := reservations db; users := users db |}.

Definition with_reservations (db : DB) (rs : list Reservation.row) : DB :=
  {| tables := tables db; sessions := sessions db; orders := orders db;
     order_items := order_items db; menu_items := menu_items db;
     reservations := rs; users := users db |}.

Definition with_users (db : DB) (us : list User.row) : DB :=
  {| tables := tables db; sessions := sessions db; orders := orders db;
     order_items := order_items db; menu_items := menu_items db;
     reservations := reservations db; users := us |}.

(** The next value of an auto-increment primary key. *)
Definition next_id (ids : list Z) : Z := 1 + fold_right Z.max 0 ids.

(** ** Responses *)

Inductive Message :=
| Msg (s : string)
| MaxDiscountMsg (maxDiscount : Q)
| ItemUnavailableName (name : string)
| ItemUnavailableId (menu_item_id : Z).

Record PublicUser := {
  pu_id : Z; pu_name : string; pu_username : string;
  pu_email : string; pu_phone : string; pu_role : Role
}.

Inductive Data :=
| NoData
| ValidationErrors (errors : list string)
| SessionData (session : Session.row)
| SessionWithTable (session : option Session.row) (table : option Table.row)
| DiscountData (session : Session.row) (discount_applied new_total : Q)
| OrderData (order : option Order.row) (items : list OrderItem.row)
| OrderItemData (orderItem : OrderItem.row)
| ReservationData (reservation : option Reservation.row)
                  (table : option Table.row)
| UserData (user : PublicUser) (token : string).

Record Response := {
  code : Z;
  success : bool;
  message : option Message;
  data : Data
}.

Definition fail (c : Z) (m : string) : Response :=
  {| code := c; success := false; message := Some (Msg m); data := NoData |}.

Definition validation_failed (errors : list string) : Response :=
  {| code := 400; success := false; message := Some (Msg "Validation failed");
     data := ValidationErrors errors |}.

Definition ok (c : Z) (m : string) (d : Data) : Response :=
  {| code := c; success := true; message := Some (Msg m); data := d |}.

(** ** Handler bodies: store passing with early responses and exceptions *)

Inductive Completion (A : Type) :=
| Normal (a : A)
| Sent (r : Response)
| Thrown (e : Js.Exn).
Arguments Normal {A} a.
Arguments Sent {A} r.
Arguments Thrown {A} e.

Definition Act (A : Type) : Type := DB -> DB * Completion A.

Definition ret {A} (a : A) : Act A := fun db => (db, Normal a).

Definition bind {A B} (m : Act A) (k : A -> Act B) : Act B :=
  fun db =>
    match m db with
    | (db', Normal a) => k a db'
    | (db', Sent r) => (db', Sent r)
    | (db', Thrown e) => (db', Thrown e)
    end.

(** [return res.status(c).json(...)]. *)
Definition send {A} (r : Response) : Act A := fun db => (db, Sent r).

Definition throw {A} (e : Js.Exn) : Act A := fun db => (db, Thrown e).

Definition read {A} (f : DB -> A) : Act A := fun db => (db, Normal (f db)).

Definition write (f : DB -> DB) : Act unit := fun db => (f db, Normal tt).

(** [if (c) return res.status(..).json(..)]. *)
Definition reject_if (c : bool) (r : Response) : Act unit :=
  if c then send r else ret tt.

(** Evaluating a free identifier of the module. *)
Definition ident (G : Js.Scope) (x : string) : Act unit :=
  if Js.binds G x then ret tt else throw (Js.ReferenceError x).

Declare Scope act_scope.
Delimit Scope act_scope with act.
Notation "x <- m ;; k" := (bind m (fun x => k))
  (at level 61, m at next level, right associativity) : act_scope.
Notation "m ;;; k" := (bind m (fun _ => k))
  (at level 61, right associativity) : act_scope.
Local Open Scope act_scope.

(** [try { body } catch (error) { res.status(500).json(..) }]. *)
Definition route (body : Act Response) (on_error : Response)
  : DB -> DB * Response :=
  fun db =>
    match body db with
    | (db', Normal r) => (db', r)
    | (db', Sent r) => (db', r)
    | (db', Thrown _) => (db', on_error)
    end.

Definition server_error : Response := fail 500 "Server error".

(** ** ORM calls *)

Section Orm.
Context {R : Type} (key : R -> Z).

(** [Model.findByPk(k)] *)
Definition findByPk (rows : list R) (k : Z) : option R :=
  find (fun r => key r =? k) rows.

(** [instance.update({...})]: the row with the instance's primary key is
    replaced by the updated instance. *)
Definition save (r : R) (rows : list R) : list R :=
  map (fun x => if key x =? key r then r else x) rows.

(** [Model.update(values, { where })] *)
Definition update_where (p : R -> bool) (f : R -> R) (rows : list R)
  : list R :=
  map (fun x => if p x then f x else x) rows.
End Orm.

Definition Table_findByPk (k : Z) : Act (option Table.row) :=
  read (fun db => findByPk Table.id (tables db) k).

Definition Table_save (t : Table.row) : Act unit :=
  write (fun db => with_tables db (save Table.id t (tables db))).

Definition Session_findByPk (k : Z) : Act (option Session.row) :=
  read (fun db => findByPk Session.id (sessions db) k).

Definition Session_save (s : Session.row) : Act unit :=
  write (fun db => with_sessions db (save Session.id s (sessions db))).

(** [Order.findAll({ where })] *)
Definition Order_findAll (p : Order.row -> bool) : Act (list Order.row) :=
  read (fun db => filter p (orders db)).

(** What a request handler reads from outside the store: the clock and the
    identifier a model's [beforeCreate] hook generates. *)
Record Env := {
  now : Z;
  generated_id : string
}.

(** The [where] clause shared by the session and billing routes:
    [{ table_id, created_at: { [Op.gte]: from, [Op.lte]: to } }]. *)
Definition in_window (table_id from to : Z) (o : Order.row) : bool :=
  (Order.table_id o =? table_id)
  && (from <=? Order.created_at o) && (Order.created_at o <=? to).

(** [orders.reduce((sum, order) => sum + parseFloat(order.total), 0)] *)
Definition sum_totals (os : list Order.row) : Q :=
  fold_left (fun sum order => (sum + Order.total order)%Q) os 0%Q.

(** ** routes/sessions.js *)

Module Sessions.

(** The top-level bindings of routes/sessions.js (lines 1-6). *)
Definition scope : Js.Scope :=
  ["express"; "body"; "validationResult";
   "Session"; "Table"; "Order"; "User"; "auth"; "router"].

Record StartBody := {
  table_id : Z;
  customer_name : string;
  customer_phone : string
}.

(** Modelled from the spec: middleware/auth.js is not among the sources;
    [user_id] is [req.user.id], the id of the authenticated user the
    bearer-token middleware attaches to the request. *)
Record StartRequest := {
  body : StartBody;
  user_id : Z
}.

(** The validation chain of [POST /start], on the sanitized body. *)
Definition validate_start (b : StartBody) : list string :=
  (if String.eqb (customer_name b) EmptyString
   then ["Customer name is required"] else [])
  ++ (if String.eqb (customer_phone b) EmptyString
      then ["Customer phone is required"] else []).

(** [Session.create({...})] of the start route, with the defaults of the
    model. *)
Definition new_session (env : Env) (req : StartRequest) (table : Table.row)
           (new_id : Z) : Session.row :=
  {| Session.id := new_id;
     Session.session_id := generated_id env;
     Session.table_id := table_id (body req);
     Session.table_number := Table.table_number table;
     Session.customer_name := customer_name (body req);
     Session.customer_phone := customer_phone (body req);
     Session.start_time := now env;
     Session.end_time := None;
     Session.duration := 0;
     Session.hourly_rate := Table.hourly_rate table;
     Session.session_cost := 0%Q;
     Session.total_order_cost := 0%Q;
     Session.subtotal := 0%Q;
     Session.tax := 0%Q;
     Session.service_fee := 0%Q;
     Session.discount := 0%Q;
     Session.total := 0%Q;
     Session.payment_status := unpaid;
     Session.payment_method := None;
     Session.status := active;
     Session.extensions := [];
     Session.created_by := user_id req;
     Session.plug_controlled := false |}.

Definition Session_create (env : Env) (req : StartRequest)
           (table : Table.row) : Act Session.row :=
  fun db =>
    let s := new_session env req table
               (next_id (map Session.id (sessions db))) in
    (with_sessions db (sessions db ++ [s]), Normal s).

(** [table.update({ status: 'occupied', current_session_id,
    session_start_time, customer_name, customer_phone })] *)
Definition occupy (t : Table.row) (s : Session.row)
           (name phone : string) : Table.row :=
  {| Table.id := Table.id t;
     Table.table_number := Table.table_number t;
     Table.name := Table.name t;
     Table.type := Table.type t;
     Table.location := Table.location t;
     Table.capacity := Table.capacity t;
     Table.status := occupied;
     Table.hourly_rate := Table.hourly_rate t;
     Table.plug_id := Table.plug_id t;
     Table.plug_status := Table.plug_status t;
     Table.current_session_id := Some (Session.id s);
     Table.session_start_time := Some (Session.start_time s);
     Table.session_end_time := Table.session_end_time t;
     Table.customer_name := Some name;
     Table.customer_phone := Some phone;
     Table.is_active := Table.is_active t |}.

(** [table.update({ plug_status })] *)
Definition set_plug_status (t : Table.row) (p : PlugStatus) : Table.row :=
  {| Table.id := Table.id t;
     Table.table_number := Table.table_number t;
     Table.name := Table.name t;
     Table.type := Table.type t;
     Table.location := Table.location t;
     Table.capacity := Table.capacity t;
     Table.status := Table.status t;
     Table.hourly_rate := Table.hourly_rate t;
     Table.plug_id := Table.plug_id t;
     Table.plug_status := p;
     Table.current_session_id := Table.current_session_id t;
     Table.session_start_time := Table.session_start_time t;
     Table.session_end_time := Table.session_end_time t;
     Table.customer_name := Table.customer_name t;
     Table.customer_phone := Table.customer_phone t;
     Table.is_active := Table.is_active t |}.

(** [session.table.update({ status: 'available', current_session_id: null,
    session_start_time: null, session_end_time: endTime,
    customer_name: null, customer_phone: null, plug_status: 'offline' })] *)
Definition release (t : Table.row) (endTime : Z) : Table.row :=
  {| Table.id := Table.id t;
     Table.table_number := Table.table_number t;
     Table.name := Table.name t;
     Table.type := Table.type t;
     Table.location := Table.location t;
     Table.capacity := Table.capacity t;
     Table.status := available;
     Table.hourly_rate := Table.hourly_rate t;
     Table.plug_id := Table.plug_id t;
     Table.plug_status := offline;
     Table.current_session_id := None;
     Table.session_start_time := None;
     Table.session_end_time := Some endTime;
     Table.customer_name := None;
     Table.customer_phone := None;
     Table.is_active := Table.is_active t |}.

(** [POST /start] *)
Definition start (env : Env) (req : StartRequest) : DB -> DB * Response :=
  route
    (let errors := validate_start (body req) in
     reject_if (negb (Nat.eqb (List.length errors) 0))
               (validation_failed errors) ;;;
     let name := customer_name (body req) in
     let phone := customer_phone (body req) in
     found <- Table_findByPk (table_id (body req)) ;;
     match found with
     | None => send (fail 404 "Table not found")
     | Some table =>
       reject_if (negb (TableStatus_eqb (Table.status table) available))
                 (fail 400 "Table is not available") ;;;
       session <- Session_create env req table ;;
       let table1 := occupy table session name phone in
       Table_save table1 ;;;
       (if Js.truthy_str (Table.plug_id table1)
        then Table_save (set_plug_status table1 online)
        else ret tt) ;;;
       completeSession <- Session_findByPk (Session.id session) ;;
       itsTable <- Table_findByPk (Session.table_id session) ;;
       ret (ok 201 "Session started successfully"
               (SessionWithTable completeSession itsTable))
     end)
    server_error.

(** [Math.ceil((endTime - session.start_time) / (1000 * 60))] *)
Definition minutes_between (start_time endTime : Z) : Z :=
  Js.Math_ceil (inject_Z (endTime - start_time) / inject_Z (1000 * 60)).

(** [(duration / 60) * session.hourly_rate] *)
Definition cost_of (duration : Z) (hourly_rate : Q) : Q :=
  (inject_Z duration / 60) * hourly_rate.

(** [session.update({ end_time, duration, session_cost, total_order_cost,
    subtotal, tax, service_fee, total, status: 'completed' })] *)
Definition ended (s : Session.row) (endTime duration : Z)
           (sessionCost totalOrderCost subtotal tax serviceFee total : Q)
  : Session.row :=
  {| Session.id := Session.id s;
     Session.session_id := Session.session_id s;
     Session.table_id := Session.table_id s;
     Session.table_number := Session.table_number s;
     Session.customer_name := Session.customer_name s;
     Session.customer_phone := Session.customer_phone s;
     Session.start_time := Session.start_time s;
     Session.end_time := Some endTime;
     Session.duration := duration;
     Session.hourly_rate := Session.hourly_rate s;
     Session.session_cost := sessionCost;
     Session.total_order_cost := totalOrderCost;
     Session.subtotal := subtotal;
     Session.tax := tax;
     Session.service_fee := serviceFee;
     Session.discount := Session.discount s;
     Session.total := total;
     Session.payment_status := Session.payment_status s;
     Session.payment_method := Session.payment_method s;
     Session.status := completed;
     Session.extensions := Session.extensions s;
     Session.created_by := Session.created_by s;
     Session.plug_controlled := Session.plug_controlled s |}.

(** The row [POST /:id/end] computes for [session] from the orders the
    query returned (lines 206-238). *)
Definition bill (session : Session.row) (endTime : Z)
           (orders : list Order.row) : Session.row :=
  let duration := minutes_between (Session.start_time session) endTime in
  let sessionCost := cost_of duration (Session.hourly_rate session) in
  let totalOrderCost := sum_totals orders in
  let subtotal := (sessionCost + totalOrderCost)%Q in
  let tax := (subtotal * 0.085)%Q in
  let serviceFee := (subtotal * 0.05)%Q in
  let total := (subtotal + tax + serviceFee)%Q in
  ended session endTime duration sessionCost totalOrderCost
        subtotal tax serviceFee total.

(** [POST /:id/end], in a module whose top-level bindings are [G]. *)
Definition end_session_in (G : Js.Scope) (env : Env) (id : Z)
  : DB -> DB * Response :=
  route
    (found <- Session_findByPk id ;;
     match found with
     | None => send (fail 404 "Session not found")
     | Some session =>
       itsTable <- Table_findByPk (Session.table_id session) ;;
       reject_if (negb (SessionStatus_eqb (Session.status session) active))
                 (fail 400 "Session is not active") ;;;
       let endTime := now env in
       ident G "Op" ;;;
       orders <- Order_findAll
                   (in_window (Session.table_id session)
                              (Session.start_time session) endTime) ;;
       let session1 := bill session endTime orders in
       Session_save session1 ;;;
       match itsTable with
       | None => throw (Js.TypeError "session.table is null")
       | Some table => Table_save (release table endTime)
       end ;;;
       ret (ok 200 "Session ended successfully" (SessionData session1))
     end)
    server_error.

(** [POST /:id/end] as routes/sessions.js defines it. *)
Definition end_session : Env -> Z -> DB -> DB * Response :=
  end_session_in scope.

End Sessions.

(** ** routes/billing.js *)

Module Billing.

(** The top-level bindings of routes/billing.js (lines 1-6). *)
Definition scope : Js.Scope :=
  ["express"; "body"; "validationResult";
   "Session"; "Order"; "OrderItem"; "Table"; "auth"; "router"].

Record DiscountBody := {
  discount_type : DiscountType;
  discount_value : Q;
  reason : option string
}.

(** Modelled from the spec: middleware/auth.js is not among the sources;
    [user] is [req.user], the authenticated user the bearer-token
    middleware attaches to the request, with its permission bundle. *)
Record DiscountRequest := {
  sessionId : Z;
  body : DiscountBody;
  user : User.row
}.

(** The validation chain of [POST /session/:sessionId/discount]; the
    type of [discount_type] already excludes every other string. *)
Definition validate_discount (b : DiscountBody) : list string :=
  if Qle_bool 0 (discount_value b) then []
  else ["Discount value must be positive"].

(** [req.user.permissions?.specialPermissions?.discounts] *)
Definition userPermissions (u : User.row) : option User.discounts :=
  match User.perms u with
  | Some p => User.specialPermissions_discounts p
  | None => None
  end.

(** [userPermissions?.item], [userPermissions?.bill] as conditions. *)
Definition may_item (d : option User.discounts) : bool :=
  match d with Some d => User.item d | None => false end.

Definition may_bill (d : option User.discounts) : bool :=
  match d with Some d => User.bill d | None => false end.

(** [userPermissions?.maxDiscount || 0] *)
Definition max_discount (d : option User.discounts) : Q :=
  match d with
  | Some d => Js.opt_or0 (User.maxDiscount d)
  | None => 0%Q
  end.

(** [session.update({ discount, total })] *)
Definition discounted (s : Session.row) (discount total : Q) : Session.row :=
  {| Session.id := Session.id s;
     Session.session_id := Session.session_id s;
     Session.table_id := Session.table_id s;
     Session.table_number := Session.table_number s;
     Session.customer_name := Session.customer_name s;
     Session.customer_phone := Session.customer_phone s;
     Session.start_time := Session.start_time s;
     Session.end_time := Session.end_time s;
     Session.duration := Session.duration s;
     Session.hourly_rate := Session.hourly_rate s;
     Session.session_cost := Session.session_cost s;
     Session.total_order_cost := Session.total_order_cost s;
     Session.subtotal := Session.subtotal s;
     Session.tax := Session.tax s;
     Session.service_fee := Session.service_fee s;
     Session.discount := discount;
     Session.total := total;
     Session.payment_status := Session.payment_status s;
     Session.payment_method := Session.payment_method s;
     Session.status := Session.status s;
     Session.extensions := Session.extensions s;
     Session.created_by := Session.created_by s;
     Session.plug_controlled := Session.plug_controlled s |}.

(** The amount a discount request takes off (lines 132-139). *)
Definition discount_amount (b : DiscountBody) (subtotal : Q) : Q :=
  match discount_type b with
  | percentage => (subtotal * discount_value b) / 100
  | fixed => discount_value b
  end.

Definition is_percentage (t : DiscountType) : bool :=
  match t with percentage => true | fixed => false end.

(** [POST /session/:sessionId/discount] *)
Definition discount (req : DiscountRequest) : DB -> DB * Response :=
  route
    (let errors := validate_discount (body req) in
     reject_if (negb (Nat.eqb (List.length errors) 0))
               (validation_failed errors) ;;;
     found <- Session_findByPk (sessionId req) ;;
     match found with
     | None => send (fail 404 "Session not found")
     | Some session =>
       let perms := userPermissions (user req) in
       reject_if (negb (may_item perms) && negb (may_bill perms))
                 (fail 403 "Insufficient permissions to apply discount") ;;;
       let maxDiscount := max_discount perms in
       reject_if (is_percentage (discount_type (body req))
                  && Js.gt (discount_value (body req)) maxDiscount)
                 {| code := 400; success := false;
                    message := Some (MaxDiscountMsg maxDiscount);
                    data := NoData |} ;;;
       let subtotal := Js.or0 (Session.subtotal session) in
       let discountAmount := discount_amount (body req) subtotal in
       let tax := Js.or0 (Session.tax session) in
       let serviceFee := Js.or0 (Session.service_fee session) in
       let newTotal := (subtotal + tax + serviceFee - discountAmount)%Q in
       let session1 :=
         discounted session discountAmount (Js.Math_max 0 newTotal) in
       Session_save session1 ;;;
       ret (ok 200 "Discount applied successfully"
               (DiscountData session1 discountAmount newTotal))
     end)
    server_error.

Record PaymentBody := {
  payment_method : PaymentMethod;
  amount_paid : Q
}.

Record PaymentRequest := {
  pay_sessionId : Z;
  pay_body : PaymentBody
}.

(** The validation chain of [POST /session/:sessionId/payment]. *)
Definition validate_payment (b : PaymentBody) : list string :=
  if Qle_bool 0 (amount_paid b) then []
  else ["Amount paid must be positive"].

(** [session.update({ payment_status: 'paid', payment_method })] *)
Definition mark_paid (s : Session.row) (m : PaymentMethod) : Session.row :=
  {| Session.id := Session.id s;
     Session.session_id := Session.session_id s;
     Session.table_id := Session.table_id s;
     Session.table_number := Session.table_number s;
     Session.customer_name := Session.customer_name s;
     Session.customer_phone := Session.customer_phone s;
     Session.start_time := Session.start_time s;
     Session.end_time := Session.end_time s;
     Session.duration := Session.duration s;
     Session.hourly_rate := Session.hourly_rate s;
     Session.session_cost := Session.session_cost s;
     Session.total_order_cost := Session.total_order_cost s;
     Session.subtotal := Session.subtotal s;
     Session.tax := Session.tax s;
     Session.service_fee := Session.service_fee s;
     Session.discount := Session.discount s;
     Session.total := Session.total s;
     Session.payment_status := paid;
     Session.payment_method := Some m;
     Session.status := Session.status s;
     Session.extensions := Session.extensions s;
     Session.created_by := Session.created_by s;
     Session.plug_controlled := Session.plug_controlled s |}.

(** [session.update({ end_time, duration, session_cost,
    status: 'completed' })] (lines 220-225). *)
Definition closed (s : Session.row) (endTime duration : Z) (sessionCost : Q)
  : Session.row :=
  {| Session.id := Session.id s;
     Session.session_id := Session.session_id s;
     Session.table_id := Session.table_id s;
     Session.table_number := Session.table_number s;
     Session.customer_name := Session.customer_name s;
     Session.customer_phone := Session.customer_phone s;
     Session.start_time := Session.start_time s;
     Session.end_time := Some endTime;
     Session.duration := duration;
     Session.hourly_rate := Session.hourly_rate s;
     Session.session_cost := sessionCost;
     Session.total_order_cost := Session.total_order_cost s;
     Session.subtotal := Session.subtotal s;
     Session.tax := Session.tax s;
     Session.service_fee := Session.service_fee s;
     Session.discount := Session.discount s;
     Session.total := Session.total s;
     Session.payment_status := Session.payment_status s;
     Session.payment_method := Session.payment_method s;
     Session.status := completed;
     Session.extensions := Session.extensions s;
     Session.created_by := Session.created_by s;
     Session.plug_controlled := Session.plug_controlled s |}.

(** [{ payment_status: 'paid' }] applied to an order. *)
Definition order_paid (o : Order.row) : Order.row :=
  {| Order.id := Order.id o;
     Order.order_id := Order.order_id o;
     Order.table_id := Order.table_id o;
     Order.table_number := Order.table_number o;
     Order.customer_name := Order.customer_name o;
     Order.customer_phone := Order.customer_phone o;
     Order.service_type := Order.service_type o;
     Order.order_type := Order.order_type o;
     Order.status := Order.status o;
     Order.subtotal := Order.subtotal o;
     Order.tax := Order.tax o;
     Order.discount := Order.discount o;
     Order.total := Order.total o;
     Order.payment_status := paid;
     Order.payment_method := Order.payment_method o;
     Order.kot_printed := Order.kot_printed o;
     Order.kot_printed_at := Order.kot_printed_at o;
     Order.created_by := Order.created_by o;
     Order.special_instructions := Order.special_instructions o;
     Order.created_at := Order.created_at o |}.

(** The row the payment route leaves for a session that was still active
    (lines 215-225). *)
Definition close_inline (session : Session.row) (endTime : Z) : Session.row :=
  let duration :=
    Sessions.minutes_between (Session.start_time session) endTime in
  let sessionCost := Sessions.cost_of duration (Session.hourly_rate session) in
  closed session endTime duration sessionCost.

(** [POST /session/:sessionId/payment], in a module whose top-level
    bindings are [G]. *)
Definition payment_in (G : Js.Scope) (env : Env) (req : PaymentRequest)
  : DB -> DB * Response :=
  route
    (let errors := validate_payment (pay_body req) in
     reject_if (negb (Nat.eqb (List.length errors) 0))
               (validation_failed errors) ;;;
     found <- Session_findByPk (pay_sessionId req) ;;
     match found with
     | None => send (fail 404 "Session not found")
     | Some session =>
       itsTable <- Table_findByPk (Session.table_id session) ;;
       reject_if (PaymentStatus_eqb (Session.payment_status session) paid)
                 (fail 400 "Session already paid") ;;;
       let session1 :=
         mark_paid session (payment_method (pay_body req)) in
       Session_save session1 ;;;
       session2 <-
         (if SessionStatus_eqb (Session.status session1) active
          then
            let endTime := now env in
            let session2 := close_inline session1 endTime in
            Session_save session2 ;;;
            match itsTable with
            | None => throw (Js.TypeError "session.table is null")
            | Some table => Table_save (Sessions.release table endTime)
            end ;;;
            ret session2
          else ret session1) ;;
       ident G "Op" ;;;
       write (fun db =>
                with_orders db
                  (update_where
                     (in_window (Session.table_id session2)
                                (Session.start_time session2)
                                (Js.date_or (Session.end_time session2)
                                            (now env)))
                     order_paid (orders db))) ;;;
       ret (ok 200 "Payment processed successfully" (SessionData session2))
     end)
    server_error.

(** [POST /session/:sessionId/payment] as routes/billing.js defines it. *)
Definition payment : Env -> PaymentRequest -> DB -> DB * Response :=
  payment_in scope.

End Billing.

(** ** routes/kot.js *)

Module Kot.

(** [orderItem.update({ status })] *)
Definition item_with_status (i : OrderItem.row) (st : ItemStatus)
  : OrderItem.row :=
  {| OrderItem.id := OrderItem.id i;
     OrderItem.order_id := OrderItem.order_id i;
     OrderItem.menu_item_id := OrderItem.menu_item_id i;
     OrderItem.name := OrderItem.name i;
     OrderItem.price := OrderItem.price i;
     OrderItem.quantity := OrderItem.quantity i;
     OrderItem.status := st;
     OrderItem.special_instructions := OrderItem.special_instructions i |}.

(** [{ status }] applied to an order. *)
Definition order_with_status (o : Order.row) (st : OrderStatus) : Order.row :=
  {| Order.id := Order.id o;
     Order.order_id := Order.order_id o;
     Order.table_id := Order.table_id o;
     Order.table_number := Order.table_number o;
     Order.customer_name := Order.customer_name o;
     Order.customer_phone := Order.customer_phone o;
     Order.service_type := Order.service_type o;
     Order.order_type := Order.order_type o;
     Order.status := st;
     Order.subtotal := Order.subtotal o;
     Order.tax := Order.tax o;
     Order.discount := Order.discount o;
     Order.total := Order.total o;
     Order.payment_status := Order.payment_status o;
     Order.payment_method := Order.payment_method o;
     Order.kot_printed := Order.kot_printed o;
     Order.kot_printed_at := Order.kot_printed_at o;
     Order.created_by := Order.created_by o;
     Order.special_instructions := Order.special_instructions o;
     Order.created_at := Order.created_at o |}.

(** [item => item.status === 'ready'] *)
Definition is_ready (item : OrderItem.row) : bool :=
  ItemStatus_eqb (OrderItem.status item) i_ready.

(** [OrderItem.findAll({ where: { order_id } })] *)
Definition items_of (order_id : Z) (items : list OrderItem.row)
  : list OrderItem.row :=
  filter (fun i => OrderItem.order_id i =? order_id) items.

(** [Order.update({ status: 'ready' }, { where: { id } })] *)
Definition mark_order_ready (order_id : Z) (os : list Order.row)
  : list Order.row :=
  update_where (fun o => Order.id o =? order_id)
               (fun o => order_with_status o o_ready) os.

(** [PATCH /items/:itemId/complete] *)
Definition complete_item (itemId : Z) : DB -> DB * Response :=
  route
    (found <- read (fun db => findByPk OrderItem.id (order_items db) itemId) ;;
     match found with
     | None => send (fail 404 "Order item not found")
     | Some orderItem =>
       let orderItem1 := item_with_status orderItem i_ready in
       write (fun db =>
                with_order_items db
                  (save OrderItem.id orderItem1 (order_items db))) ;;;
       allItems <- read (fun db =>
                           items_of (OrderItem.order_id orderItem1)
                                    (order_items db)) ;;
       let allReady := forallb is_ready allItems in
       (if allReady
        then write (fun db =>
                      with_orders db
                        (mark_order_ready (OrderItem.order_id orderItem1)
                                          (orders db)))
        else ret tt) ;;;
       ret (ok 200 "Item marked as complete" (OrderItemData orderItem1))
     end)
    server_error.

End Kot.

(** ** routes/orders.js *)

Module Orders.

(** One requested line of [req.body.items]. *)
Record Line := {
  menu_item_id : Z;
  quantity : Z;
  line_instructions : option string
}.

Record CreateBody := {
  table_id : Z;
  customer_name : string;
  customer_phone : string;
  service_type : option string;
  order_type : string;
  items : list Line;
  special_instructions : option string
}.

(** [user_id] is [req.user.id], as in [Sessions.StartRequest]. *)
Record CreateRequest := {
  body : CreateBody;
  user_id : Z
}.

Definition order_types : list string := ["food"; "drinks"; "games"; "mixed"].

(** The validation chain of [POST /], on the sanitized body. *)
Definition validate_create (b : CreateBody) : list string :=
  (if String.eqb (customer_name b) EmptyString
   then ["Customer name is required"] else [])
  ++ (if String.eqb (customer_phone b) EmptyString
      then ["Customer phone is required"] else [])
  ++ (if existsb (String.eqb (order_type b)) order_types
      then [] else ["Invalid order type"])
  ++ (if (1 <=? Z.of_nat (List.length (items b)))
      then [] else ["At least one item is required"])
  ++ (if forallb (fun l => 1 <=? quantity l) (items b)
      then [] else ["Quantity must be at least 1"]).

(** An element of the local [orderItems] array. *)
Record Pending := {
  p_menu_item_id : Z;
  p_name : string;
  p_price : Q;
  p_quantity : Z;
  p_special_instructions : option string
}.

Definition MenuItem_findByPk (k : Z) : Act (option MenuItem.row) :=
  read (fun db => findByPk MenuItem.id (menu_items db) k).

(** The message of the 400 response for a line (line 397). *)
Definition unavailable (found : option MenuItem.row) (l : Line) : Response :=
  {| code := 400; success := false;
     message := Some match found with
                     | Some m => ItemUnavailableName (MenuItem.name m)
                     | None => ItemUnavailableId (menu_item_id l)
                     end;
     data := NoData |}.


(** [orderItems.push({...})] *)
Definition pending_of (menuItem : MenuItem.row) (item : Line) : Pending :=
  {| p_menu_item_id := MenuItem.id menuItem;
     p_name := MenuItem.name menuItem;
     p_price := MenuItem.price menuItem;
     p_quantity := quantity item;
     p_special_instructions := line_instructions item |}.

(** The [for (const item of items)] loop of lines 392-411, from the
    current [subtotal] and [orderItems]. *)
Fixpoint price_lines (ls : list Line) (subtotal : Q)
         (orderItems : list Pending) : Act (Q * list Pending) :=
  match ls with
  | [] => ret (subtotal, orderItems)
  | item :: rest =>
    found <- MenuItem_findByPk (menu_item_id item) ;;
    match found with
    | None => send (unavailable found item)
    | Some menuItem =>
      if negb (MenuItem.is_available menuItem)
      then send (unavailable found item)
      else
        let itemTotal :=
          (MenuItem.price menuItem * inject_Z (quantity item))%Q in
        price_lines rest (subtotal + itemTotal)%Q
                    (orderItems ++ [pending_of menuItem item])
    end
  end.

(** [Order.create({...})] with the defaults of the model. *)
Definition new_order (env : Env) (req : CreateRequest) (table : Table.row)
           (subtotal tax total : Q) (new_id : Z) : Order.row :=
  let b := body req in
  {| Order.id := new_id;
     Order.order_id := generated_id env;
     Order.table_id := table_id b;
     Order.table_number := Table.table_number table;
     Order.customer_name := customer_name b;
     Order.customer_phone := customer_phone b;
     Order.service_type :=
       match service_type b with Some s => s | None => "dine-in" end;
     Order.order_type := order_type b;
     Order.status := o_pending;
     Order.subtotal := subtotal;
     Order.tax := tax;
     Order.discount := 0%Q;
     Order.total := total;
     Order.payment_status := unpaid;
     Order.payment_method := None;
     Order.kot_printed := false;
     Order.kot_printed_at := None;
     Order.created_by := user_id req;
     Order.special_instructions := special_instructions b;
     Order.created_at := now env |}.

Definition Order_create (env : Env) (req : CreateRequest) (table : Table.row)
           (subtotal tax total : Q) : Act Order.row :=
  fun db =>
    let o := new_order env req table subtotal tax total
               (next_id (map Order.id (orders db))) in
    (with_orders db (orders db ++ [o]), Normal o).

(** [OrderItem.create({ order_id: order.id, ...item })] *)
Definition new_item (order : Order.row) (item : Pending) (new_id : Z)
  : OrderItem.row :=
  {| OrderItem.id := new_id;
     OrderItem.order_id := Order.id order;
     OrderItem.menu_item_id := p_menu_item_id item;
     OrderItem.name := p_name item;
     OrderItem.price := p_price item;
     OrderItem.quantity := p_quantity item;
     OrderItem.status := i_pending;
     OrderItem.special_instructions := p_special_instructions item |}.

Definition OrderItem_create (order : Order.row) (item : Pending) : Act unit :=
  write (fun db =>
           with_order_items db
             (order_items db
              ++ [new_item order item
                    (next_id (map OrderItem.id (order_items db)))])).

(** The [for (const item of orderItems)] loop of lines 432-437. *)
Fixpoint create_items (order : Order.row) (orderItems : list Pending)
  : Act unit :=
  match orderItems with
  | [] => ret tt
  | item :: rest => OrderItem_create order item ;;; create_items order rest
  end.

(** [POST /] *)
Definition create (env : Env) (req : CreateRequest) : DB -> DB * Response :=
  route
    (let errors := validate_create (body req) in
     reject_if (negb (Nat.eqb (List.length errors) 0))
               (validation_failed errors) ;;;
     found <- Table_findByPk (table_id (body req)) ;;
     match found with
     | None => send (fail 404 "Table not found")
     | Some table =>
       priced <- price_lines (items (body req)) 0%Q [] ;;
       let subtotal := fst priced in
       let orderItems := snd priced in
       let tax := (subtotal * 0.085)%Q in
       let total := (subtotal + tax)%Q in
       order <- Order_create env req table subtotal tax total ;;
       create_items order orderItems ;;;
       completeOrder <- read (fun db =>
                                findByPk Order.id (orders db) (Order.id order)) ;;
       itsItems <- read (fun db =>
                           Kot.items_of (Order.id order) (order_items db)) ;;
       ret (ok 201 "Order created successfully"
               (OrderData completeOrder itsItems))
     end)
    server_error.

End Orders.

(** ** routes/reservations.js *)

Module Reservations.

Record CreateBody := {
  customer_name : string;
  customer_phone : string;
  customer_email : option string;
  table_type : string;
  reservation_date : string;
  reservation_time : string;
  duration : option Z;
  party_size : Z;
  special_requests : option string;
  sms_notification : option bool;
  email_notification : option bool
}.

(** The route has no authentication middleware: [user_id] is
    [req.user?.id || null]. *)
Record CreateRequest := {
  body : CreateBody;
  user_id : option Z
}.

Definition table_types : list string :=
  ["Snooker Table"; "Pool Table"; "PlayStation Station";
   "Restaurant Table"; "Dining Table"].

(** [table_type.replace(' Table', '').replace(' Station', '')] *)
Definition table_kind (table_type : string) : string :=
  Js.replace " Station" EmptyString
             (Js.replace " Table" EmptyString table_type).

(** [where: { type, status: 'available', is_active: true }] *)
Definition candidate (table_type : string) (t : Table.row) : bool :=
  String.eqb (TableType_name (Table.type t)) (table_kind table_type)
  && TableStatus_eqb (Table.status t) available
  && Bool.eqb (Table.is_active t) true.

(** [where: { table_type, reservation_date, reservation_time,
    status: ['confirmed', 'arrived'] }] *)
Definition conflicting (b : CreateBody) (r : Reservation.row) : bool :=
  String.eqb (Reservation.table_type r) (table_type b)
  && String.eqb (Reservation.reservation_date r) (reservation_date b)
  && String.eqb (Reservation.reservation_time r) (reservation_time b)
  && (ReservationStatus_eqb (Reservation.status r) r_confirmed
      || ReservationStatus_eqb (Reservation.status r) r_arrived).

(** [Reservation.create({...})] with the defaults of the model. *)
Definition new_reservation (env : Env) (req : CreateRequest)
           (assignedTable : Table.row) (new_id : Z) : Reservation.row :=
  let b := body req in
  {| Reservation.id := new_id;
     Reservation.reservation_id := generated_id env;
     Reservation.customer_name := customer_name b;
     Reservation.customer_phone := customer_phone b;
     Reservation.customer_email := customer_email b;
     Reservation.table_id := Some (Table.id assignedTable);
     Reservation.table_type := table_type b;
     Reservation.reservation_date := reservation_date b;
     Reservation.reservation_time := reservation_time b;
     Reservation.duration :=
       match duration b with Some d => d | None => 2 end;
     Reservation.party_size := party_size b;
     Reservation.special_requests := special_requests b;
     Reservation.status := r_confirmed;
     Reservation.sms_notification :=
       match sms_notification b with Some v => v | None => true end;
     Reservation.email_notification :=
       match email_notification b with Some v => v | None => true end;
     Reservation.created_by := user_id req |}.

Section Create.
(** The format checks of the validation library. *)
Variable isISO8601 : string -> bool.
Variable isTime : string -> bool.

(** The validation chain of [POST /], on the sanitized body. *)
Definition validate_create (b : CreateBody) : list string :=
  (if String.eqb (customer_name b) EmptyString
   then ["Customer name is required"] else [])
  ++ (if String.eqb (customer_phone b) EmptyString
      then ["Customer phone is required"] else [])
  ++ (if existsb (String.eqb (table_type b)) table_types
      then [] else ["Invalid table type"])
  ++ (if isISO8601 (reservation_date b)
      then [] else ["Valid reservation date is required"])
  ++ (if isTime (reservation_time b)
      then [] else ["Valid reservation time is required (HH:MM format)"])
  ++ (if 1 <=? party_size b
      then [] else ["Party size must be at least 1"]).

(** [POST /] *)
Definition create (env : Env) (req : CreateRequest)
  : DB -> DB * Response :=
  route
    (let errors := validate_create (body req) in
     reject_if (negb (Nat.eqb (List.length errors) 0))
               (validation_failed errors) ;;;
     availableTables <-
       read (fun db => filter (candidate (table_type (body req)))
                              (tables db)) ;;
     match availableTables with
     | [] => send (fail 400 "No tables available for the selected type")
     | assignedTable :: _ =>
       conflictingReservations <-
         read (fun db =>
                 filter (conflicting (body req)) (reservations db)) ;;
       reject_if (Nat.leb (List.length availableTables)
                          (List.length conflictingReservations))
                 (fail 400 "No tables available at the requested time") ;;;
       reservation <-
         (fun db =>
            let r := new_reservation env req assignedTable
                       (next_id (map Reservation.id (reservations db))) in
            (with_reservations db (reservations db ++ [r]), Normal r)) ;;
       completeReservation <-
         read (fun db => findByPk Reservation.id (reservations db)
                                  (Reservation.id reservation)) ;;
       itsTable <- Table_findByPk (Table.id assignedTable) ;;
       ret (ok 201 "Reservation created successfully"
               (ReservationData completeReservation itsTable))
     end)
    server_error.
End Create.

End Reservations.

(** ** routes/auth.js *)

Module Auth.

Record RegisterBody := {
  name : string;
  username : string;
  email : string;
  password : string;
  phone : string;
  role : option Role
}.

(** The permission bundle literal of each role (lines 45-91), as far as
    [User.permissions] records it. *)
Definition permissions_of (r : Role) : User.permissions :=
  match r with
  | Admin =>
    {| User.specialPermissions_discounts :=
         Some {| User.item := true; User.bill := true; User.offers := true;
                 User.maxDiscount := Some 25%Q |};
       User.canManageStaff := true |}
  | Manager =>
    {| User.specialPermissions_discounts :=
         Some {| User.item := true; User.bill := true; User.offers := true;
                 User.maxDiscount := Some 15%Q |};
       User.canManageStaff := false |}
  | Staff =>
    {| User.specialPermissions_discounts :=
         Some {| User.item := false; User.bill := false; User.offers := false;
                 User.maxDiscount := Some 0%Q |};
       User.canManageStaff := false |}
  | User_role =>
    {| User.specialPermissions_discounts := None;
       User.canManageStaff := false |}
  end.

(** [where: { $or: [{ email }, { username }] }], the disjunction of its two
    clauses. *)
Definition same_email_or_username (b : RegisterBody) (u : User.row) : bool :=
  String.eqb (User.email u) (email b)
  || String.eqb (User.username u) (username b).

Section Register.
(** The e-mail format check of the validation library, the password
    hash the User model applies before saving, and the token signer. *)
Variable isEmail : string -> bool.
Variable hash : string -> string.
Variable sign : Z -> Role -> string.

(** The validation chain of [POST /register], on the sanitized body. *)
Definition validate_register (b : RegisterBody) : list string :=
  (if Nat.leb 2 (String.length (name b))
   then [] else ["Name must be at least 2 characters"])
  ++ (if Nat.leb 3 (String.length (username b))
      then [] else ["Username must be at least 3 characters"])
  ++ (if isEmail (email b)
      then [] else ["Please provide a valid email"])
  ++ (if Nat.leb 3 (String.length (password b))
      then [] else ["Password must be at least 3 characters"])
  ++ (if String.eqb (phone b) EmptyString
      then ["Phone number is required"] else []).

(** [User.create({...})] *)
Definition new_user (b : RegisterBody) (new_id : Z) : User.row :=
  let r := match role b with Some r => r | None => User_role end in
  {| User.id := new_id;
     User.name := name b;
     User.username := username b;
     User.email := email b;
     User.password := hash (password b);
     User.phone := phone b;
     User.role := r;
     User.perms := Some (permissions_of r);
     User.is_active := true;
     User.last_login := None |}.

(** [POST /register] *)
Definition register (b : RegisterBody) : DB -> DB * Response :=
  route
    (let errors := validate_register b in
     reject_if (negb (Nat.eqb (List.length errors) 0))
               (validation_failed errors) ;;;
     existingUser <-
       read (fun db => find (same_email_or_username b) (users db)) ;;
     reject_if (match existingUser with Some _ => true | None => false end)
               (fail 400 "User with this email or username already exists") ;;;
     user <-
       (fun db =>
          let u := new_user b (next_id (map User.id (users db))) in
          (with_users db (users db ++ [u]), Normal u)) ;;
     let token := sign (User.id user) (User.role user) in
     ret (ok 201 "User registered successfully"
             (UserData {| pu_id := User.id user;
                          pu_name := User.name user;
                          pu_username := User.username user;
                          pu_email := User.email user;
                          pu_phone := User.phone user;
                          pu_role := User.role user |}
                       token)))
    (fail 500 "Server error during registration").
End Register.

End Auth.

(** ** Replies with a payload *)

(** A handler's answer: an error response, or a success with its status
    code, message and the value under [data]. *)
Inductive Reply (A : Type) :=
| Refused (r : Response)
| Replied (c : Z) (m : string) (payload : A).
Arguments Refused {A} r.
Arguments Replied {A} c m payload.

Definition reply_code {A} (r : Reply A) : Z :=
  match r with
  | Refused r => code r
  | Replied c _ _ => c
  end.

(** [try { body } catch (error) { res.status(500).json(..) }] for a body
    that ends with [res.json({ success: true, message, data })]. *)
Definition reply_route {A} (body : Act (string * A)) (on_error : Response)
  : DB -> DB * Reply A :=
  fun db =>
    match body db with
    | (db', Normal (m, a)) => (db', Replied 200 m a)
    | (db', Sent r) => (db', Refused r)
    | (db', Thrown _) => (db', Refused on_error)
    end.

(** ** routes/sessions.js: pause, resume and single-session routes *)

Module SessionLifecycle.

(** [session.update({ status })] *)
Definition with_status (s : Session.row) (st : SessionStatus) : Session.row :=
  {| Session.id := Session.id s;
     Session.session_id := Session.session_id s;
     Session.table_id := Session.table_id s;
     Session.table_number := Session.table_number s;
     Session.customer_name := Session.customer_name s;
     Session.customer_phone := Session.customer_phone s;
     Session.start_time := Session.start_time s;
     Session.end_time := Session.end_time s;
     Session.duration := Session.duration s;
     Session.hourly_rate := Session.hourly_rate s;
     Session.session_cost := Session.session_cost s;
     Session.total_order_cost := Session.total_order_cost s;
     Session.subtotal := Session.subtotal s;
     Session.tax := Session.tax s;
     Session.service_fee := Session.service_fee s;
     Session.discount := Session.discount s;
     Session.total := Session.total s;
     Session.payment_status := Session.payment_status s;
     Session.payment_method := Session.payment_method s;
     Session.status := st;
     Session.extensions := Session.extensions s;
     Session.created_by := Session.created_by s;
     Session.plug_controlled := Session.plug_controlled s |}.

(** [POST /:id/pause] (lines 321-353) *)
Definition pause (id : Z) : DB -> DB * Reply Session.row :=
  reply_route
    (found <- Session_findByPk id ;;
     match found with
     | None => send (fail 404 "Session not found")
     | Some session =>
       reject_if (negb (SessionStatus_eqb (Session.status session) active))
                 (fail 400 "Session is not active") ;;;
       let session1 := with_status session paused in
       Session_save session1 ;;;
       ret ("Session paused successfully", session1)
     end)
    server_error.

(** [POST /:id/resume] (lines 356-388) *)
Definition resume (id : Z) : DB -> DB * Reply Session.row :=
  reply_route
    (found <- Session_findByPk id ;;
     match found with
     | None => send (fail 404 "Session not found")
     | Some session =>
       reject_if (negb (SessionStatus_eqb (Session.status session) paused))
                 (fail 400 "Session is not paused") ;;;
       let session1 := with_status session active in
       Session_save session1 ;;;
       ret ("Session resumed successfully", session1)
     end)
    server_error.

(** [GET /:id] (lines 48-96), in a module whose top-level bindings are
    [G]; the success message is absent from this response. *)
Definition get_in (G : Js.Scope) (env : Env) (id : Z)
  : DB -> DB * Reply (Session.row * list Order.row) :=
  reply_route
    (found <- Session_findByPk id ;;
     match found with
     | None => send (fail 404 "Session not found")
     | Some session =>
       ident G "Op" ;;;
       orders <- Order_findAll
                   (in_window (Session.table_id session)
                              (Session.start_time session)
                              (Js.date_or (Session.end_time session)
                                          (now env))) ;;
       ret (EmptyString, (session, orders))
     end)
    server_error.

(** [GET /:id] as routes/sessions.js defines it. *)
Definition get : Env -> Z -> DB -> DB * Reply (Session.row * list Order.row) :=
  get_in Sessions.scope.

End SessionLifecycle.

(** ** routes/orders.js: status, item status, KOT print and cancel routes *)

Module OrderUpdates.

(** [order.update({ kot_printed: true, kot_printed_at: new Date() })] *)
Definition kot_printed_at (o : Order.row) (at_ : Z) : Order.row :=
  {| Order.id := Order.id o;
     Order.order_id := Order.order_id o;
     Order.table_id := Order.table_id o;
     Order.table_number := Order.table_number o;
     Order.customer_name := Order.customer_name o;
     Order.customer_phone := Order.customer_phone o;
     Order.service_type := Order.service_type o;
     Order.order_type := Order.order_type o;
     Order.status := Order.status o;
     Order.subtotal := Order.subtotal o;
     Order.tax := Order.tax o;
     Order.discount := Order.discount o;
     Order.total := Order.total o;
     Order.payment_status := Order.payment_status o;
     Order.payment_method := Order.payment_method o;
     Order.kot_printed := true;
     Order.kot_printed_at := Some at_;
     Order.created_by := Order.created_by o;
     Order.special_instructions := Order.special_instructions o;
     Order.created_at := Order.created_at o |}.

Definition Order_findByPk (k : Z) : Act (option Order.row) :=
  read (fun db => findByPk Order.id (orders db) k).

Definition Order_save (o : Order.row) : Act unit :=
  write (fun db => with_orders db (save Order.id o (orders db))).

Definition OrderItem_save (i : OrderItem.row) : Act unit :=
  write (fun db => with_order_items db (save OrderItem.id i (order_items db))).

(** [order.status === 'served'] *)
Definition is_served (st : OrderStatus) : bool :=
  match st with o_served => true | _ => false end.

(** [PATCH /:id/status] (lines 474-511); the type of [status] already
    excludes every string the validation chain refuses. *)
Definition update_status (id : Z) (status : OrderStatus)
  : DB -> DB * Reply Order.row :=
  reply_route
    (found <- Order_findByPk id ;;
     match found with
     | None => send (fail 404 "Order not found")
     | Some order =>
       let order1 := Kot.order_with_status order status in
       Order_save order1 ;;;
       ret ("Order status updated successfully", order1)
     end)
    server_error.

(** [where: { id: itemId, order_id: orderId }] *)
Definition item_of_order (itemId orderId : Z) (i : OrderItem.row) : bool :=
  (OrderItem.id i =? itemId) && (OrderItem.order_id i =? orderId).

(** [PATCH /:orderId/items/:itemId/status] (lines 514-558) *)
Definition update_item_status (orderId itemId : Z) (status : ItemStatus)
  : DB -> DB * Reply OrderItem.row :=
  reply_route
    (found <- read (fun db => find (item_of_order itemId orderId)
                                   (order_items db)) ;;
     match found with
     | None => send (fail 404 "Order item not found")
     | Some orderItem =>
       let orderItem1 := Kot.item_with_status orderItem status in
       OrderItem_save orderItem1 ;;;
       ret ("Order item status updated successfully", orderItem1)
     end)
    server_error.

(** [POST /:id/kot] (lines 561-610) *)
Definition print_kot (env : Env) (id : Z) : DB -> DB * Reply Order.row :=
  reply_route
    (found <- Order_findByPk id ;;
     match found with
     | None => send (fail 404 "Order not found")
     | Some order =>
       let order1 := kot_printed_at order (now env) in
       Order_save order1 ;;;
       ret ("KOT printed successfully", order1)
     end)
    server_error.

(** [DELETE /:id] (lines 613-643) *)
Definition cancel (id : Z) : DB -> DB * Reply unit :=
  reply_route
    (found <- Order_findByPk id ;;
     match found with
     | None => send (fail 404 "Order not found")
     | Some order =>
       reject_if (is_served (Order.status order))
                 (fail 400 "Cannot cancel served order") ;;;
       Order_save (Kot.order_with_status order o_cancelled) ;;;
       ret ("Order cancelled successfully", tt)
     end)
    server_error.

End OrderUpdates.

(** ** routes/kot.js: completing a whole order *)

Module KotOrders.

(** [PATCH /orders/:orderId/complete] (lines 131-163) *)
Definition complete_order (orderId : Z) : DB -> DB * Reply Order.row :=
  reply_route
    (found <- OrderUpdates.Order_findByPk orderId ;;
     match found with
     | None => send (fail 404 "Order not found")
     | Some order =>
       write (fun db =>
                with_order_items db
                  (update_where
                     (fun i => OrderItem.order_id i =? Order.id order)
                     (fun i => Kot.item_with_status i i_ready)
                     (order_items db))) ;;;
       let order1 := Kot.order_with_status order o_ready in
       OrderUpdates.Order_save order1 ;;;
       ret ("Order marked as complete", order1)
     end)
    server_error.

End KotOrders.

(** ** routes/reservations.js: status and cancel routes *)

Module ReservationUpdates.

(** [reservation.update({ status })] *)
Definition with_status (r : Reservation.row) (st : ReservationStatus)
  : Reservation.row :=
  {| Reservation.id := Reservation.id r;
     Reservation.reservation_id := Reservation.reservation_id r;
     Reservation.customer_name := Reservation.customer_name r;
     Reservation.customer_phone := Reservation.customer_phone r;
     Reservation.customer_email := Reservation.customer_email r;
     Reservation.table_id := Reservation.table_id r;
     Reservation.table_type := Reservation.table_type r;
     Reservation.reservation_date := Reservation.reservation_date r;
     Reservation.reservation_time := Reservation.reservation_time r;
     Reservation.duration := Reservation.duration r;
     Reservation.party_size := Reservation.party_size r;
     Reservation.special_requests := Reservation.special_requests r;
     Reservation.status := st;
     Reservation.sms_notification := Reservation.sms_notification r;
     Reservation.email_notification := Reservation.email_notification r;
     Reservation.created_by := Reservation.created_by r |}.

(** [{ status }] applied to a table. *)
Definition table_with_status (t : Table.row) (st : TableStatus) : Table.row :=
  {| Table.id := Table.id t;
     Table.table_number := Table.table_number t;
     Table.name := Table.name t;
     Table.type := Table.type t;
     Table.location := Table.location t;
     Table.capacity := Table.capacity t;
     Table.status := st;
     Table.hourly_rate := Table.hourly_rate t;
     Table.plug_id := Table.plug_id t;
     Table.plug_status := Table.plug_status t;
     Table.current_session_id := Table.current_session_id t;
     Table.session_start_time := Table.session_start_time t;
     Table.session_end_time := Table.session_end_time t;
     Table.customer_name := Table.customer_name t;
     Table.customer_phone := Table.customer_phone t;
     Table.is_active := Table.is_active t |}.

(** [Table.update({ status }, { where: { id } })] *)
Definition set_table_status (id : Z) (st : TableStatus) : Act unit :=
  write (fun db =>
           with_tables db
             (update_where (fun t => Table.id t =? id)
                           (fun t => table_with_status t st) (tables db))).

(** [cond && reservation.table_id]: the table id when it is truthy. *)
Definition linked_table (r : Reservation.row) : option Z :=
  match Reservation.table_id r with
  | Some k => if k =? 0 then None else Some k
  | None => None
  end.

(** [['cancelled', 'completed', 'no-show'].includes(status)] *)
Definition frees_table (st : ReservationStatus) : bool :=
  match st with
  | r_cancelled | r_completed | r_no_show => true
  | _ => false
  end.

Definition Reservation_findByPk (k : Z) : Act (option Reservation.row) :=
  read (fun db => findByPk Reservation.id (reservations db) k).

Definition Reservation_save (r : Reservation.row) : Act unit :=
  write (fun db =>
           with_reservations db (save Reservation.id r (reservations db))).

(** [PATCH /:id/status] (lines 197-250); the type of [status] already
    excludes every string the validation chain refuses. *)
Definition update_status (id : Z) (status : ReservationStatus)
  : DB -> DB * Reply Reservation.row :=
  reply_route
    (found <- Reservation_findByPk id ;;
     match found with
     | None => send (fail 404 "Reservation not found")
     | Some reservation =>
       let reservation1 := with_status reservation status in
       Reservation_save reservation1 ;;;
       match ReservationStatus_eqb status r_arrived, linked_table reservation1 with
       | true, Some k => set_table_status k reserved
       | _, _ => ret tt
       end ;;;
       match frees_table status, linked_table reservation1 with
       | true, Some k => set_table_status k available
       | _, _ => ret tt
       end ;;;
       ret ("Reservation status updated successfully", reservation1)
     end)
    server_error.

(** [DELETE /:id] (lines 302-340) *)
Definition cancel (id : Z) : DB -> DB * Reply unit :=
  reply_route
    (found <- Reservation_findByPk id ;;
     match found with
     | None => send (fail 404 "Reservation not found")
     | Some reservation =>
       reject_if (ReservationStatus_eqb (Reservation.status reservation)
                                        r_completed)
                 (fail 400 "Cannot cancel completed reservation") ;;;
       let reservation1 := with_status reservation r_cancelled in
       Reservation_save reservation1 ;;;
       match linked_table reservation1 with
       | Some k => set_table_status k available
       | None => ret tt
       end ;;;
       ret ("Reservation cancelled successfully", tt)
     end)
    server_error.

End ReservationUpdates.

(** ** routes/tables.js: deleting a table *)

Module Tables.

(** [table.update({ is_active: false })] *)
Definition deactivated (t : Table.row) : Table.row :=
  {| Table.id := Table.id t;
     Table.table_number := Table.table_number t;
     Table.name := Table.name t;
     Table.type := Table.type t;
     Table.location := Table.location t;
     Table.capacity := Table.capacity t;
     Table.status := Table.status t;
     Table.hourly_rate := Table.hourly_rate t;
     Table.plug_id := Table.plug_id t;
     Table.plug_status := Table.plug_status t;
     Table.current_session_id := Table.current_session_id t;
     Table.session_start_time := Table.session_start_time t;
     Table.session_end_time := Table.session_end_time t;
     Table.customer_name := Table.customer_name t;
     Table.customer_phone := Table.customer_phone t;
     Table.is_active := false |}.

(** [DELETE /:id] (lines 320-353), after the role check of the
    authorization middleware. *)
Definition delete (id : Z) : DB -> DB * Reply unit :=
  reply_route
    (found <- Table_findByPk id ;;
     match found with
     | None => send (fail 404 "Table not found")
     | Some table =>
       reject_if (TableStatus_eqb (Table.status table) occupied)
                 (fail 400 "Cannot delete table with active session") ;;;
       Table_save (deactivated table) ;;;
       ret ("Table deleted successfully", tt)
     end)
    server_error.

(** The sanitized body of [POST /]; [type], [capacity] and [hourly_rate]
    have the types their checks ([isIn], [isInt], [isFloat]) let through. *)
Record CreateBody := {
  table_number : string;
  name : string;
  type : TableType;
  location : string;
  capacity : Z;
  hourly_rate : Q;
  plug_id : option string
}.

(** The validation chain of [POST /] (lines 87-92). *)
Definition validate_create (b : CreateBody) : list string :=
  (if String.eqb (table_number b) EmptyString
   then ["Table number is required"] else [])
  ++ (if String.eqb (name b) EmptyString
      then ["Table name is required"] else [])
  ++ (if String.eqb (location b) EmptyString
      then ["Location is required"] else [])
  ++ (if 1 <=? capacity b then [] else ["Capacity must be at least 1"])
  ++ (if Qle_bool 0 (hourly_rate b)
      then [] else ["Hourly rate must be a positive number"]).

(** [where: { table_number }] *)
Definition has_number (n : string) (t : Table.row) : bool :=
  String.eqb (Table.table_number t) n.

(** [Table.create({...})] with the defaults of the model. *)
Definition new_table (b : CreateBody) (new_id : Z) : Table.row :=
  {| Table.id := new_id;
     Table.table_number := table_number b;
     Table.name := name b;
     Table.type := type b;
     Table.location := location b;
     Table.capacity := capacity b;
     Table.status := available;
     Table.hourly_rate := hourly_rate b;
     Table.plug_id := plug_id b;
     Table.plug_status := offline;
     Table.current_session_id := None;
     Table.session_start_time := None;
     Table.session_end_time := None;
     Table.customer_name := None;
     Table.customer_phone := None;
     Table.is_active := true |}.

(** A handler body that ends with [res.status(201).json(...)]. *)
Definition created_route {A} (body : Act (string * A)) (on_error : Response)
  : DB -> DB * Reply A :=
  fun db =>
    match body db with
    | (db', Normal (m, a)) => (db', Replied 201 m a)
    | (db', Sent r) => (db', Refused r)
    | (db', Thrown _) => (db', Refused on_error)
    end.

(** [POST /] (lines 86-141), after the role check of the authorization
    middleware; the chain already enforces the bounds of the model's own
    validators. *)
Definition create (b : CreateBody) : DB -> DB * Reply Table.row :=
  created_route
    (let errors := validate_create b in
     reject_if (negb (Nat.eqb (List.length errors) 0))
               (validation_failed errors) ;;;
     existingTable <-
       read (fun db => find (has_number (table_number b)) (tables db)) ;;
     reject_if (match existingTable with Some _ => true | None => false end)
               (fail 400 "Table number already exists") ;;;
     table <-
       (fun db =>
          let t := new_table b (next_id (map Table.id (tables db))) in
          (with_tables db (tables db ++ [t]), Normal t)) ;;
     ret ("Table created successfully", table))
    server_error.

(** The body of [PUT /:id], which no chain checks: a field is [None] when
    the body leaves it out, and has the type of its column otherwise;
    [u_plug_id] tells a missing field from [null]. *)
Record UpdateBody := {
  u_table_number : option string;
  u_name : option string;
  u_type : option TableType;
  u_location : option string;
  u_capacity : option Z;
  u_hourly_rate : option Q;
  u_plug_id : option (option string);
  u_status : option TableStatus
}.

(** [x || y] on strings: the empty string is falsy. *)
Definition str_or (x : option string) (y : string) : string :=
  match x with
  | Some s => if String.eqb s EmptyString then y else s
  | None => y
  end.

(** [x || y] on integers and on numbers: [0] is falsy. *)
Definition int_or (x : option Z) (y : Z) : Z :=
  match x with
  | Some n => if n =? 0 then y else n
  | None => y
  end.

Definition num_or (x : option Q) (y : Q) : Q :=
  match x with
  | Some q => if Qeq_bool q 0 then y else q
  | None => y
  end.

(** [x || y] on enumeration values: every name is truthy. *)
Definition val_or {A} (x : option A) (y : A) : A :=
  match x with Some a => a | None => y end.

(** The values [table.update({...})] receives (lines 170-180), without
    the [features] list, which the rows leave out. *)
Definition updated (table : Table.row) (b : UpdateBody) : Table.row :=
  {| Table.id := Table.id table;
     Table.table_number := str_or (u_table_number b) (Table.table_number table);
     Table.name := str_or (u_name b) (Table.name table);
     Table.type := val_or (u_type b) (Table.type table);
     Table.location := str_or (u_location b) (Table.location table);
     Table.capacity := int_or (u_capacity b) (Table.capacity table);
     Table.status := val_or (u_status b) (Table.status table);
     Table.hourly_rate := num_or (u_hourly_rate b) (Table.hourly_rate table);
     Table.plug_id := val_or (u_plug_id b) (Table.plug_id table);
     Table.plug_status := Table.plug_status table;
     Table.current_session_id := Table.current_session_id table;
     Table.session_start_time := Table.session_start_time table;
     Table.session_end_time := Table.session_end_time table;
     Table.customer_name := Table.customer_name table;
     Table.customer_phone := Table.customer_phone table;
     Table.is_active := Table.is_active table |}.

(** The validators of the Table model (src/models/Table.js lines 26-44):
    [capacity] at least 1 and [hourly_rate] at least 0. *)
Definition model_valid (t : Table.row) : bool :=
  (1 <=? Table.capacity t) && Qle_bool 0 (Table.hourly_rate t).

(** [table_number && table_number !== table.table_number] *)
Definition renumbers (b : UpdateBody) (table : Table.row) : option string :=
  match u_table_number b with
  | Some n =>
    if String.eqb n EmptyString then None
    else if String.eqb n (Table.table_number table) then None
    else Some n
  | None => None
  end.

(** [PUT /:id] (lines 144-195), after the role check of the authorization
    middleware.  [table.update] runs the model's validators on the values
    it is given and rejects when one fails; the [catch] of the route
    answers that rejection. *)
Definition update (id : Z) (b : UpdateBody) : DB -> DB * Reply Table.row :=
  reply_route
    (found <- Table_findByPk id ;;
     match found with
     | None => send (fail 404 "Table not found")
     | Some table =>
       match renumbers b table with
       | Some n =>
         existingTable <- read (fun db => find (has_number n) (tables db)) ;;
         reject_if (match existingTable with Some _ => true | None => false end)
                   (fail 400 "Table number already exists")
       | None => ret tt
       end ;;;
       let table1 := updated table b in
       reject_if (negb (model_valid table1)) server_error ;;;
       Table_save table1 ;;;
       ret ("Table updated successfully", table1)
     end)
    server_error.

(** [PATCH /:id/status] (lines 197-231); [None] stands for a [status] that
    is not one of the four names. *)
Definition update_status (id : Z) (status : option TableStatus)
  : DB -> DB * Reply Table.row :=
  reply_route
    (match status with
     | None => send (fail 400 "Invalid status")
     | Some st =>
       found <- Table_findByPk id ;;
       match found with
       | None => send (fail 404 "Table not found")
       | Some table =>
         let table1 := ReservationUpdates.table_with_status table st in
         Table_save table1 ;;;
         ret ("Table status updated successfully", table1)
       end
     end)
    server_error.

(** [table.update({ plug_id, plug_status: 'offline' })] *)
Definition with_plug (t : Table.row) (plug : option string) (st : PlugStatus)
  : Table.row :=
  {| Table.id := Table.id t;
     Table.table_number := Table.table_number t;
     Table.name := Table.name t;
     Table.type := Table.type t;
     Table.location := Table.location t;
     Table.capacity := Table.capacity t;
     Table.status := Table.status t;
     Table.hourly_rate := Table.hourly_rate t;
     Table.plug_id := plug;
     Table.plug_status := st;
     Table.current_session_id := Table.current_session_id t;
     Table.session_start_time := Table.session_start_time t;
     Table.session_end_time := Table.session_end_time t;
     Table.customer_name := Table.customer_name t;
     Table.customer_phone := Table.customer_phone t;
     Table.is_active := Table.is_active t |}.

(** [POST /:id/plug] (lines 233-273), on the trimmed [plug_id]. *)
Definition map_plug (id : Z) (plug : string) : DB -> DB * Reply Table.row :=
  reply_route
    (let errors := if String.eqb plug EmptyString
                   then ["Plug ID is required"] else [] in
     reject_if (negb (Nat.eqb (List.length errors) 0))
               (validation_failed errors) ;;;
     found <- Table_findByPk id ;;
     match found with
     | None => send (fail 404 "Table not found")
     | Some table =>
       let table1 := with_plug table (Some plug) offline in
       Table_save table1 ;;;
       ret ("Smart plug mapped successfully", table1)
     end)
    server_error.

(** The two values the chain of [POST /:id/plug/control] lets through. *)
Inductive PlugAction := turn_on | turn_off.

Definition PlugAction_name (a : PlugAction) : string :=
  match a with turn_on => "on" | turn_off => "off" end.

(** [POST /:id/plug/control] (lines 276-318) *)
Definition control_plug (id : Z) (action : PlugAction)
  : DB -> DB * Reply Table.row :=
  reply_route
    (found <- Table_findByPk id ;;
     match found with
     | None => send (fail 404 "Table or smart plug not found")
     | Some table =>
       reject_if (negb (Js.truthy_str (Table.plug_id table)))
                 (fail 404 "Table or smart plug not found") ;;;
       let table1 :=
         with_plug table (Table.plug_id table)
                   (match action with
                    | turn_on => online | turn_off => offline end) in
       Table_save table1 ;;;
       ret (("Smart plug turned " ++ PlugAction_name action)%string, table1)
     end)
    server_error.

End Tables.

(** ** routes/auth.js: login, and routes/users.js: deleting a staff member *)

Module Login.

Record LoginBody := {
  email : string;
  password : string;
  role : string
}.

(** The string a [role] column holds. *)
Definition Role_name (r : Role) : string :=
  match r with
  | Admin => "Admin" | Manager => "Manager"
  | Staff => "Staff" | User_role => "User"
  end.

(** [where: { email, role, is_active: true }] *)
Definition matches (b : LoginBody) (u : User.row) : bool :=
  String.eqb (User.email u) (email b)
  && String.eqb (Role_name (User.role u)) (role b)
  && Bool.eqb (User.is_active u) true.

(** [user.update({ last_login: new Date() })] *)
Definition logged_in (u : User.row) (at_ : Z) : User.row :=
  {| User.id := User.id u;
     User.name := User.name u;
     User.username := User.username u;
     User.email := User.email u;
     User.password := User.password u;
     User.phone := User.phone u;
     User.role := User.role u;
     User.perms := User.perms u;
     User.is_active := User.is_active u;
     User.last_login := Some at_ |}.

(** [user.update({ is_active: false })] *)
Definition deactivated (u : User.row) : User.row :=
  {| User.id := User.id u;
     User.name := User.name u;
     User.username := User.username u;
     User.email := User.email u;
     User.password := User.password u;
     User.phone := User.phone u;
     User.role := User.role u;
     User.perms := User.perms u;
     User.is_active := false;
     User.last_login := User.last_login u |}.

Definition User_save (u : User.row) : Act unit :=
  write (fun db => with_users db (save User.id u (users db))).

(** [user.role === 'Admin'] *)
Definition is_admin (r : Role) : bool :=
  match r with Admin => true | _ => false end.

(** [DELETE /staff/:id] (src/unnamed/part_003 lines 174-208), after the
    role check of the authorization middleware. *)
Definition delete_staff (id : Z) : DB -> DB * Reply unit :=
  reply_route
    (found <- read (fun db => findByPk User.id (users db) id) ;;
     match found with
     | None => send (fail 404 "User not found")
     | Some user =>
       reject_if (is_admin (User.role user))
                 (fail 400 "Cannot delete admin user") ;;;
       User_save (deactivated user) ;;;
       ret ("Staff member deleted successfully", tt)
     end)
    server_error.

Section Login.
(** The e-mail format check of the validation library, the comparison of
    a candidate password with a stored hash ([user.comparePassword]) and
    the token signer. *)
Variable isEmail : string -> bool.
Variable compare : string -> string -> bool.
Variable sign : Z -> Role -> string.

(** The validation chain of [POST /login]. *)
Definition validate_login (b : LoginBody) : list string :=
  (if isEmail (email b) then [] else ["Please provide a valid email"])
  ++ (if String.eqb (password b) EmptyString
      then ["Password is required"] else [])
  ++ (if String.eqb (role b) EmptyString
      then ["Role is required"] else []).

(** The [user] object of the login response. *)
Definition public (u : User.row) : PublicUser * option User.permissions :=
  ({| pu_id := User.id u; pu_name := User.name u;
      pu_username := User.username u; pu_email := User.email u;
      pu_phone := User.phone u; pu_role := User.role u |},
   User.perms u).

(** [POST /login] (src/routes/auth.js lines 136-207); the payload is the
    user with its permission bundle, and the token. *)
Definition login (env : Env) (b : LoginBody)
  : DB -> DB * Reply (PublicUser * option User.permissions * string) :=
  reply_route
    (let errors := validate_login b in
     reject_if (negb (Nat.eqb (List.length errors) 0))
               (validation_failed errors) ;;;
     found <- read (fun db => find (matches b) (users db)) ;;
     match found with
     | None => send (fail 401 "Invalid credentials or role")
     | Some user =>
       reject_if (negb (compare (password b) (User.password user)))
                 (fail 401 "Invalid credentials") ;;;
       let user1 := logged_in user (now env) in
       User_save user1 ;;;
       let token := sign (User.id user1) (User.role user1) in
       ret ("Login successful", (public user1, token))
     end)
    (fail 500 "Server error during login").
End Login.

End Login.

(** ** routes/billing.js: the bill of a session *)

Module BillViews.

(** The [summary] object of a bill. *)
Record Summary := {
  session_cost : Q;
  orders_cost : Q;
  subtotal : Q;
  tax : Q;
  service_fee : Q;
  discount : Q;
  total : Q
}.

(** The [bill] object: the session with its [current_session_cost], the
    orders and the summary. *)
Record Bill := {
  session : Session.row;
  current_session_cost : Q;
  orders : list Order.row;
  summary : Summary
}.

(** [GET /session/:sessionId] (src/unnamed/part_000 lines 9-86), in a
    module whose top-level bindings are [G].  The argument of
    [Order.findAll] reads [Op] in its [where] and then [MenuItem] in its
    [include]; both clock reads of the request happen at [now env]. *)
Definition bill_in (G : Js.Scope) (env : Env) (sessionId : Z)
  : DB -> DB * Reply Bill :=
  reply_route
    (found <- Session_findByPk sessionId ;;
     match found with
     | None => send (fail 404 "Session not found")
     | Some session =>
       ident G "Op" ;;;
       ident G "MenuItem" ;;;
       orders <- Order_findAll
                   (in_window (Session.table_id session)
                              (Session.start_time session)
                              (Js.date_or (Session.end_time session)
                                          (now env))) ;;
       let currentSessionCost :=
         if SessionStatus_eqb (Session.status session) active
         then Sessions.cost_of
                (Sessions.minutes_between (Session.start_time session)
                                          (now env))
                (Session.hourly_rate session)
         else Session.session_cost session in
       ret (EmptyString,
            {| session := session;
               current_session_cost := currentSessionCost;
               orders := orders;
               summary :=
                 {| session_cost := currentSessionCost;
                    orders_cost := sum_totals orders;
                    subtotal := Js.or0 (Session.subtotal session);
                    tax := Js.or0 (Session.tax session);
                    service_fee := Js.or0 (Session.service_fee session);
                    discount := Js.or0 (Session.discount session);
                    total := Js.or0 (Session.total session) |} |})
     end)
    server_error.

(** [GET /session/:sessionId] as routes/billing.js defines it. *)
Definition bill : Env -> Z -> DB -> DB * Reply Bill := bill_in Billing.scope.

End BillViews.

(** ** routes/kot.js: the statistics of the day *)

Module KotStats.

(** The top-level bindings of routes/kot.js (lines 1-5). *)
Definition scope : Js.Scope :=
  ["express"; "Order"; "OrderItem"; "MenuItem"; "Table"; "auth"; "router"].

(** An order item as a query hands it over: [menuItem] is set only when
    the query includes the menu item. *)
Record LoadedItem := {
  item : OrderItem.row;
  menuItem : option MenuItem.row
}.

(** An order with its [items]. *)
Record LoadedOrder := {
  order : Order.row;
  items : list LoadedItem
}.

Record PrinterStat := {
  p_total : nat;
  p_completed : nat;
  p_pending : nat
}.

Record Stats := {
  totalKOTs : nat;
  completedKOTs : nat;
  pendingKOTs : nat;
  averageTime : Z;
  printerStats : list (string * PrinterStat)
}.

(** [o.status === 'ready' || o.status === 'served'] *)
Definition is_completed (o : LoadedOrder) : bool :=
  match Order.status (order o) with
  | o_ready | o_served => true
  | _ => false
  end.

(** [['confirmed', 'preparing'].includes(o.status)] *)
Definition is_pending (o : LoadedOrder) : bool :=
  match Order.status (order o) with
  | o_confirmed | o_preparing => true
  | _ => false
  end.

(** [include: [{ model: OrderItem, as: 'items' }]]: the items of the
    order, without their menu items. *)
Definition with_items (db : DB) (o : Order.row) : LoadedOrder :=
  {| order := o;
     items := map (fun i => {| item := i; menuItem := None |})
                  (Kot.items_of (Order.id o) (order_items db)) |}.

(** [item.menuItem?.printer === printer] *)
Definition printed_on (printer : string) (i : LoadedItem) : bool :=
  match menuItem i with
  | Some m => String.eqb (MenuItem.printer m) printer
  | None => false
  end.

Definition printerTypes : list string :=
  ["Kitchen Printer"; "Bar Printer"; "Main Printer"; "Game Zone Printer"].

(** The body of the loop over [printerTypes] (lines 201-211). *)
Definition stat_of (todayOrders : list LoadedOrder) (printer : string)
  : string * PrinterStat :=
  let printerOrders :=
    filter (fun o => existsb (printed_on printer) (items o)) todayOrders in
  (printer,
   {| p_total := List.length printerOrders;
      p_completed := List.length (filter is_completed printerOrders);
      p_pending := List.length (filter is_pending printerOrders) |}).

Section Stats.
(** The local midnight that starts the day of an instant
    ([setHours(0, 0, 0, 0)]) and the one that starts the next day
    ([setDate(getDate() + 1)]). *)
Variable midnight : Z -> Z.
Variable next_midnight : Z -> Z.

(** [where: { kot_printed: true, created_at: { [Op.gte]: today,
    [Op.lt]: tomorrow } }] *)
Definition printed_today (env : Env) (o : Order.row) : bool :=
  Bool.eqb (Order.kot_printed o) true
  && (midnight (now env) <=? Order.created_at o)
  && (Order.created_at o <? next_midnight (now env)).

(** [GET /stats] (lines 166-224), in a module whose top-level bindings
    are [G]. *)
Definition stats_in (G : Js.Scope) (env : Env) : DB -> DB * Reply Stats :=
  reply_route
    (ident G "Op" ;;;
     todayOrders <-
       read (fun db => map (with_items db)
                           (filter (printed_today env) (orders db))) ;;
     ret (EmptyString,
          {| totalKOTs := List.length todayOrders;
             completedKOTs := List.length (filter is_completed todayOrders);
             pendingKOTs := List.length (filter is_pending todayOrders);
             averageTime := 0;
             printerStats := map (stat_of todayOrders) printerTypes |}))
    server_error.

(** [GET /stats] as routes/kot.js defines it. *)
Definition stats : Env -> DB -> DB * Reply Stats := stats_in scope.
End Stats.

End KotStats.

(** ** Derived notions used to state the properties *)






(** The rows the second loop appends, given the items already stored. *)
Fixpoint rows_from (order : Order.row) (ps : list Orders.Pending)
         (stored : list OrderItem.row) : list OrderItem.row :=
  match ps with
  | [] => []
  | p :: rest =>
    let r := Orders.new_item order p (next_id (map OrderItem.id stored)) in
    r :: rows_from order rest (stored ++ [r])
  end.



(** ** Sample stores and requests for the concrete runs *)

(** Sample rows and requests used by the concrete runs below. *)
Module Sample.

Definition snooker1 : Table.row :=
  {| Table.id := 1; Table.table_number := "T1"; Table.name := "Snooker 1";
     Table.type := Snooker; Table.location := "Hall"; Table.capacity := 4;
     Table.status := available; Table.hourly_rate := 120%Q;
     Table.plug_id := Some "plug-1"; Table.plug_status := offline;
     Table.current_session_id := None; Table.session_start_time := None;
     Table.session_end_time := None; Table.customer_name := None;
     Table.customer_phone := None; Table.is_active := true |}.

Definition pool2 : Table.row :=
  {| Table.id := 2; Table.table_number := "T2"; Table.name := "Pool 2";
     Table.type := Pool; Table.location := "Hall"; Table.capacity := 4;
     Table.status := maintenance; Table.hourly_rate := 90%Q;
     Table.plug_id := None; Table.plug_status := offline;
     Table.current_session_id := None; Table.session_start_time := None;
     Table.session_end_time := None; Table.customer_name := None;
     Table.customer_phone := None; Table.is_active := true |}.

Definition empty_store : DB :=
  {| tables := [snooker1; pool2]; sessions := []; orders := [];
     order_items := []; menu_items := []; reservations := []; users := [] |}.

Definition at_noon : Env :=
  {| now := 1000; generated_id := "SES-20240101-0001" |}.

Definition start_on (table_id : Z) : Sessions.StartRequest :=
  {| Sessions.body := {| Sessions.table_id := table_id;
                         Sessions.customer_name := "Ann";
                         Sessions.customer_phone := "555" |};
     Sessions.user_id := 7 |}.

End Sample.

Module SampleRun.
Import Sample.

(** Two orders placed on table 1 while its session runs; the second one
    was cancelled. *)
Definition order_on_1 (id : Z) (st : OrderStatus) (total : Q) (at_ : Z)
  : Order.row :=
  {| Order.id := id; Order.order_id := "ORD-20240101-0001";
     Order.table_id := 1; Order.table_number := "T1";
     Order.customer_name := "Ann"; Order.customer_phone := "555";
     Order.service_type := "dine-in"; Order.order_type := "food";
     Order.status := st; Order.subtotal := total; Order.tax := 0%Q;
     Order.discount := 0%Q; Order.total := total;
     Order.payment_status := unpaid; Order.payment_method := None;
     Order.kot_printed := false; Order.kot_printed_at := None;
     Order.created_by := 7; Order.special_instructions := None;
     Order.created_at := at_ |}.

Definition served_order : Order.row := order_on_1 1 o_served 20%Q 60000.
Definition cancelled_order : Order.row := order_on_1 2 o_cancelled 40%Q 120000.

(** The store after [POST /start] on table 1 at instant 1000, with the two
    orders. *)
Definition running : DB :=
  with_orders (fst (Sessions.start at_noon (start_on 1) empty_store))
              [served_order; cancelled_order].

(** Ninety minutes later. *)
Definition later : Env :=
  {| now := 1000 + 90 * 60000; generated_id := "SES-20240101-0002" |}.

Definition the_session (db : DB) : option Session.row :=
  findByPk Session.id (sessions db) 1.

End SampleRun.

Module SamplePay.
Definition by_card : Billing.PaymentRequest :=
  {| Billing.pay_sessionId := 1;
     Billing.pay_body := {| Billing.payment_method := card;
                            Billing.amount_paid := 300%Q |} |}.

Definition all_paid (os : list Order.row) : bool :=
  forallb (fun o => PaymentStatus_eqb (Order.payment_status o) paid) os.
End SamplePay.

Module SampleBill.
Import Sample SampleRun.

(** The session [POST /start] creates on table 1. *)
Definition started_session : Session.row :=
  Sessions.new_session at_noon (start_on 1) snooker1 1.

(** The sample session as the end route bills it in a module that binds
    [Op]: subtotal 240, tax 20.4, service fee 12. *)
Definition billed_session : Session.row :=
  Sessions.bill started_session (now later) [served_order; cancelled_order].

Definition billed_store : DB :=
  {| tables := [snooker1; pool2]; sessions := [billed_session];
     orders := [served_order; cancelled_order]; order_items := [];
     menu_items := []; reservations := []; users := [] |}.

Definition staff_member (r : Role) : User.row :=
  {| User.id := 7; User.name := "Sam"; User.username := "sam";
     User.email := "sam@example.org"; User.password := "hash";
     User.phone := "555"; User.role := r;
     User.perms := Some (Auth.permissions_of r);
     User.is_active := true; User.last_login := None |}.

Definition ask (r : Role) (t : DiscountType) (v : Q)
  : Billing.DiscountRequest :=
  {| Billing.sessionId := 1;
     Billing.body := {| Billing.discount_type := t;
                        Billing.discount_value := v;
                        Billing.reason := None |};
     Billing.user := staff_member r |}.
End SampleBill.

Module SampleKot.
Definition item (id order_id : Z) (st : ItemStatus) : OrderItem.row :=
  {| OrderItem.id := id; OrderItem.order_id := order_id;
     OrderItem.menu_item_id := 1; OrderItem.name := "Tea";
     OrderItem.price := 3%Q; OrderItem.quantity := 1;
     OrderItem.status := st; OrderItem.special_instructions := None |}.

(** Order 1 has items 1 (pending) and 2 (ready); order 2 has items 3 and
    4, both pending. *)
Definition kitchen : DB :=
  {| tables := [Sample.snooker1];
     sessions := [];
     orders := [SampleRun.order_on_1 1 o_preparing 6%Q 60000;
                SampleRun.order_on_1 2 o_preparing 6%Q 60000];
     order_items := [item 1 1 i_pending; item 2 1 i_ready;
                     item 3 2 i_pending; item 4 2 i_pending];
     menu_items := []; reservations := []; users := [] |}.
End SampleKot.

Module SampleOrder.
Definition dish (id : Z) (name : string) (price : Q) (avail : bool)
  : MenuItem.row :=
  {| MenuItem.id := id; MenuItem.name := name; MenuItem.category := "Food";
     MenuItem.subcategory := "Snacks"; MenuItem.price := price;
     MenuItem.printer := "Kitchen Printer"; MenuItem.is_available := avail;
     MenuItem.preparation_time := 15; MenuItem.is_popular := false |}.

Definition tea : MenuItem.row := dish 1 "Tea" 3%Q true.
Definition toast : MenuItem.row := dish 2 "Toast" 4.5%Q true.
Definition cake : MenuItem.row := dish 3 "Cake" 6%Q false.

Definition cafe : DB :=
  {| tables := [Sample.snooker1]; sessions := []; orders := [];
     order_items := []; menu_items := [tea; toast; cake];
     reservations := []; users := [] |}.

Definition line (menu_item_id quantity : Z) : Orders.Line :=
  {| Orders.menu_item_id := menu_item_id; Orders.quantity := quantity;
     Orders.line_instructions := None |}.

Definition ask (ls : list Orders.Line) : Orders.CreateRequest :=
  {| Orders.body := {| Orders.table_id := 1;
                       Orders.customer_name := "Ann";
                       Orders.customer_phone := "555";
                       Orders.service_type := None;
                       Orders.order_type := "food";
                       Orders.items := ls;
                       Orders.special_instructions := None |};
     Orders.user_id := 7 |}.

Definition at_one : Env :=
  {| now := 5000; generated_id := "ORD-20240101-0042" |}.
End SampleOrder.

Module SampleBooking.
Definition booking (id : Z) (st : ReservationStatus) : Reservation.row :=
  {| Reservation.id := id;
     Reservation.reservation_id := "RES-20240101-0001";
     Reservation.customer_name := "Bob"; Reservation.customer_phone := "556";
     Reservation.customer_email := None; Reservation.table_id := Some 1;
     Reservation.table_type := "Snooker Table";
     Reservation.reservation_date := "2024-02-01";
     Reservation.reservation_time := "18:00";
     Reservation.duration := 2; Reservation.party_size := 2;
     Reservation.special_requests := None; Reservation.status := st;
     Reservation.sms_notification := true;
     Reservation.email_notification := true;
     Reservation.created_by := None |}.


Definition ask (table_type : string) : Reservations.CreateRequest :=
  {| Reservations.body :=
       {| Reservations.customer_name := "Ann";
          Reservations.customer_phone := "555";
          Reservations.customer_email := None;
          Reservations.table_type := table_type;
          Reservations.reservation_date := "2024-02-01";
          Reservations.reservation_time := "18:00";
          Reservations.duration := None;
          Reservations.party_size := 2;
          Reservations.special_requests := None;
          Reservations.sms_notification := None;
          Reservations.email_notification := None |};
     Reservations.user_id := None |}.


End SampleBooking.

Module SampleAuth.

Definition plain_hash (s : string) : string := ("#" ++ s)%string.
Definition plain_sign (id : Z) (r : Role) : string := "token".
Definition any_email (s : string) : bool := true.

Definition register := Auth.register any_email plain_hash plain_sign.
End SampleAuth.

(** ** Sample stores for the further routes *)

Module SampleLifecycle.
(** The sample store with its running session and no orders. *)
Definition running : DB :=
  fst (Sessions.start Sample.at_noon (Sample.start_on 1) Sample.empty_store).
End SampleLifecycle.

(** The store after [PATCH /items/:itemId/complete] has been requested for
    each id of a list, in order. *)
Definition complete_items (ids : list Z) (db : DB) : DB :=
  fold_left (fun d k => fst (Kot.complete_item k d)) ids db.

(** What the item route does to one stored item when asked for id [k]. *)
Definition mark_ready (k : Z) (x : OrderItem.row) : OrderItem.row :=
  if OrderItem.id x =? k then Kot.item_with_status x i_ready else x.

(** The requests that write orders or order items. *)
Inductive OrderOp :=
| OpCreate (env : Env) (req : Orders.CreateRequest)
| OpStatus (id : Z) (status : OrderStatus)
| OpItemStatus (orderId itemId : Z) (status : ItemStatus)
| OpPrintKot (env : Env) (id : Z)
| OpCancel (id : Z)
| OpCompleteItem (itemId : Z)
| OpCompleteOrder (orderId : Z)
| OpPayment (G : Js.Scope) (env : Env) (req : Billing.PaymentRequest).

(** The store a request leaves. *)
Definition apply_op (op : OrderOp) (db : DB) : DB :=
  match op with
  | OpCreate env req => fst (Orders.create env req db)
  | OpStatus id st => fst (OrderUpdates.update_status id st db)
  | OpItemStatus orderId itemId st =>
    fst (OrderUpdates.update_item_status orderId itemId st db)
  | OpPrintKot env id => fst (OrderUpdates.print_kot env id db)
  | OpCancel id => fst (OrderUpdates.cancel id db)
  | OpCompleteItem itemId => fst (Kot.complete_item itemId db)
  | OpCompleteOrder orderId => fst (KotOrders.complete_order orderId db)
  | OpPayment G env req => fst (Billing.payment_in G env req db)
  end.

Definition run_ops (ops : list OrderOp) (db : DB) : DB :=
  fold_left (fun d op => apply_op op d) ops db.

(** An order whose total is subtotal + tax - discount. *)
Definition balanced (o : Order.row) : Prop :=
  (Order.total o == Order.subtotal o + Order.tax o - Order.discount o)%Q.

Module SampleHold.
(** The running sample session on table 1, with a confirmed reservation
    that holds the same table. *)
Definition held : DB :=
  with_reservations SampleLifecycle.running
                    [SampleBooking.booking 1 r_confirmed].

(** Table 1 as the start route left it. *)
Definition occupied_table : Table.row :=
  Sessions.set_plug_status
    (Sessions.occupy Sample.snooker1 SampleBill.started_session "Ann" "555")
    online.

End SampleHold.

Module SampleSlots.

End SampleSlots.

Module SampleAccounts.
(** A password comparison for [SampleAuth.plain_hash]. *)
Definition plain_compare (p h : string) : bool :=
  String.eqb h (SampleAuth.plain_hash p).

Definition owner : User.row :=
  {| User.id := 8; User.name := "Olga"; User.username := "olga";
     User.email := "olga@example.org"; User.password := "#root";
     User.phone := "556"; User.role := Admin;
     User.perms := Some (Auth.permissions_of Admin);
     User.is_active := true; User.last_login := None |}.

(** A staff member with id 7 and the owner. *)
Definition staffed : DB :=
  {| tables := []; sessions := []; orders := []; order_items := [];
     menu_items := []; reservations := [];
     users := [SampleBill.staff_member Staff; owner] |}.

Definition sam_logs_in : Login.LoginBody :=
  {| Login.email := "sam@example.org"; Login.password := "hash";
     Login.role := "Staff" |}.
End SampleAccounts.

(** The requests of routes/tables.js that write, and the store a sequence
    of them leaves. *)
Inductive TableOp :=
| TCreate (b : Tables.CreateBody)
| TUpdate (id : Z) (b : Tables.UpdateBody)
| TStatus (id : Z) (status : option TableStatus)
| TMapPlug (id : Z) (plug : string)
| TControlPlug (id : Z) (action : Tables.PlugAction)
| TDelete (id : Z).

Definition apply_table_op (op : TableOp) (db : DB) : DB :=
  match op with
  | TCreate b => fst (Tables.create b db)
  | TUpdate id b => fst (Tables.update id b db)
  | TStatus id st => fst (Tables.update_status id st db)
  | TMapPlug id plug => fst (Tables.map_plug id plug db)
  | TControlPlug id a => fst (Tables.control_plug id a db)
  | TDelete id => fst (Tables.delete id db)
  end.

Definition run_table_ops (ops : list TableOp) (db : DB) : DB :=
  fold_left (fun d op => apply_table_op op d) ops db.

(** Primary keys and table numbers are unique, as the columns declare. *)
Definition well_keyed (db : DB) : Prop :=
  NoDup (map Table.id (tables db))
  /\ NoDup (map Table.table_number (tables db)).

Module SampleTables.
Definition free_corner : Tables.CreateBody :=
  {| Tables.table_number := "T9"; Tables.name := "Corner";
     Tables.type := Dining; Tables.location := "Hall";
     Tables.capacity := 2; Tables.hourly_rate := 0%Q;
     Tables.plug_id := None |}.

(** A body that asks for an hourly rate of 0 and nothing else. *)
Definition make_free : Tables.UpdateBody :=
  {| Tables.u_table_number := None; Tables.u_name := None;
     Tables.u_type := None; Tables.u_location := None;
     Tables.u_capacity := None; Tables.u_hourly_rate := Some 0%Q;
     Tables.u_plug_id := None; Tables.u_status := None |}.

(** A body that renames table 1 to the number of table 2. *)
Definition take_number : Tables.UpdateBody :=
  {| Tables.u_table_number := Some "T2"; Tables.u_name := None;
     Tables.u_type := None; Tables.u_location := None;
     Tables.u_capacity := None; Tables.u_hourly_rate := None;
     Tables.u_plug_id := None; Tables.u_status := None |}.
End SampleTables.

(** * Properties *)

(** ** Enumerations *)


Lemma SessionStatus_eqb_eq a b : SessionStatus_eqb a b = true <-> a = b.
Proof. destruct a, b; simpl; split; congruence. Qed.

Lemma PaymentStatus_eqb_eq a b : PaymentStatus_eqb a b = true <-> a = b.
Proof. destruct a, b; simpl; split; congruence. Qed.

Lemma ItemStatus_eqb_eq a b : ItemStatus_eqb a b = true <-> a = b.
Proof. destruct a, b; simpl; split; congruence. Qed.

(** ** JavaScript primitives *)


Lemma gt_true_iff (x y : Q) : Js.gt x y = true <-> (y < x)%Q.
Proof.
  unfold Js.gt. rewrite negb_true_iff. split; intros H.
  - apply Qnot_le_lt. intros L. apply Qle_bool_iff in L. congruence.
  - destruct (Qle_bool x y) eqn:E; [|reflexivity].
    apply Qle_bool_iff in E. exfalso. apply (Qlt_not_le _ _ H E).
Qed.

Lemma gt_false_iff (x y : Q) : Js.gt x y = false <-> (x <= y)%Q.
Proof.
  unfold Js.gt. rewrite negb_false_iff. apply Qle_bool_iff.
Qed.


(** [Math.ceil] of a quotient of integers is the least integer whose
    multiple reaches the dividend. *)
Lemma minutes_between_spec (s t d : Z) :
  Sessions.minutes_between s t = d <->
  (d - 1) * 60000 < t - s <= d * 60000.
Proof.
  unfold Sessions.minutes_between, Js.Math_ceil.
  set (x := (inject_Z (t - s) / inject_Z (1000 * 60))%Q).
  assert (Hx : (x * 60000 == inject_Z (t - s))%Q).
  { unfold x. change (inject_Z (1000 * 60)) with 60000%Q. field. }
  assert (Hup := Qle_ceiling x). assert (Hlo := Qceiling_lt x).
  assert (U : t - s <= Qceiling x * 60000).
  { rewrite <- (Z.mul_1_r (t - s)).
    change (inject_Z (Qceiling x)) with (Qceiling x # 1)%Q in Hup.
    pose proof (Qmult_le_compat_r _ _ 60000%Q Hup ltac:(discriminate)) as M.
    rewrite Hx in M. unfold Qle, Qmult, inject_Z in M. simpl in M. lia. }
  assert (L : (Qceiling x - 1) * 60000 < t - s).
  { pose proof (Qmult_lt_compat_r _ _ 60000%Q ltac:(reflexivity) Hlo) as M.
    rewrite Hx in M. unfold Qlt, Qmult, inject_Z in M. simpl in M. lia. }
  split; intros H.
  - subst d. lia.
  - nia.
Qed.

(** ** ORM calls *)

Section OrmFacts.
Context {R : Type} (key : R -> Z).

Lemma findByPk_key rows k r : findByPk key rows k = Some r -> key r = k.
Proof.
  unfold findByPk. intros H. apply find_some in H.
  destruct H as [_ H]. apply Z.eqb_eq. exact H.
Qed.

Lemma findByPk_In rows k r : findByPk key rows k = Some r -> In r rows.
Proof. unfold findByPk. intros H. apply find_some in H. tauto. Qed.

Lemma save_save r1 r2 rows :
  key r2 = key r1 -> save key r2 (save key r1 rows) = save key r2 rows.
Proof.
  intros E. unfold save. rewrite map_map. apply map_ext. intros x.
  destruct (key x =? key r1) eqn:E1.
  - apply Z.eqb_eq in E1. rewrite E1, <- E, Z.eqb_refl. reflexivity.
  - reflexivity.
Qed.

Lemma findByPk_save_same rows k r r' :
  findByPk key rows k = Some r -> key r' = k ->
  findByPk key (save key r' rows) k = Some r'.
Proof.
  unfold findByPk, save. intros H E. subst k.
  induction rows as [|x rows IH]; simpl in *; [discriminate|].
  destruct (key x =? key r') eqn:Ex.
  - rewrite Z.eqb_refl. reflexivity.
  - rewrite Ex. apply IH. exact H.
Qed.


Lemma save_length r rows : List.length (save key r rows) = List.length rows.
Proof. apply length_map. Qed.
End OrmFacts.

(** ** Handler bodies *)

Lemma bind_ret_l {A B} (a : A) (k : A -> Act B) (db : DB) :
  bind (ret a) k db = k a db.
Proof. reflexivity. Qed.

Lemma bind_ret_r {A} (m : Act A) (db : DB) : bind m ret db = m db.
Proof. unfold bind, ret. destruct (m db) as [db' [a | r | e]]; reflexivity. Qed.

Lemma bind_assoc {A B C} (m : Act A) (k : A -> Act B) (h : B -> Act C)
      (db : DB) :
  bind (bind m k) h db = bind m (fun a => bind (k a) h) db.
Proof. unfold bind. destruct (m db) as [db' [a | r | e]]; reflexivity. Qed.

(** An early response or an exception skips the rest of the body. *)
Lemma bind_send {A B} (r : Response) (k : A -> Act B) (db : DB) :
  bind (send r) k db = (db, Sent r).
Proof. reflexivity. Qed.

Lemma bind_throw {A B} (e : Js.Exn) (k : A -> Act B) (db : DB) :
  bind (throw e) k db = (db, Thrown e).
Proof. reflexivity. Qed.

(** ** Starting a session *)

(** Unfolding of the handler combinators. *)
Ltac unfold_act :=
  cbv beta iota zeta delta
      [route bind ret send throw read write reject_if ident
       Table_findByPk Table_save Session_findByPk Session_save Order_findAll].






(** ** Ending a session *)

Lemma fold_totals_shift (os : list Order.row) (a : Q) :
  (fold_left (fun sum order => sum + Order.total order) os a
   == a + sum_totals os)%Q.
Proof.
  unfold sum_totals. revert a.
  induction os as [|o os IH]; intros a; simpl.
  - ring.
  - rewrite (IH (a + Order.total o)%Q), (IH (0 + Order.total o)%Q). ring.
Qed.

Lemma sum_totals_cons (o : Order.row) (os : list Order.row) :
  (sum_totals (o :: os) == Order.total o + sum_totals os)%Q.
Proof.
  unfold sum_totals at 1. simpl. rewrite fold_totals_shift. ring.
Qed.

Lemma sum_totals_app (xs ys : list Order.row) :
  (sum_totals (xs ++ ys) == sum_totals xs + sum_totals ys)%Q.
Proof.
  induction xs as [|x xs IH]; simpl.
  - unfold sum_totals at 2. simpl. ring.
  - rewrite !sum_totals_cons, IH. ring.
Qed.


(** The figures [bill] writes. *)
Lemma bill_fields (s : Session.row) (endTime : Z) (os : list Order.row) :
  let b := Sessions.bill s endTime os in
  Session.duration b = Sessions.minutes_between (Session.start_time s) endTime
  /\ Session.session_cost b
     = (inject_Z (Session.duration b) / 60 * Session.hourly_rate s)%Q
  /\ Session.total_order_cost b = sum_totals os
  /\ Session.subtotal b
     = (Session.session_cost b + Session.total_order_cost b)%Q
  /\ Session.tax b = (Session.subtotal b * 0.085)%Q
  /\ Session.service_fee b = (Session.subtotal b * 0.05)%Q
  /\ Session.total b
     = (Session.subtotal b + Session.tax b + Session.service_fee b)%Q
  /\ (Session.total b == 1.135 * Session.subtotal b)%Q
  /\ Session.end_time b = Some endTime
  /\ Session.status b = completed.
Proof.
  cbn. repeat split. ring.
Qed.

Lemma end_not_active G env id db s :
  findByPk Session.id (sessions db) id = Some s ->
  Session.status s <> active ->
  Sessions.end_session_in G env id db = (db, fail 400 "Session is not active").
Proof.
  intros Hf Hs. unfold Sessions.end_session_in. unfold_act. rewrite Hf.
  destruct (SessionStatus_eqb (Session.status s) active) eqn:E.
  - apply SessionStatus_eqb_eq in E. contradiction.
  - reflexivity.
Qed.

(** In a module that does not bind [Op], building the query of line 211
    raises a [ReferenceError]; the handler's [catch] answers 500 and nothing
    has been written yet. *)
Lemma end_unbound G env id db s :
  findByPk Session.id (sessions db) id = Some s ->
  Session.status s = active ->
  Js.binds G "Op" = false ->
  Sessions.end_session_in G env id db = (db, server_error).
Proof.
  intros Hf Hs Hb. unfold Sessions.end_session_in. unfold_act.
  rewrite Hf, Hs, Hb. reflexivity.
Qed.

(** In a module that binds [Op] (as routes/reports.js does), the end route
    bills the session from every order of its table in the window and
    releases the table. *)
Lemma end_bound G env id db s t :
  findByPk Session.id (sessions db) id = Some s ->
  Session.status s = active ->
  findByPk Table.id (tables db) (Session.table_id s) = Some t ->
  Js.binds G "Op" = true ->
  let billed :=
    Sessions.bill s (now env)
      (filter (in_window (Session.table_id s) (Session.start_time s) (now env))
              (orders db)) in
  Sessions.end_session_in G env id db
  = (with_tables (with_sessions db (save Session.id billed (sessions db)))
                 (save Table.id (Sessions.release t (now env)) (tables db)),
     ok 200 "Session ended successfully" (SessionData billed)).
Proof.
  intros Hf Hs Ht Hb. unfold Sessions.end_session_in. unfold_act.
  rewrite Hf, Ht, Hs, Hb. reflexivity.
Qed.

(** Hence the end route of routes/sessions.js never ends an active
    session. *)
Lemma end_session_active env id db s :
  findByPk Session.id (sessions db) id = Some s ->
  Session.status s = active ->
  Sessions.end_session env id db = (db, server_error).
Proof. intros Hf Hs. apply (end_unbound _ env id db s Hf Hs). reflexivity. Qed.

(** routes/sessions.js binds the models its handlers name, but not [Op]. *)
Lemma sessions_js_has_no_Op :
  forallb (Js.binds Sessions.scope) ["Session"; "Table"; "Order"] = true
  /\ Js.binds Sessions.scope "Op" = false.
Proof. split; reflexivity. Qed.

(** C1: on an active session the end route of routes/sessions.js answers
    500 and writes nothing (the module never binds [Op], which the order
    query names), so none of duration, session_cost, total_order_cost,
    subtotal, tax, service_fee, total, the completed status or the release
    of the table takes place; the same handler in a module that binds [Op]
    bills 90 minutes at 120/hour plus the orders and completes the
    session. *)
Theorem end_session_active_run :
  Sessions.end_session SampleRun.later 1 SampleRun.running
  = (SampleRun.running, server_error)
  /\ option_map Session.status (SampleRun.the_session SampleRun.running)
     = Some active
  /\ (let fixed := fst (Sessions.end_session_in ("Op" :: Sessions.scope)
                          SampleRun.later 1 SampleRun.running) in
      option_map Session.status (SampleRun.the_session fixed) = Some completed
      /\ option_map Session.duration (SampleRun.the_session fixed) = Some 90
      /\ option_map Session.session_cost (SampleRun.the_session fixed)
         = Some ((90 # 1) / 60 * 120)%Q).
Proof.
  split; [|split; [|split; [|split]]]; vm_compute; reflexivity.
Qed.

(** Every order the query returns is counted in the billed subtotal. *)
Lemma billed_order_included (s : Session.row) (endTime : Z)
      (os : list Order.row) (o : Order.row) :
  In o os ->
  exists rest,
    (Session.subtotal (Sessions.bill s endTime os)
     == Session.session_cost (Sessions.bill s endTime os)
        + (Order.total o + sum_totals rest))%Q.
Proof.
  intros Hin. apply in_split in Hin. destruct Hin as (l1 & l2 & ->).
  exists (l1 ++ l2). cbn.
  rewrite !sum_totals_app, sum_totals_cons. ring.
Qed.





(** ** Paying a session *)

Ltac unfold_pay :=
  unfold Billing.payment_in; unfold_act.

Lemma validate_payment_ok (b : Billing.PaymentBody) :
  (0 <= Billing.amount_paid b)%Q ->
  Nat.eqb (List.length (Billing.validate_payment b)) 0 = true.
Proof.
  intros H. unfold Billing.validate_payment.
  apply Qle_bool_iff in H. rewrite H. reflexivity.
Qed.

Lemma payment_already_paid G env req db s :
  (0 <= Billing.amount_paid (Billing.pay_body req))%Q ->
  findByPk Session.id (sessions db) (Billing.pay_sessionId req) = Some s ->
  Session.payment_status s = paid ->
  Billing.payment_in G env req db = (db, fail 400 "Session already paid").
Proof.
  intros Hv Hf Hp. unfold_pay.
  rewrite (validate_payment_ok _ Hv). cbn [negb].
  rewrite Hf, Hp. reflexivity.
Qed.

(** What the inline ending of the payment route leaves untouched. *)
Lemma close_inline_keeps_totals (s : Session.row) (endTime : Z) :
  let c := Billing.close_inline s endTime in
  Session.total_order_cost c = Session.total_order_cost s
  /\ Session.subtotal c = Session.subtotal s
  /\ Session.tax c = Session.tax s
  /\ Session.service_fee c = Session.service_fee s
  /\ Session.total c = Session.total s.
Proof. cbn. repeat split. Qed.

(** Payment of an active, unpaid session in a module that binds [Op]: the
    session is marked paid and closed with its duration and session cost
    only, the table is released, and the orders of the window are marked
    paid. *)
Lemma payment_active_bound G env req db s t :
  (0 <= Billing.amount_paid (Billing.pay_body req))%Q ->
  findByPk Session.id (sessions db) (Billing.pay_sessionId req) = Some s ->
  findByPk Table.id (tables db) (Session.table_id s) = Some t ->
  Session.payment_status s <> paid ->
  Session.status s = active ->
  Js.binds G "Op" = true ->
  let s1 := Billing.mark_paid s (Billing.payment_method (Billing.pay_body req)) in
  let s2 := Billing.close_inline s1 (now env) in
  Billing.payment_in G env req db
  = (with_orders
       (with_tables
          (with_sessions db (save Session.id s2 (sessions db)))
          (save Table.id (Sessions.release t (now env)) (tables db)))
       (update_where
          (in_window (Session.table_id s) (Session.start_time s) (now env))
          Billing.order_paid (orders db)),
     ok 200 "Payment processed successfully" (SessionData s2)).
Proof.
  intros Hv Hf Ht Hp Hs Hb. unfold_pay.
  rewrite (validate_payment_ok _ Hv). cbn [negb].
  rewrite Hf, Ht.
  destruct (PaymentStatus_eqb (Session.payment_status s) paid) eqn:E.
  { apply PaymentStatus_eqb_eq in E. contradiction. }
  cbn [Billing.mark_paid Session.status]. rewrite Hs.
  cbn [SessionStatus_eqb]. rewrite Hb.
  cbn [sessions tables orders with_sessions with_tables with_orders].
  rewrite save_save by reflexivity.
  reflexivity.
Qed.

(** The same request in a module that does not bind [Op]: the session and
    the table have been written when the order update raises, the orders
    stay as they were and the answer is 500. *)
Lemma payment_active_unbound G env req db s t :
  (0 <= Billing.amount_paid (Billing.pay_body req))%Q ->
  findByPk Session.id (sessions db) (Billing.pay_sessionId req) = Some s ->
  findByPk Table.id (tables db) (Session.table_id s) = Some t ->
  Session.payment_status s <> paid ->
  Session.status s = active ->
  Js.binds G "Op" = false ->
  let s1 := Billing.mark_paid s (Billing.payment_method (Billing.pay_body req)) in
  let s2 := Billing.close_inline s1 (now env) in
  Billing.payment_in G env req db
  = (with_tables
       (with_sessions db (save Session.id s2 (sessions db)))
       (save Table.id (Sessions.release t (now env)) (tables db)),
     server_error).
Proof.
  intros Hv Hf Ht Hp Hs Hb. unfold_pay.
  rewrite (validate_payment_ok _ Hv). cbn [negb].
  rewrite Hf, Ht.
  destruct (PaymentStatus_eqb (Session.payment_status s) paid) eqn:E.
  { apply PaymentStatus_eqb_eq in E. contradiction. }
  cbn [Billing.mark_paid Session.status]. rewrite Hs.
  cbn [SessionStatus_eqb]. rewrite Hb.
  cbn [sessions tables orders with_sessions with_tables with_orders].
  rewrite save_save by reflexivity.
  reflexivity.
Qed.

(** routes/billing.js binds the models its payment and discount handlers
    name, but not [Op]. *)
Lemma billing_js_has_no_Op :
  forallb (Js.binds Billing.scope) ["Session"; "Table"; "Order"] = true
  /\ Js.binds Billing.scope "Op" = false.
Proof. split; reflexivity. Qed.

(** C2: paying the active, unpaid sample session through routes/billing.js
    marks it paid and completed with duration 90 and session cost 180 but
    leaves total_order_cost, subtotal, tax, service_fee and total at 0 (the
    inline ending writes end_time, duration, session_cost and status only),
    then answers 500 with every order of the window still unpaid (the module
    never binds [Op], which the order update names); in a module that binds
    [Op] the orders are marked paid and the totals are still 0, whereas the
    end route there bills a total of 1.135 x 240. *)
Theorem payment_active_run :
  let out := Billing.payment SampleRun.later SamplePay.by_card
                             SampleRun.running in
  let fixed := Billing.payment_in ("Op" :: Billing.scope) SampleRun.later
                                  SamplePay.by_card SampleRun.running in
  let ended := Sessions.end_session_in ("Op" :: Sessions.scope)
                                       SampleRun.later 1 SampleRun.running in
  snd out = server_error
  /\ option_map Session.payment_status (SampleRun.the_session (fst out))
     = Some paid
  /\ option_map Session.status (SampleRun.the_session (fst out))
     = Some completed
  /\ option_map Session.duration (SampleRun.the_session (fst out)) = Some 90
  /\ option_map Session.subtotal (SampleRun.the_session (fst out)) = Some 0%Q
  /\ option_map Session.total (SampleRun.the_session (fst out)) = Some 0%Q
  /\ orders (fst out) = orders SampleRun.running
  /\ SamplePay.all_paid (orders (fst out)) = false
  /\ code (snd fixed) = 200
  /\ SamplePay.all_paid (orders (fst fixed)) = true
  /\ option_map Session.total (SampleRun.the_session (fst fixed)) = Some 0%Q
  /\ (exists q, option_map Session.total (SampleRun.the_session (fst ended))
                = Some q /\ (q == 1.135 * 240)%Q).
Proof.
  cbv zeta.
  repeat (split; [vm_compute; reflexivity|]).
  eexists. split; [vm_compute; reflexivity|]. reflexivity.
Qed.

(** ** Discounts *)

Ltac unfold_discount :=
  unfold Billing.discount; unfold_act.

Lemma validate_discount_ok (b : Billing.DiscountBody) :
  (0 <= Billing.discount_value b)%Q ->
  Nat.eqb (List.length (Billing.validate_discount b)) 0 = true.
Proof.
  intros H. unfold Billing.validate_discount.
  apply Qle_bool_iff in H. rewrite H. reflexivity.
Qed.

Lemma discount_forbidden req db s :
  (0 <= Billing.discount_value (Billing.body req))%Q ->
  findByPk Session.id (sessions db) (Billing.sessionId req) = Some s ->
  Billing.may_item (Billing.userPermissions (Billing.user req)) = false ->
  Billing.may_bill (Billing.userPermissions (Billing.user req)) = false ->
  Billing.discount req db
  = (db, fail 403 "Insufficient permissions to apply discount").
Proof.
  intros Hv Hf Hi Hb. unfold_discount.
  rewrite (validate_discount_ok _ Hv). cbn [negb].
  rewrite Hf, Hi, Hb. reflexivity.
Qed.

Lemma discount_over_limit req db s :
  (0 <= Billing.discount_value (Billing.body req))%Q ->
  findByPk Session.id (sessions db) (Billing.sessionId req) = Some s ->
  Billing.may_item (Billing.userPermissions (Billing.user req))
  || Billing.may_bill (Billing.userPermissions (Billing.user req)) = true ->
  Billing.discount_type (Billing.body req) = percentage ->
  (Billing.max_discount (Billing.userPermissions (Billing.user req))
   < Billing.discount_value (Billing.body req))%Q ->
  exists r, Billing.discount req db = (db, r) /\ code r = 400.
Proof.
  intros Hv Hf Hp Ht Hm. unfold_discount.
  rewrite (validate_discount_ok _ Hv). cbn [negb].
  rewrite Hf.
  apply orb_true_iff in Hp.
  assert (E : negb (Billing.may_item (Billing.userPermissions (Billing.user req)))
              && negb (Billing.may_bill (Billing.userPermissions (Billing.user req)))
              = false).
  { destruct Hp as [-> | ->]; cbn; [reflexivity | apply andb_false_r]. }
  rewrite E, Ht. cbn [Billing.is_percentage andb].
  apply gt_true_iff in Hm. rewrite Hm.
  eexists. split; reflexivity.
Qed.

(** The store and the response of an accepted discount. *)
Lemma discount_accepted req db s :
  (0 <= Billing.discount_value (Billing.body req))%Q ->
  findByPk Session.id (sessions db) (Billing.sessionId req) = Some s ->
  Billing.may_item (Billing.userPermissions (Billing.user req))
  || Billing.may_bill (Billing.userPermissions (Billing.user req)) = true ->
  Billing.is_percentage (Billing.discount_type (Billing.body req))
  && Js.gt (Billing.discount_value (Billing.body req))
           (Billing.max_discount (Billing.userPermissions (Billing.user req)))
  = false ->
  let subtotal := Js.or0 (Session.subtotal s) in
  let amount := Billing.discount_amount (Billing.body req) subtotal in
  let newTotal := (subtotal + Js.or0 (Session.tax s)
                   + Js.or0 (Session.service_fee s) - amount)%Q in
  let s1 := Billing.discounted s amount (Js.Math_max 0 newTotal) in
  Billing.discount req db
  = (with_sessions db (save Session.id s1 (sessions db)),
     ok 200 "Discount applied successfully" (DiscountData s1 amount newTotal)).
Proof.
  intros Hv Hf Hp Hl. unfold_discount.
  rewrite (validate_discount_ok _ Hv). cbn [negb].
  rewrite Hf.
  apply orb_true_iff in Hp.
  assert (E : negb (Billing.may_item (Billing.userPermissions (Billing.user req)))
              && negb (Billing.may_bill (Billing.userPermissions (Billing.user req)))
              = false).
  { destruct Hp as [-> | ->]; cbn; [reflexivity | apply andb_false_r]. }
  rewrite E, Hl. reflexivity.
Qed.








(** ** Completing a KOT item *)

Lemma complete_item_run itemId db i :
  findByPk OrderItem.id (order_items db) itemId = Some i ->
  let i1 := Kot.item_with_status i i_ready in
  let items' := save OrderItem.id i1 (order_items db) in
  let allReady :=
    forallb Kot.is_ready (Kot.items_of (OrderItem.order_id i) items') in
  Kot.complete_item itemId db
  = (with_orders (with_order_items db items')
       (if allReady
        then Kot.mark_order_ready (OrderItem.order_id i) (orders db)
        else orders db),
     ok 200 "Item marked as complete" (OrderItemData i1)).
Proof.
  intros Hf. unfold Kot.complete_item. unfold_act. rewrite Hf.
  cbn [order_items orders with_order_items with_orders
       Kot.item_with_status OrderItem.order_id].
  destruct (forallb Kot.is_ready _); reflexivity.
Qed.

(** The re-scan is true exactly when every item of the order is ready. *)
Lemma all_ready_iff (order_id : Z) (items : list OrderItem.row) :
  forallb Kot.is_ready (Kot.items_of order_id items) = true <->
  (forall j, In j items -> OrderItem.order_id j = order_id ->
             OrderItem.status j = i_ready).
Proof.
  rewrite forallb_forall. unfold Kot.items_of, Kot.is_ready. split.
  - intros H j Hin Ho. apply ItemStatus_eqb_eq. apply H.
    apply filter_In. split; [exact Hin|]. apply Z.eqb_eq. exact Ho.
  - intros H j Hin. apply filter_In in Hin. destruct Hin as [Hin Ho].
    apply ItemStatus_eqb_eq. apply H; [exact Hin|].
    apply Z.eqb_eq. exact Ho.
Qed.

Lemma marked_orders_ready (order_id : Z) (os : list Order.row) (o : Order.row) :
  In o (Kot.mark_order_ready order_id os) -> Order.id o = order_id ->
  Order.status o = o_ready.
Proof.
  unfold Kot.mark_order_ready, update_where. intros Hin Hid.
  apply in_map_iff in Hin. destruct Hin as (x & Hx & _).
  destruct (Order.id x =? order_id) eqn:E.
  - subst o. reflexivity.
  - subst o. apply Z.eqb_neq in E. contradiction.
Qed.

Lemma marked_orders_others (order_id : Z) (os : list Order.row) (o : Order.row) :
  In o (Kot.mark_order_ready order_id os) -> Order.id o <> order_id ->
  In o os.
Proof.
  unfold Kot.mark_order_ready, update_where. intros Hin Hid.
  apply in_map_iff in Hin. destruct Hin as (x & Hx & Hin).
  destruct (Order.id x =? order_id) eqn:E.
  - subst o. apply Z.eqb_eq in E. cbn in Hid. contradiction.
  - subst o. exact Hin.
Qed.

Lemma save_keeps_other {R : Type} (key : R -> Z) (r j : R) (rows : list R) :
  In j rows -> key j <> key r -> In j (save key r rows).
Proof.
  intros Hin Hk. unfold save. apply in_map_iff. exists j.
  split; [|exact Hin].
  destruct (key j =? key r) eqn:E; [|reflexivity].
  apply Z.eqb_eq in E. contradiction.
Qed.

(** C4: marking an item complete sets that item to ready; the parent order
    is written to ready exactly when, after the update, every item of the
    order found by the re-scan is ready, and otherwise (in particular when
    some other item of the order is not ready) the orders are left as they
    were. *)
Theorem complete_item_spec itemId db i :
  findByPk OrderItem.id (order_items db) itemId = Some i ->
  exists r db',
    Kot.complete_item itemId db = (db', r) /\ code r = 200
    /\ order_items db'
       = save OrderItem.id (Kot.item_with_status i i_ready) (order_items db)
    /\ (exists i', findByPk OrderItem.id (order_items db') itemId = Some i'
                   /\ OrderItem.status i' = i_ready
                   /\ OrderItem.order_id i' = OrderItem.order_id i)
    /\ ((forall j, In j (order_items db') ->
                   OrderItem.order_id j = OrderItem.order_id i ->
                   OrderItem.status j = i_ready) ->
        orders db' = Kot.mark_order_ready (OrderItem.order_id i) (orders db)
        /\ (forall o, In o (orders db') ->
                      Order.id o = OrderItem.order_id i ->
                      Order.status o = o_ready))
    /\ (~ (forall j, In j (order_items db') ->
                     OrderItem.order_id j = OrderItem.order_id i ->
                     OrderItem.status j = i_ready) ->
        orders db' = orders db)
    /\ ((exists j, In j (order_items db)
                   /\ OrderItem.order_id j = OrderItem.order_id i
                   /\ OrderItem.id j <> OrderItem.id i
                   /\ OrderItem.status j <> i_ready) ->
        orders db' = orders db).
Proof.
  intros Hf. pose proof (complete_item_run itemId db i Hf) as H.
  cbv zeta in H.
  set (i1 := Kot.item_with_status i i_ready) in *.
  set (items' := save OrderItem.id i1 (order_items db)) in *.
  pose proof (all_ready_iff (OrderItem.order_id i) items') as A.
  destruct (forallb Kot.is_ready (Kot.items_of (OrderItem.order_id i) items'))
    eqn:E.
  - eexists _, _. split; [exact H|]. split; [reflexivity|].
    cbn [order_items orders with_orders with_order_items].
    split; [reflexivity|]. split.
    { exists i1. split; [|split; reflexivity].
      apply (findByPk_save_same OrderItem.id _ _ i); [exact Hf|].
      apply (findByPk_key _ _ _ _ Hf). }
    split.
    { intros _. split; [reflexivity|]. intros o. apply marked_orders_ready. }
    split.
    { intros N. exfalso. apply N. apply A. reflexivity. }
    intros (j & Hin & Ho & Hid & Hst). exfalso. apply Hst.
    apply (proj1 A eq_refl j); [|exact Ho].
    apply save_keeps_other; assumption.
  - eexists _, _. split; [exact H|]. split; [reflexivity|].
    cbn [order_items orders with_orders with_order_items].
    split; [reflexivity|]. split.
    { exists i1. split; [|split; reflexivity].
      apply (findByPk_save_same OrderItem.id _ _ i); [exact Hf|].
      apply (findByPk_key _ _ _ _ Hf). }
    split.
    { intros All. apply A in All. discriminate. }
    split; intros _; reflexivity.
Qed.

Lemma complete_item_spec_witness :
  (exists r db', Kot.complete_item 1 SampleKot.kitchen = (db', r)
                 /\ map Order.status (orders db') = [o_ready; o_preparing])
  /\ (exists r db', Kot.complete_item 3 SampleKot.kitchen = (db', r)
                    /\ orders db' = orders SampleKot.kitchen).
Proof.
  split.
  - destruct (complete_item_spec 1 SampleKot.kitchen
                (SampleKot.item 1 1 i_pending) eq_refl)
      as (r & db' & H & _ & Hi & _ & Y & _).
    exists r, db'. split; [exact H|].
    destruct Y as [Y _].
    + rewrite Hi. intros j Hin Ho. cbn in Hin.
      repeat (destruct Hin as [<- | Hin]; [try reflexivity; discriminate|]).
      contradiction.
    + rewrite Y. reflexivity.
  - destruct (complete_item_spec 3 SampleKot.kitchen
                (SampleKot.item 3 2 i_pending) eq_refl)
      as (r & db' & H & _ & _ & _ & _ & _ & N).
    exists r, db'. split; [exact H|].
    apply N. exists (SampleKot.item 4 2 i_pending).
    cbn. repeat split; try discriminate. tauto.
Defined.

(** ** Creating an order *)




Lemma create_items_run (order : Order.row) (ps : list Orders.Pending) :
  forall db,
    Orders.create_items order ps db
    = (with_order_items db
         (order_items db ++ rows_from order ps (order_items db)),
       Normal tt).
Proof.
  induction ps as [|p rest IH]; intros db.
  - cbn. rewrite app_nil_r. destruct db; reflexivity.
  - cbn [Orders.create_items rows_from]. unfold bind at 1.
    unfold Orders.OrderItem_create at 1, write at 1.
    rewrite IH. cbn [order_items with_order_items].
    rewrite <- app_assoc. reflexivity.
Qed.







(** ** Creating a reservation *)

Lemma table_kind_values :
  map Reservations.table_kind Reservations.table_types
  = ["Snooker"; "Pool"; "PlayStation"; "Restaurant"; "Dining"].
Proof. reflexivity. Qed.



Section ReservationFacts.
Variable isISO8601 : string -> bool.
Variable isTime : string -> bool.



End ReservationFacts.



(** ** Registration *)

Section RegisterFacts.
Variable isEmail : string -> bool.
Variable hash : string -> string.
Variable sign : Z -> Role -> string.


End RegisterFacts.



(** * Further properties of the routes *)

(** ** Rows with unique primary keys *)

Section UniqueKeys.
Context {R : Type} (key : R -> Z).

Lemma unique_key rows x y :
  NoDup (map key rows) -> In x rows -> In y rows -> key x = key y -> x = y.
Proof.
  induction rows as [|a rows IH]; intros Hn Hx Hy E; [destruct Hx|].
  cbn in Hn. inversion Hn as [|? ? Hnot Hn']; subst.
  destruct Hx as [<- | Hx], Hy as [<- | Hy].
  - reflexivity.
  - exfalso. apply Hnot. rewrite E. apply in_map. exact Hy.
  - exfalso. apply Hnot. rewrite <- E. apply in_map. exact Hx.
  - apply IH; assumption.
Qed.


Lemma save_keys r rows : map key (save key r rows) = map key rows.
Proof.
  unfold save. rewrite map_map. apply map_ext. intros x.
  destruct (key x =? key r) eqn:E; [|reflexivity].
  apply Z.eqb_eq in E. symmetry. exact E.
Qed.

Lemma save_In r rows x :
  In x (save key r rows) -> x = r \/ (In x rows /\ key x <> key r).
Proof.
  unfold save. intros H. apply in_map_iff in H. destruct H as (y & E & Hy).
  destruct (key y =? key r) eqn:K.
  - left. symmetry. exact E.
  - right. subst x. split; [exact Hy|]. apply Z.eqb_neq. exact K.
Qed.
End UniqueKeys.

Lemma with_sessions_same (db : DB) : with_sessions db (sessions db) = db.
Proof. destruct db; reflexivity. Qed.

Lemma next_id_above (ids : list Z) (x : Z) : In x ids -> x < next_id ids.
Proof.
  unfold next_id. induction ids as [|a ids IH]; intros H; [destruct H|].
  cbn [fold_right]. destruct H as [<- | H]; [lia|].
  specialize (IH H). lia.
Qed.

(** Unfolding of the handler combinators of the routes below. *)
Ltac unfold_reply :=
  cbv beta iota zeta delta
      [reply_route bind ret send throw read write reject_if ident
       Table_findByPk Table_save Session_findByPk Session_save Order_findAll
       OrderUpdates.Order_findByPk OrderUpdates.Order_save
       OrderUpdates.OrderItem_save
       ReservationUpdates.Reservation_findByPk
       ReservationUpdates.Reservation_save
       ReservationUpdates.set_table_status Login.User_save].

(** ** Pausing and resuming a session *)

Lemma pause_run id db s :
  findByPk Session.id (sessions db) id = Some s ->
  Session.status s = active ->
  SessionLifecycle.pause id db
  = (with_sessions db
       (save Session.id (SessionLifecycle.with_status s paused) (sessions db)),
     Replied 200 "Session paused successfully"
             (SessionLifecycle.with_status s paused)).
Proof.
  intros Hf Hs. unfold SessionLifecycle.pause. unfold_reply.
  rewrite Hf, Hs. reflexivity.
Qed.

Lemma resume_run id db s :
  findByPk Session.id (sessions db) id = Some s ->
  Session.status s = paused ->
  SessionLifecycle.resume id db
  = (with_sessions db
       (save Session.id (SessionLifecycle.with_status s active) (sessions db)),
     Replied 200 "Session resumed successfully"
             (SessionLifecycle.with_status s active)).
Proof.
  intros Hf Hs. unfold SessionLifecycle.resume. unfold_reply.
  rewrite Hf, Hs. reflexivity.
Qed.



(** X2: for a stored session, the pause route answers 200 exactly when the
    session is active and the resume route exactly when it is paused; a
    refused request is answered 400 and leaves the store unchanged, so a
    completed or cancelled session can be neither paused nor resumed. *)
Theorem pause_resume_guards id db s :
  findByPk Session.id (sessions db) id = Some s ->
  (reply_code (snd (SessionLifecycle.pause id db)) = 200
   <-> Session.status s = active)
  /\ (Session.status s <> active ->
      SessionLifecycle.pause id db
      = (db, Refused (fail 400 "Session is not active")))
  /\ (reply_code (snd (SessionLifecycle.resume id db)) = 200
      <-> Session.status s = paused)
  /\ (Session.status s <> paused ->
      SessionLifecycle.resume id db
      = (db, Refused (fail 400 "Session is not paused"))).
Proof.
  intros Hf.
  assert (P : Session.status s <> active ->
              SessionLifecycle.pause id db
              = (db, Refused (fail 400 "Session is not active"))).
  { intros N. unfold SessionLifecycle.pause. unfold_reply. rewrite Hf.
    destruct (SessionStatus_eqb (Session.status s) active) eqn:E;
      [apply SessionStatus_eqb_eq in E; contradiction | reflexivity]. }
  assert (R : Session.status s <> paused ->
              SessionLifecycle.resume id db
              = (db, Refused (fail 400 "Session is not paused"))).
  { intros N. unfold SessionLifecycle.resume. unfold_reply. rewrite Hf.
    destruct (SessionStatus_eqb (Session.status s) paused) eqn:E;
      [apply SessionStatus_eqb_eq in E; contradiction | reflexivity]. }
  split; [|split; [exact P|split; [|exact R]]].
  - split.
    + intros C. destruct (Session.status s) eqn:E; try reflexivity;
        rewrite P in C by discriminate; discriminate.
    + intros E. rewrite (pause_run id db s Hf E). reflexivity.
  - split.
    + intros C. destruct (Session.status s) eqn:E; try reflexivity;
        rewrite R in C by discriminate; discriminate.
    + intros E. rewrite (resume_run id db s Hf E). reflexivity.
Qed.

Lemma pause_resume_guards_witness :
  SessionLifecycle.resume 1 SampleLifecycle.running
  = (SampleLifecycle.running, Refused (fail 400 "Session is not paused")).
Proof.
  apply (proj2 (proj2 (proj2 (pause_resume_guards 1 SampleLifecycle.running
                                SampleBill.started_session eq_refl)))).
  discriminate.
Defined.

(** ** Duration and cost of a session *)

Lemma minutes_bounds (s t : Z) :
  (Sessions.minutes_between s t - 1) * 60000 < t - s
  <= Sessions.minutes_between s t * 60000.
Proof. apply minutes_between_spec. reflexivity. Qed.



(** X4: the billed duration and cost never decrease when the session ends
    later, a session of exactly [k] minutes is billed [k] minutes, and one
    millisecond more is billed as [k + 1] minutes. *)
Theorem session_cost_monotone (s t1 t2 k : Z) (rate : Q) :
  (0 <= rate)%Q -> t1 <= t2 ->
  Sessions.minutes_between s t1 <= Sessions.minutes_between s t2
  /\ (Sessions.cost_of (Sessions.minutes_between s t1) rate
      <= Sessions.cost_of (Sessions.minutes_between s t2) rate)%Q
  /\ Sessions.minutes_between s (s + k * 60000) = k
  /\ Sessions.minutes_between s (s + k * 60000 + 1) = k + 1.
Proof.
  intros Hr Ht.
  pose proof (minutes_bounds s t1) as B1. pose proof (minutes_bounds s t2) as B2.
  assert (M : Sessions.minutes_between s t1 <= Sessions.minutes_between s t2)
    by lia.
  split; [exact M|]. split.
  - unfold Sessions.cost_of. apply Qmult_le_compat_r; [|exact Hr].
    apply Qmult_le_compat_r; [|discriminate].
    rewrite <- Zle_Qle. exact M.
  - split; apply minutes_between_spec; lia.
Qed.

Lemma session_cost_monotone_witness :
  Sessions.minutes_between 1000 (1000 + 90 * 60000 + 1) = 90 + 1.
Proof.
  exact (proj2 (proj2 (proj2 (session_cost_monotone 1000 1000 1000 90 120
                                ltac:(discriminate) ltac:(lia))))).
Defined.

(** ** Discounts and payment, composed *)



(** A discount request answered 200 passed the validation, permission and
    limit checks. *)
Lemma discount_ok_inv r db s :
  findByPk Session.id (sessions db) (Billing.sessionId r) = Some s ->
  code (snd (Billing.discount r db)) = 200 ->
  (0 <= Billing.discount_value (Billing.body r))%Q
  /\ Billing.may_item (Billing.userPermissions (Billing.user r))
     || Billing.may_bill (Billing.userPermissions (Billing.user r)) = true
  /\ Billing.is_percentage (Billing.discount_type (Billing.body r))
     && Js.gt (Billing.discount_value (Billing.body r))
              (Billing.max_discount (Billing.userPermissions (Billing.user r)))
     = false.
Proof.
  intros Hr. unfold Billing.discount. unfold_act.
  unfold Billing.validate_discount.
  destruct (Qle_bool 0 (Billing.discount_value (Billing.body r))) eqn:V;
    cbn [List.length Nat.eqb negb]; [|cbn; discriminate].
  rewrite Hr.
  destruct (Billing.may_item (Billing.userPermissions (Billing.user r))) eqn:I,
           (Billing.may_bill (Billing.userPermissions (Billing.user r))) eqn:B;
    cbn [negb andb orb]; try (cbn; discriminate);
    (destruct (Billing.is_percentage (Billing.discount_type (Billing.body r))
               && Js.gt (Billing.discount_value (Billing.body r))
                        (Billing.max_discount
                           (Billing.userPermissions (Billing.user r)))) eqn:L;
     [cbn; discriminate|]);
    intros _; (split; [apply Qle_bool_iff; exact V|]); split; reflexivity.
Qed.

(** X6: discounts are not cumulative: when two discount requests on the
    same session are both answered 200 on a store, applying the second
    after the first leaves the same store as applying the second alone. *)
Theorem discount_last_wins r1 r2 db s :
  Billing.sessionId r2 = Billing.sessionId r1 ->
  findByPk Session.id (sessions db) (Billing.sessionId r1) = Some s ->
  code (snd (Billing.discount r1 db)) = 200 ->
  code (snd (Billing.discount r2 db)) = 200 ->
  fst (Billing.discount r2 (fst (Billing.discount r1 db)))
  = fst (Billing.discount r2 db).
Proof.
  intros Eid Hf C1 C2.
  assert (Hf2 : findByPk Session.id (sessions db) (Billing.sessionId r2) = Some s)
    by (rewrite Eid; exact Hf).
  destruct (discount_ok_inv r1 db s Hf C1) as (V1 & M1 & L1).
  destruct (discount_ok_inv r2 db s Hf2 C2) as (V2 & M2 & L2).
  pose proof (findByPk_key _ _ _ _ Hf2) as Hk.
  pose proof (discount_accepted r1 db s V1 Hf M1 L1) as H1. cbv zeta in H1.
  pose proof (discount_accepted r2 db s V2 Hf2 M2 L2) as H2. cbv zeta in H2.
  rewrite H1, H2. cbn [fst].
  match type of H1 with
  | _ = (with_sessions db (save Session.id ?s1 _), _) =>
    assert (Hf1 : findByPk Session.id
                    (sessions (with_sessions db (save Session.id s1 (sessions db))))
                    (Billing.sessionId r2) = Some s1)
      by (cbn [sessions with_sessions];
          apply (findByPk_save_same Session.id _ _ s); [exact Hf2 | exact Hk]);
    pose proof (discount_accepted r2 _ s1 V2 Hf1 M2 L2) as H3
  end.
  cbv zeta in H3. rewrite H3. cbn [fst].
  unfold with_sessions.
  cbn [tables sessions orders order_items menu_items reservations users].
  rewrite save_save by reflexivity. reflexivity.
Qed.

Lemma discount_last_wins_witness :
  fst (Billing.discount (SampleBill.ask Manager fixed 30)
         (fst (Billing.discount (SampleBill.ask Manager percentage 10)
                 SampleBill.billed_store)))
  = fst (Billing.discount (SampleBill.ask Manager fixed 30)
           SampleBill.billed_store).
Proof.
  apply (discount_last_wins (SampleBill.ask Manager percentage 10)
           (SampleBill.ask Manager fixed 30) SampleBill.billed_store
           SampleBill.billed_session eq_refl eq_refl);
    vm_compute; reflexivity.
Defined.

(** X7: with the permission bundle the register route assigns to a role,
    a well-formed percentage discount [p] on a stored session is answered
    200 exactly for an Admin with [p <= 25] or a Manager with [p <= 15];
    for Staff and User it is always answered 403. *)
Theorem role_discount_limits (r : Role) req db s :
  findByPk Session.id (sessions db) (Billing.sessionId req) = Some s ->
  User.perms (Billing.user req) = Some (Auth.permissions_of r) ->
  Billing.discount_type (Billing.body req) = percentage ->
  (0 <= Billing.discount_value (Billing.body req))%Q ->
  let p := Billing.discount_value (Billing.body req) in
  (code (snd (Billing.discount req db)) = 200
   <-> (r = Admin /\ (p <= 25)%Q) \/ (r = Manager /\ (p <= 15)%Q))
  /\ (r = Staff \/ r = User_role ->
      code (snd (Billing.discount req db)) = 403).
Proof.
  intros Hf Hp Ht Hv p.
  assert (Hu : Billing.userPermissions (Billing.user req)
               = User.specialPermissions_discounts (Auth.permissions_of r)).
  { unfold Billing.userPermissions. rewrite Hp. reflexivity. }
  assert (Granted : forall m,
             (r = Admin /\ m = 25%Q) \/ (r = Manager /\ m = 15%Q) ->
             (code (snd (Billing.discount req db)) = 200 <-> (p <= m)%Q)).
  { intros m Hr.
    assert (Hmay : Billing.may_item (Billing.userPermissions (Billing.user req))
                   || Billing.may_bill (Billing.userPermissions (Billing.user req))
                   = true).
    { rewrite Hu. destruct Hr as [[-> _] | [-> _]]; reflexivity. }
    assert (Hmax : Billing.max_discount (Billing.userPermissions (Billing.user req))
                   = m).
    { rewrite Hu. destruct Hr as [[-> ->] | [-> ->]]; reflexivity. }
    split.
    - intros C. destruct (Qlt_le_dec m p) as [Lt | Le]; [|exact Le].
      exfalso.
      destruct (discount_over_limit req db s Hv Hf Hmay Ht) as (x & E & Cx).
      { rewrite Hmax. exact Lt. }
      rewrite E in C. cbn [snd] in C. congruence.
    - intros Le.
      rewrite (discount_accepted req db s Hv Hf Hmay); [reflexivity|].
      rewrite Ht. cbn [Billing.is_percentage andb]. apply gt_false_iff.
      rewrite Hmax. exact Le. }
  assert (Denied : r = Staff \/ r = User_role ->
                   code (snd (Billing.discount req db)) = 403).
  { intros Hr. rewrite (discount_forbidden req db s Hv Hf); [reflexivity| |];
      rewrite Hu; destruct Hr as [-> | ->]; reflexivity. }
  split; [|exact Denied].
  destruct r.
  - rewrite (Granted 25%Q) by (left; split; reflexivity).
    split; [intros H; left; split; [reflexivity | exact H]|].
    intros [[_ H] | [E _]]; [exact H | discriminate].
  - rewrite (Granted 15%Q) by (right; split; reflexivity).
    split; [intros H; right; split; [reflexivity | exact H]|].
    intros [[E _] | [_ H]]; [discriminate | exact H].
  - rewrite Denied by (left; reflexivity).
    split; [discriminate | intros [[E _] | [E _]]; discriminate].
  - rewrite Denied by (right; reflexivity).
    split; [discriminate | intros [[E _] | [E _]]; discriminate].
Qed.

Lemma role_discount_limits_witness :
  code (snd (Billing.discount (SampleBill.ask Admin percentage 25)
                              SampleBill.billed_store)) = 200.
Proof.
  apply (proj1 (role_discount_limits Admin
                  (SampleBill.ask Admin percentage 25) SampleBill.billed_store
                  SampleBill.billed_session eq_refl eq_refl eq_refl
                  ltac:(discriminate))).
  left. split; [reflexivity | discriminate].
Defined.

(** X8: the payment route never looks at the amount paid beyond its sign:
    two requests that differ only in a non-negative amount_paid give the
    same store and the same answer, whatever the session's total. *)
Theorem payment_ignores_amount G env sid (m : PaymentMethod) (a1 a2 : Q) db :
  (0 <= a1)%Q -> (0 <= a2)%Q ->
  Billing.payment_in G env
    {| Billing.pay_sessionId := sid;
       Billing.pay_body := {| Billing.payment_method := m;
                              Billing.amount_paid := a1 |} |} db
  = Billing.payment_in G env
      {| Billing.pay_sessionId := sid;
         Billing.pay_body := {| Billing.payment_method := m;
                                Billing.amount_paid := a2 |} |} db.
Proof.
  intros H1 H2. unfold Billing.payment_in, route, bind at 1 5.
  rewrite !validate_payment_ok by assumption. reflexivity.
Qed.

Lemma payment_ignores_amount_witness :
  Billing.payment SampleRun.later SamplePay.by_card SampleRun.running
  = Billing.payment SampleRun.later
      {| Billing.pay_sessionId := 1;
         Billing.pay_body := {| Billing.payment_method := card;
                                Billing.amount_paid := 0 |} |}
      SampleRun.running.
Proof.
  apply (payment_ignores_amount Billing.scope SampleRun.later 1 card 300 0);
    discriminate.
Defined.

(** X9: a payment of an active, unpaid session through routes/billing.js
    is answered 500 after the session was marked paid, with the orders as
    they were; every later payment request for that session is refused
    with 400 'Session already paid' and changes nothing, so no retry marks
    the orders paid. *)
Theorem payment_retry_refused env req db s t :
  (0 <= Billing.amount_paid (Billing.pay_body req))%Q ->
  findByPk Session.id (sessions db) (Billing.pay_sessionId req) = Some s ->
  findByPk Table.id (tables db) (Session.table_id s) = Some t ->
  Session.payment_status s <> paid ->
  Session.status s = active ->
  let first := Billing.payment env req db in
  code (snd first) = 500
  /\ orders (fst first) = orders db
  /\ option_map Session.payment_status
       (findByPk Session.id (sessions (fst first)) (Billing.pay_sessionId req))
     = Some paid
  /\ (forall env' req',
         Billing.pay_sessionId req' = Billing.pay_sessionId req ->
         (0 <= Billing.amount_paid (Billing.pay_body req'))%Q ->
         Billing.payment env' req' (fst first)
         = (fst first, fail 400 "Session already paid")).
Proof.
  intros Hv Hf Ht Hp Hs first.
  pose proof (payment_active_unbound Billing.scope env req db s t
                Hv Hf Ht Hp Hs eq_refl) as H.
  cbv zeta in H. fold (Billing.payment env req db) in H. fold first in H.
  set (s2 := Billing.close_inline
               (Billing.mark_paid s
                  (Billing.payment_method (Billing.pay_body req))) (now env))
    in *.
  assert (Hf2 : findByPk Session.id (sessions (fst first))
                         (Billing.pay_sessionId req) = Some s2).
  { rewrite H. cbn [fst sessions with_sessions with_tables].
    apply (findByPk_save_same Session.id _ _ s); [exact Hf|].
    apply (findByPk_key _ _ _ _ Hf). }
  split; [rewrite H; reflexivity|].
  split; [rewrite H; reflexivity|].
  split; [rewrite Hf2; reflexivity|].
  intros env' req' Eid Hv'.
  apply (payment_already_paid Billing.scope env' req' (fst first) s2 Hv').
  - rewrite Eid. exact Hf2.
  - reflexivity.
Qed.

Lemma payment_retry_refused_witness :
  Billing.payment SampleRun.later SamplePay.by_card
    (fst (Billing.payment SampleRun.later SamplePay.by_card SampleRun.running))
  = (fst (Billing.payment SampleRun.later SamplePay.by_card SampleRun.running),
     fail 400 "Session already paid").
Proof.
  apply (proj2 (proj2 (proj2
           (payment_retry_refused SampleRun.later SamplePay.by_card
              SampleRun.running SampleBill.started_session
              (Sessions.set_plug_status
                 (Sessions.occupy Sample.snooker1 SampleBill.started_session
                                  "Ann" "555") online)
              ltac:(discriminate) eq_refl eq_refl ltac:(discriminate)
              eq_refl)))).
  - reflexivity.
  - discriminate.
Defined.

(** ** Completing orders in the kitchen *)

Lemma complete_order_run orderId db o :
  findByPk Order.id (orders db) orderId = Some o ->
  KotOrders.complete_order orderId db
  = (with_orders
       (with_order_items db
          (update_where (fun i => OrderItem.order_id i =? Order.id o)
                        (fun i => Kot.item_with_status i i_ready)
                        (order_items db)))
       (save Order.id (Kot.order_with_status o o_ready) (orders db)),
     Replied 200 "Order marked as complete" (Kot.order_with_status o o_ready)).
Proof.
  intros Hf. unfold KotOrders.complete_order. unfold_reply. rewrite Hf.
  reflexivity.
Qed.

(** X10: completing a stored order marks every item of that order ready
    (so the re-scan of the item route succeeds), leaves every item of
    another order as it was, and stores the order as ready; an unknown
    order id is answered 404 with the store unchanged. *)
Theorem complete_order_spec orderId db :
  (findByPk Order.id (orders db) orderId = None ->
   KotOrders.complete_order orderId db
   = (db, Refused (fail 404 "Order not found")))
  /\ (forall o,
         findByPk Order.id (orders db) orderId = Some o ->
         let db' := fst (KotOrders.complete_order orderId db) in
         reply_code (snd (KotOrders.complete_order orderId db)) = 200
         /\ (forall j, In j (order_items db') ->
                       OrderItem.order_id j = orderId ->
                       OrderItem.status j = i_ready)
         /\ forallb Kot.is_ready (Kot.items_of orderId (order_items db')) = true
         /\ (forall j, OrderItem.order_id j <> orderId ->
                       (In j (order_items db') <-> In j (order_items db)))
         /\ List.length (order_items db') = List.length (order_items db)
         /\ option_map Order.status (findByPk Order.id (orders db') orderId)
            = Some o_ready).
Proof.
  split.
  - intros Hn. unfold KotOrders.complete_order. unfold_reply. rewrite Hn.
    reflexivity.
  - intros o Hf db'. unfold db'. rewrite (complete_order_run orderId db o Hf).
    cbn [fst snd reply_code order_items orders with_orders with_order_items].
    pose proof (findByPk_key _ _ _ _ Hf) as Hk. rewrite Hk.
    assert (Ready : forall j,
               In j (update_where (fun i => OrderItem.order_id i =? orderId)
                                  (fun i => Kot.item_with_status i i_ready)
                                  (order_items db)) ->
               OrderItem.order_id j = orderId -> OrderItem.status j = i_ready).
    { intros j Hin Ho. unfold update_where in Hin. apply in_map_iff in Hin.
      destruct Hin as (x & E & _).
      destruct (OrderItem.order_id x =? orderId) eqn:K.
      - subst j. reflexivity.
      - subst j. apply Z.eqb_neq in K. contradiction. }
    split; [reflexivity|]. split; [exact Ready|]. split.
    { apply all_ready_iff. exact Ready. }
    split.
    { intros j Hne. unfold update_where. rewrite in_map_iff. split.
      - intros (x & E & Hx). destruct (OrderItem.order_id x =? orderId) eqn:K.
        + subst j. apply Z.eqb_eq in K. cbn in Hne. contradiction.
        + subst j. exact Hx.
      - intros Hin. exists j. split; [|exact Hin].
        apply Z.eqb_neq in Hne. rewrite Hne. reflexivity. }
    split; [apply length_map|].
    rewrite (findByPk_save_same Order.id (orders db) orderId o
               (Kot.order_with_status o o_ready) Hf Hk). reflexivity.
Qed.

(** Running the item route over a list of item ids. *)
Lemma complete_item_items itemId db i :
  findByPk OrderItem.id (order_items db) itemId = Some i ->
  order_items (fst (Kot.complete_item itemId db))
  = save OrderItem.id (Kot.item_with_status i i_ready) (order_items db).
Proof.
  intros Hf. rewrite (complete_item_run itemId db i Hf). reflexivity.
Qed.

Lemma complete_order_spec_witness :
  forallb Kot.is_ready
          (Kot.items_of 2 (order_items
                             (fst (KotOrders.complete_order 2 SampleKot.kitchen))))
  = true.
Proof.
  destruct (proj2 (complete_order_spec 2 SampleKot.kitchen)
                  (SampleRun.order_on_1 2 o_preparing 6%Q 60000) eq_refl)
    as (_ & _ & H & _).
  exact H.
Defined.

Lemma findByPk_map {R : Type} (key : R -> Z) (g : R -> R) rows k :
  (forall x, key (g x) = key x) ->
  findByPk key (map g rows) k = option_map g (findByPk key rows k).
Proof.
  intros Hg. unfold findByPk.
  induction rows as [|x rows IH]; cbn; [reflexivity|].
  rewrite Hg. destruct (key x =? k); [reflexivity | exact IH].
Qed.

Lemma mark_ready_facts (k : Z) (x : OrderItem.row) :
  OrderItem.id (mark_ready k x) = OrderItem.id x
  /\ OrderItem.order_id (mark_ready k x) = OrderItem.order_id x
  /\ (OrderItem.status x = i_ready -> OrderItem.status (mark_ready k x) = i_ready)
  /\ (OrderItem.id x = k -> OrderItem.status (mark_ready k x) = i_ready).
Proof.
  unfold mark_ready. destruct (OrderItem.id x =? k) eqn:E; cbn.
  - repeat split; reflexivity.
  - repeat split; try tauto. intros H. apply Z.eqb_neq in E. contradiction.
Qed.

(** With unique item ids, the item route rewrites exactly the item it was
    asked for. *)
Lemma complete_item_marks k db i :
  NoDup (map OrderItem.id (order_items db)) ->
  findByPk OrderItem.id (order_items db) k = Some i ->
  order_items (fst (Kot.complete_item k db))
  = map (mark_ready k) (order_items db).
Proof.
  intros Hn Hf. rewrite (complete_item_items k db i Hf). unfold save.
  apply map_ext_in. intros x Hx. unfold mark_ready.
  pose proof (findByPk_key _ _ _ _ Hf) as Hk. cbn [Kot.item_with_status OrderItem.id].
  rewrite Hk. destruct (OrderItem.id x =? k) eqn:E; [|reflexivity].
  apply Z.eqb_eq in E.
  rewrite (unique_key OrderItem.id (order_items db) x i Hn Hx
             (findByPk_In _ _ _ _ Hf) (eq_trans E (eq_sym Hk))).
  reflexivity.
Qed.

(** After the item route has run over a list of stored item ids, every
    stored item has kept its id and order, ready items are still ready,
    and the items the list names are ready. *)
Lemma complete_items_trace (ids : list Z) :
  forall db,
    NoDup (map OrderItem.id (order_items db)) ->
    (forall k, In k ids -> findByPk OrderItem.id (order_items db) k <> None) ->
    exists g,
      order_items (complete_items ids db) = map g (order_items db)
      /\ forall x,
          OrderItem.id (g x) = OrderItem.id x
          /\ OrderItem.order_id (g x) = OrderItem.order_id x
          /\ (OrderItem.status x = i_ready -> OrderItem.status (g x) = i_ready)
          /\ (In (OrderItem.id x) ids -> OrderItem.status (g x) = i_ready).
Proof.
  induction ids as [|k ids IH]; intros db Hn Hex.
  - exists (fun x => x). split; [symmetry; apply map_id|].
    intros x. repeat split; try tauto. intros [].
  - destruct (findByPk OrderItem.id (order_items db) k) as [i|] eqn:Hf;
      [|exfalso; apply (Hex k (or_introl eq_refl)); exact Hf].
    pose proof (complete_item_marks k db i Hn Hf) as Hm.
    cbn [complete_items fold_left].
    fold (complete_items ids (fst (Kot.complete_item k db))).
    destruct (IH (fst (Kot.complete_item k db))) as (g & Hg & Pg).
    + rewrite Hm, map_map.
      rewrite (map_ext _ OrderItem.id
                 (fun x => proj1 (mark_ready_facts k x))).
      exact Hn.
    + intros k' Hk'. rewrite Hm.
      rewrite (findByPk_map OrderItem.id (mark_ready k))
        by (intros x; apply mark_ready_facts).
      specialize (Hex k' (or_intror Hk')).
      destruct (findByPk OrderItem.id (order_items db) k');
        [discriminate | contradiction].
    + exists (fun x => g (mark_ready k x)). split.
      * rewrite Hg, Hm, map_map. reflexivity.
      * intros x. destruct (mark_ready_facts k x) as (M1 & M2 & M3 & M4).
        destruct (Pg (mark_ready k x)) as (G1 & G2 & G3 & G4).
        split; [congruence|]. split; [congruence|]. split; [tauto|].
        intros [E | Hin].
        -- apply G3. apply M4. symmetry. exact E.
        -- apply G4. rewrite M1. exact Hin.
Qed.

(** X11: with unique item ids, requesting the item route once for each
    item of an order, in any order, ends with every item of that order
    ready and the order itself stored as ready: the leaf-driven completion
    reaches the parent at the last item. *)
Theorem complete_items_cascade (orderId : Z) (ids : list Z) db :
  NoDup (map OrderItem.id (order_items db)) ->
  ids <> [] ->
  (forall k, In k ids ->
             exists i, findByPk OrderItem.id (order_items db) k = Some i
                       /\ OrderItem.order_id i = orderId) ->
  (forall j, In j (order_items db) -> OrderItem.order_id j = orderId ->
             In (OrderItem.id j) ids) ->
  let db' := complete_items ids db in
  (forall j, In j (order_items db') -> OrderItem.order_id j = orderId ->
             OrderItem.status j = i_ready)
  /\ (forall o, In o (orders db') -> Order.id o = orderId ->
                Order.status o = o_ready).
Proof.
  intros Hn Hne Hids Hall db'.
  destruct (exists_last Hne) as (init & k & E). subst ids.
  assert (Hex : forall k', In k' init ->
                           findByPk OrderItem.id (order_items db) k' <> None).
  { intros k' Hk'. destruct (Hids k') as (i & Hi & _).
    - apply in_or_app. left. exact Hk'.
    - rewrite Hi. discriminate. }
  destruct (complete_items_trace init db Hn Hex) as (g & Hg & Pg).
  destruct (Hids k) as (i & Hi & Ho); [apply in_or_app; right; left; reflexivity|].
  set (d := complete_items init db) in *.
  assert (Hfd : findByPk OrderItem.id (order_items d) k = Some (g i)).
  { rewrite Hg, (findByPk_map OrderItem.id g) by (intros x; apply Pg).
    rewrite Hi. reflexivity. }
  assert (Hdb' : db' = fst (Kot.complete_item k d)).
  { unfold db', complete_items. rewrite fold_left_app. reflexivity. }
  pose proof (complete_item_run k d (g i) Hfd) as Run. cbv zeta in Run.
  assert (Og : OrderItem.order_id (g i) = orderId)
    by (rewrite (proj1 (proj2 (Pg i))); exact Ho).
  rewrite Og in Run.
  assert (All : forall j,
             In j (save OrderItem.id (Kot.item_with_status (g i) i_ready)
                        (order_items d)) ->
             OrderItem.order_id j = orderId -> OrderItem.status j = i_ready).
  { intros j Hin Hj. apply save_In in Hin.
    destruct Hin as [-> | [Hin Hk]]; [reflexivity|].
    rewrite Hg in Hin. apply in_map_iff in Hin. destruct Hin as (x & <- & Hx).
    destruct (Pg x) as (G1 & G2 & _ & G4).
    apply G4. rewrite G2 in Hj. specialize (Hall x Hx Hj).
    apply in_app_or in Hall. destruct Hall as [Hin | [Ek | []]]; [exact Hin|].
    exfalso. apply Hk. cbn [Kot.item_with_status OrderItem.id].
    rewrite G1, (proj1 (Pg i)), <- Ek.
    symmetry. apply (findByPk_key _ _ _ _ Hi). }
  pose proof (proj2 (all_ready_iff orderId _) All) as Scan.
  rewrite Scan in Run.
  rewrite Hdb', Run. cbn [fst orders order_items with_orders with_order_items].
  split; [exact All|].
  intros o. apply marked_orders_ready.
Qed.

Lemma complete_items_cascade_witness :
  exists o,
    findByPk Order.id (orders (complete_items [4; 3] SampleKot.kitchen)) 2
    = Some o
    /\ Order.status o = o_ready.
Proof.
  destruct (findByPk Order.id
              (orders (complete_items [4; 3] SampleKot.kitchen)) 2)
    as [o|] eqn:F; [|vm_compute in F; discriminate F].
  exists o. split; [reflexivity|].
  apply (proj2 (complete_items_cascade 2 [4; 3] SampleKot.kitchen
                  ltac:(cbn; repeat constructor; cbn; intuition discriminate)
                  ltac:(discriminate)
                  ltac:(intros k [<- | [<- | []]];
                        [exists (SampleKot.item 4 2 i_pending)
                        |exists (SampleKot.item 3 2 i_pending)];
                        split; reflexivity)
                  ltac:(intros j Hin Ho; cbn in Hin;
                        destruct Hin as [<- | [<- | [<- | [<- | []]]]];
                        cbn in *; try discriminate; tauto)) o);
    [exact (findByPk_In Order.id _ _ _ F) | exact (findByPk_key Order.id _ _ _ F)].
Defined.

(** ** Order routes *)

Lemma order_status_run id st db o :
  findByPk Order.id (orders db) id = Some o ->
  OrderUpdates.update_status id st db
  = (with_orders db (save Order.id (Kot.order_with_status o st) (orders db)),
     Replied 200 "Order status updated successfully"
             (Kot.order_with_status o st)).
Proof.
  intros Hf. unfold OrderUpdates.update_status. unfold_reply. rewrite Hf.
  reflexivity.
Qed.

(** X12: the delete route refuses to cancel a served order (400, store
    unchanged), but the status route, which checks no transition, stores
    the same order as cancelled when asked to; any other stored order is
    cancelled by the delete route, with the same store as the status
    route leaves. *)
Theorem cancel_guard_only_on_delete id db o :
  findByPk Order.id (orders db) id = Some o ->
  (Order.status o = o_served ->
   OrderUpdates.cancel id db
   = (db, Refused (fail 400 "Cannot cancel served order")))
  /\ reply_code (snd (OrderUpdates.update_status id o_cancelled db)) = 200
  /\ option_map Order.status
       (findByPk Order.id
          (orders (fst (OrderUpdates.update_status id o_cancelled db))) id)
     = Some o_cancelled
  /\ (Order.status o <> o_served ->
      reply_code (snd (OrderUpdates.cancel id db)) = 200
      /\ fst (OrderUpdates.cancel id db)
         = fst (OrderUpdates.update_status id o_cancelled db)).
Proof.
  intros Hf. pose proof (findByPk_key _ _ _ _ Hf) as Hk.
  rewrite (order_status_run id o_cancelled db o Hf).
  cbn [fst snd reply_code orders with_orders].
  split.
  { intros Hs. unfold OrderUpdates.cancel. unfold_reply. rewrite Hf, Hs.
    reflexivity. }
  split; [reflexivity|]. split.
  { rewrite (findByPk_save_same Order.id (orders db) id o
               (Kot.order_with_status o o_cancelled) Hf Hk). reflexivity. }
  intros Hs. unfold OrderUpdates.cancel. unfold_reply. rewrite Hf.
  destruct (Order.status o); try contradiction; split; reflexivity.
Qed.

Lemma cancel_guard_only_on_delete_witness :
  OrderUpdates.cancel 1 SampleRun.running
  = (SampleRun.running, Refused (fail 400 "Cannot cancel served order"))
  /\ option_map Order.status
       (findByPk Order.id
          (orders (fst (OrderUpdates.update_status 1 o_cancelled
                          SampleRun.running))) 1)
     = Some o_cancelled.
Proof.
  destruct (cancel_guard_only_on_delete 1 SampleRun.running
              SampleRun.served_order eq_refl) as (H1 & _ & H3 & _).
  split; [apply H1; reflexivity | exact H3].
Defined.

Lemma item_status_run orderId itemId st db i :
  find (OrderUpdates.item_of_order itemId orderId) (order_items db) = Some i ->
  OrderUpdates.update_item_status orderId itemId st db
  = (with_order_items db
       (save OrderItem.id (Kot.item_with_status i st) (order_items db)),
     Replied 200 "Order item status updated successfully"
             (Kot.item_with_status i st)).
Proof.
  intros Hf. unfold OrderUpdates.update_item_status. unfold_reply. rewrite Hf.
  reflexivity.
Qed.

(** X13: setting an item to ready through the order route writes the same
    item rows as the KOT item route but never touches the orders, even
    when every item of the order is then ready; the KOT item route in that
    case stores the order as ready. *)
Theorem item_status_route_has_no_cascade orderId itemId db i :
  findByPk OrderItem.id (order_items db) itemId = Some i ->
  OrderItem.order_id i = orderId ->
  let a := fst (OrderUpdates.update_item_status orderId itemId i_ready db) in
  let b := fst (Kot.complete_item itemId db) in
  order_items a = order_items b
  /\ orders a = orders db
  /\ ((forall j, In j (order_items b) -> OrderItem.order_id j = orderId ->
                 OrderItem.status j = i_ready) ->
      orders b = Kot.mark_order_ready orderId (orders db)
      /\ forall o, In o (orders db) -> Order.id o = orderId ->
                   Order.status o <> o_ready ->
                   In o (orders a) /\ ~ In o (orders b)).
Proof.
  intros Hf Ho a b.
  assert (Hfind : find (OrderUpdates.item_of_order itemId orderId)
                       (order_items db) = Some i).
  { unfold findByPk in Hf. unfold OrderUpdates.item_of_order.
    revert Hf. induction (order_items db) as [|x rows IH]; cbn; [discriminate|].
    destruct (OrderItem.id x =? itemId) eqn:E; cbn [andb].
    - intros [= ->]. rewrite Ho, Z.eqb_refl. reflexivity.
    - exact IH. }
  unfold a, b. rewrite (item_status_run orderId itemId i_ready db i Hfind).
  pose proof (complete_item_run itemId db i Hf) as H. cbv zeta in H.
  rewrite H, Ho.
  cbn [fst orders order_items with_order_items with_orders].
  split; [reflexivity|]. split; [reflexivity|].
  intros All. apply all_ready_iff in All. rewrite All.
  split; [reflexivity|]. intros o Hin Hid Hst. split; [exact Hin|].
  intros Hin'. apply Hst. apply (marked_orders_ready orderId _ o Hin' Hid).
Qed.

Lemma item_status_route_has_no_cascade_witness :
  orders (fst (OrderUpdates.update_item_status 1 1 i_ready SampleKot.kitchen))
  = orders SampleKot.kitchen.
Proof.
  exact (proj1 (proj2 (item_status_route_has_no_cascade 1 1 SampleKot.kitchen
                         (SampleKot.item 1 1 i_pending) eq_refl eq_refl))).
Defined.

(** ** The amounts of an order *)

Lemma balanced_save (o : Order.row) (rows : list Order.row) :
  balanced o -> Forall balanced rows -> Forall balanced (save Order.id o rows).
Proof.
  intros Ho Hr. unfold save. apply Forall_forall. intros x Hin.
  apply in_map_iff in Hin. destruct Hin as (y & E & Hy).
  destruct (Order.id y =? Order.id o); subst x; [exact Ho|].
  apply (proj1 (Forall_forall _ _) Hr y Hy).
Qed.

Lemma balanced_update_where (p : Order.row -> bool) (f : Order.row -> Order.row)
      (rows : list Order.row) :
  (forall x, balanced x -> balanced (f x)) ->
  Forall balanced rows -> Forall balanced (update_where p f rows).
Proof.
  intros Hf Hr. unfold update_where. apply Forall_forall. intros x Hin.
  apply in_map_iff in Hin. destruct Hin as (y & E & Hy).
  pose proof (proj1 (Forall_forall _ _) Hr y Hy) as By.
  destruct (p y); subst x; [apply Hf; exact By | exact By].
Qed.

Lemma balanced_found (rows : list Order.row) (k : Z) (o : Order.row) :
  Forall balanced rows -> findByPk Order.id rows k = Some o -> balanced o.
Proof.
  intros Hr Hf. apply (proj1 (Forall_forall _ _) Hr).
  apply (findByPk_In _ _ _ _ Hf).
Qed.

(** The first loop of the create route never writes and never raises. *)
Lemma price_lines_reads (ls : list Orders.Line) :
  forall subtotal acc db,
    (exists v, Orders.price_lines ls subtotal acc db = (db, Normal v))
    \/ (exists r, Orders.price_lines ls subtotal acc db = (db, Sent r)).
Proof.
  induction ls as [|item rest IH]; intros subtotal acc db.
  - left. eexists. reflexivity.
  - cbn [Orders.price_lines]. unfold_act. unfold Orders.MenuItem_findByPk.
    unfold_act.
    destruct (findByPk MenuItem.id (menu_items db) (Orders.menu_item_id item))
      as [m|].
    + destruct (MenuItem.is_available m); cbn [negb].
      * apply IH.
      * right. eexists. reflexivity.
    + right. eexists. reflexivity.
Qed.

(** The create route leaves the orders as they were or appends one
    balanced order. *)
Lemma create_orders env req db :
  orders (fst (Orders.create env req db)) = orders db
  \/ exists o, orders (fst (Orders.create env req db)) = orders db ++ [o]
               /\ balanced o.
Proof.
  unfold Orders.create. unfold_act.
  destruct (Nat.eqb _ 0); cbn [negb]; [|left; reflexivity].
  destruct (findByPk Table.id (tables db) (Orders.table_id (Orders.body req)))
    as [t|]; [|left; reflexivity].
  destruct (price_lines_reads (Orders.items (Orders.body req)) 0%Q [] db)
    as [(v & ->) | (r & ->)]; [|left; reflexivity].
  right. unfold Orders.Order_create. rewrite create_items_run.
  cbn [fst orders order_items with_orders with_order_items].
  eexists. split; [reflexivity|].
  unfold balanced. cbn. ring.
Qed.

(** The payment route leaves the orders as they were or marks some of
    them paid. *)
Lemma payment_orders G env req db :
  orders (fst (Billing.payment_in G env req db)) = orders db
  \/ exists p, orders (fst (Billing.payment_in G env req db))
               = update_where p Billing.order_paid (orders db).
Proof.
  unfold Billing.payment_in. unfold_act.
  destruct (Nat.eqb _ 0); cbn [negb]; [|left; reflexivity].
  destruct (findByPk Session.id (sessions db) (Billing.pay_sessionId req))
    as [s|]; [|left; reflexivity].
  destruct (PaymentStatus_eqb (Session.payment_status s) paid);
    [left; reflexivity|].
  cbn [Billing.mark_paid Session.status].
  destruct (SessionStatus_eqb (Session.status s) active).
  - destruct (findByPk Table.id (tables db) (Session.table_id s)) as [t|];
      [|left; reflexivity].
    destruct (Js.binds G "Op"); [|left; reflexivity].
    right. eexists. reflexivity.
  - destruct (Js.binds G "Op"); [|left; reflexivity].
    right. eexists. reflexivity.
Qed.

Lemma apply_op_balanced (op : OrderOp) (db : DB) :
  Forall balanced (orders db) -> Forall balanced (orders (apply_op op db)).
Proof.
  intros Hb. destruct op; cbn [apply_op].
  - destruct (create_orders env req db) as [-> | (o & -> & Bo)]; [exact Hb|].
    apply Forall_app. split; [exact Hb|]. constructor; [exact Bo | constructor].
  - unfold OrderUpdates.update_status. unfold_reply.
    destruct (findByPk Order.id (orders db) id) as [o|] eqn:Hf; [|exact Hb].
    cbn [fst orders with_orders]. apply balanced_save; [|exact Hb].
    apply (balanced_found _ _ _ Hb Hf).
  - unfold OrderUpdates.update_item_status. unfold_reply.
    destruct (find _ (order_items db)); exact Hb.
  - unfold OrderUpdates.print_kot. unfold_reply.
    destruct (findByPk Order.id (orders db) id) as [o|] eqn:Hf; [|exact Hb].
    cbn [fst orders with_orders]. apply balanced_save; [|exact Hb].
    apply (balanced_found _ _ _ Hb Hf).
  - unfold OrderUpdates.cancel. unfold_reply.
    destruct (findByPk Order.id (orders db) id) as [o|] eqn:Hf; [|exact Hb].
    destruct (OrderUpdates.is_served (Order.status o)); [exact Hb|].
    cbn [fst orders with_orders]. apply balanced_save; [|exact Hb].
    apply (balanced_found _ _ _ Hb Hf).
  - destruct (findByPk OrderItem.id (order_items db) itemId) as [i|] eqn:Hf.
    + rewrite (complete_item_run itemId db i Hf).
      cbn [fst orders with_orders].
      destruct (forallb Kot.is_ready _); [|exact Hb].
      apply balanced_update_where; [|exact Hb]. intros x Bx. exact Bx.
    + unfold Kot.complete_item. unfold_act. rewrite Hf. exact Hb.
  - unfold KotOrders.complete_order. unfold_reply.
    destruct (findByPk Order.id (orders db) orderId) as [o|] eqn:Hf; [|exact Hb].
    cbn [fst orders with_orders with_order_items].
    apply balanced_save; [|exact Hb]. apply (balanced_found _ _ _ Hb Hf).
  - destruct (payment_orders G env req db) as [-> | (p & ->)]; [exact Hb|].
    apply balanced_update_where; [|exact Hb]. intros x Bx. exact Bx.
Qed.

(** X14: an order's total equals subtotal + tax - discount when the
    create route stores it, and no sequence of order creations, status
    and item-status updates, KOT prints, cancellations, KOT completions
    and payments ever breaks that equation for any stored order. *)
Theorem orders_stay_balanced (ops : list OrderOp) (db : DB) :
  Forall balanced (orders db) -> Forall balanced (orders (run_ops ops db)).
Proof.
  unfold run_ops. revert db.
  induction ops as [|op ops IH]; intros db Hb; [exact Hb|].
  cbn [fold_left]. apply IH. apply apply_op_balanced. exact Hb.
Qed.

Lemma orders_stay_balanced_witness :
  Forall balanced
    (orders (run_ops
               [OpCreate SampleOrder.at_one
                  (SampleOrder.ask [SampleOrder.line 1 2; SampleOrder.line 2 2]);
                OpStatus 1 o_confirmed; OpPrintKot SampleOrder.at_one 1;
                OpCompleteItem 1; OpCompleteOrder 1; OpCancel 1]
               SampleOrder.cafe)).
Proof.
  apply (orders_stay_balanced _ SampleOrder.cafe). constructor.
Defined.

(** ** Reservations and the tables they hold *)

Lemma set_status_lookup (k : Z) (st : TableStatus) (rows : list Table.row)
      (k' : Z) :
  findByPk Table.id
    (update_where (fun t => Table.id t =? k)
                  (fun t => ReservationUpdates.table_with_status t st) rows) k'
  = option_map (fun t => if Table.id t =? k
                         then ReservationUpdates.table_with_status t st else t)
               (findByPk Table.id rows k').
Proof.
  unfold update_where.
  apply (findByPk_map Table.id
           (fun t => if Table.id t =? k
                     then ReservationUpdates.table_with_status t st else t)).
  intros x. destruct (Table.id x =? k); reflexivity.
Qed.

Lemma reservation_status_run id st db r :
  findByPk Reservation.id (reservations db) id = Some r ->
  ReservationUpdates.update_status id st db
  = (let db1 := with_reservations db
                  (save Reservation.id (ReservationUpdates.with_status r st)
                        (reservations db)) in
     match ReservationUpdates.linked_table r, st with
     | Some k, r_arrived =>
       with_tables db1
         (update_where (fun t => Table.id t =? k)
            (fun t => ReservationUpdates.table_with_status t reserved)
            (tables db))
     | Some k, (r_cancelled | r_completed | r_no_show) =>
       with_tables db1
         (update_where (fun t => Table.id t =? k)
            (fun t => ReservationUpdates.table_with_status t available)
            (tables db))
     | _, _ => db1
     end,
     Replied 200 "Reservation status updated successfully"
             (ReservationUpdates.with_status r st)).
Proof.
  intros Hf. unfold ReservationUpdates.update_status. unfold_reply.
  rewrite Hf.
  change (ReservationUpdates.linked_table (ReservationUpdates.with_status r st))
    with (ReservationUpdates.linked_table r).
  destruct (ReservationUpdates.linked_table r) as [k|], st; reflexivity.
Qed.

(** X15: a status update of a stored reservation that holds table [k]
    is always answered 200 and, with no look at the table, forces its
    status: reserved on arrived, available on cancelled, completed and
    no-show (also when the table is occupied, and its session pointer is
    kept), unchanged on confirmed; no other table changes. *)
Theorem reservation_status_forces_table id st db r k t :
  findByPk Reservation.id (reservations db) id = Some r ->
  ReservationUpdates.linked_table r = Some k ->
  findByPk Table.id (tables db) k = Some t ->
  let out := ReservationUpdates.update_status id st db in
  reply_code (snd out) = 200
  /\ option_map Reservation.status
       (findByPk Reservation.id (reservations (fst out)) id) = Some st
  /\ (exists t',
         findByPk Table.id (tables (fst out)) k = Some t'
         /\ Table.status t'
            = match st with
              | r_arrived => reserved
              | r_confirmed => Table.status t
              | _ => available
              end
         /\ Table.current_session_id t' = Table.current_session_id t
         /\ Table.customer_name t' = Table.customer_name t)
  /\ (forall k', k' <> k ->
                 findByPk Table.id (tables (fst out)) k'
                 = findByPk Table.id (tables db) k').
Proof.
  intros Hf Hl Ht out. unfold out.
  rewrite (reservation_status_run id st db r Hf). rewrite Hl.
  pose proof (findByPk_key _ _ _ _ Hf) as Hk.
  pose proof (findByPk_key _ _ _ _ Ht) as Hkt.
  assert (Other : forall k' s rows,
             k' <> k ->
             findByPk Table.id
               (update_where (fun t => Table.id t =? k)
                  (fun t => ReservationUpdates.table_with_status t s) rows) k'
             = findByPk Table.id rows k').
  { intros k' s rows N. rewrite set_status_lookup.
    destruct (findByPk Table.id rows k') as [x|] eqn:E; [|reflexivity].
    cbn. apply findByPk_key in E.
    assert (F : (Table.id x =? k) = false) by (apply Z.eqb_neq; congruence).
    rewrite F. reflexivity. }
  assert (Rs : findByPk Reservation.id
                 (save Reservation.id (ReservationUpdates.with_status r st)
                       (reservations db)) id
               = Some (ReservationUpdates.with_status r st))
    by (apply (findByPk_save_same Reservation.id _ _ r); [exact Hf | exact Hk]).
  apply Z.eqb_eq in Hkt.
  assert (Forced : forall s,
             exists t',
               findByPk Table.id
                 (update_where (fun t => Table.id t =? k)
                    (fun t => ReservationUpdates.table_with_status t s)
                    (tables db)) k = Some t'
               /\ Table.status t' = s
               /\ Table.current_session_id t' = Table.current_session_id t
               /\ Table.customer_name t' = Table.customer_name t).
  { intros s. rewrite set_status_lookup, Ht. cbn [option_map]. rewrite Hkt.
    eexists. repeat split. }
  destruct st; cbv zeta;
    cbn [fst snd reply_code reservations tables with_reservations with_tables];
    (split; [reflexivity|]); (split; [rewrite Rs; reflexivity|]).
  - split; [exists t; repeat split; exact Ht | intros; reflexivity].
  - split; [apply Forced | intros k' N; apply Other; exact N].
  - split; [apply Forced | intros k' N; apply Other; exact N].
  - split; [apply Forced | intros k' N; apply Other; exact N].
  - split; [apply Forced | intros k' N; apply Other; exact N].
Qed.

Lemma reservation_cancel_run id db r :
  findByPk Reservation.id (reservations db) id = Some r ->
  Reservation.status r <> r_completed ->
  ReservationUpdates.cancel id db
  = (fst (ReservationUpdates.update_status id r_cancelled db),
     Replied 200 "Reservation cancelled successfully" tt).
Proof.
  intros Hf Hs. rewrite (reservation_status_run id r_cancelled db r Hf).
  unfold ReservationUpdates.cancel. unfold_reply. rewrite Hf.
  destruct (ReservationStatus_eqb (Reservation.status r) r_completed) eqn:E.
  { destruct (Reservation.status r); try discriminate. contradiction. }
  change (ReservationUpdates.linked_table
            (ReservationUpdates.with_status r r_cancelled))
    with (ReservationUpdates.linked_table r).
  destruct (ReservationUpdates.linked_table r); reflexivity.
Qed.

(** X16: for a stored reservation that is not completed the delete route
    leaves exactly the store of a status update to cancelled; a completed
    reservation is refused by the delete route (400, store unchanged)
    although the status route would still store it as cancelled. *)
Theorem reservation_cancel_is_status_update id db r :
  findByPk Reservation.id (reservations db) id = Some r ->
  (Reservation.status r <> r_completed ->
   reply_code (snd (ReservationUpdates.cancel id db)) = 200
   /\ fst (ReservationUpdates.cancel id db)
      = fst (ReservationUpdates.update_status id r_cancelled db))
  /\ (Reservation.status r = r_completed ->
      ReservationUpdates.cancel id db
      = (db, Refused (fail 400 "Cannot cancel completed reservation"))
      /\ option_map Reservation.status
           (findByPk Reservation.id
              (reservations
                 (fst (ReservationUpdates.update_status id r_cancelled db))) id)
         = Some r_cancelled).
Proof.
  intros Hf. split.
  - intros Hs. rewrite (reservation_cancel_run id db r Hf Hs).
    split; reflexivity.
  - intros Hs. split.
    + unfold ReservationUpdates.cancel. unfold_reply. rewrite Hf, Hs.
      reflexivity.
    + rewrite (reservation_status_run id r_cancelled db r Hf).
      pose proof (findByPk_key _ _ _ _ Hf) as Hk.
      assert (Rs : findByPk Reservation.id
                     (save Reservation.id
                           (ReservationUpdates.with_status r r_cancelled)
                           (reservations db)) id
                   = Some (ReservationUpdates.with_status r r_cancelled))
        by (apply (findByPk_save_same Reservation.id _ _ r);
            [exact Hf | exact Hk]).
      destruct (ReservationUpdates.linked_table r);
        cbn [fst reservations with_reservations with_tables];
        rewrite Rs; reflexivity.
Qed.

Lemma reservation_status_forces_table_witness :
  exists t',
    findByPk Table.id
      (tables (fst (ReservationUpdates.update_status 1 r_no_show
                      SampleHold.held))) 1 = Some t'
    /\ Table.status t' = available
    /\ Table.current_session_id t' = Some 1.
Proof.
  destruct (reservation_status_forces_table 1 r_no_show SampleHold.held
              (SampleBooking.booking 1 r_confirmed) 1
              SampleHold.occupied_table eq_refl eq_refl eq_refl)
    as (_ & _ & (t' & H & S & C & _) & _).
  exists t'. split; [exact H|]. split; [exact S | exact C].
Defined.

Lemma reservation_cancel_is_status_update_witness :
  fst (ReservationUpdates.cancel 1 SampleHold.held)
  = fst (ReservationUpdates.update_status 1 r_cancelled SampleHold.held).
Proof.
  apply (proj1 (reservation_cancel_is_status_update 1 SampleHold.held
                  (SampleBooking.booking 1 r_confirmed) eq_refl)).
  discriminate.
Defined.

(** ** One table, two sessions *)



(** ** Booking the same slot again *)

Section BookingFacts.
Variable isISO8601 : string -> bool.
Variable isTime : string -> bool.



End BookingFacts.



(** ** Registering, logging in and deleting a staff member *)

Section AccountFacts.
Variable isEmail : string -> bool.
Variable hash : string -> string.
Variable compare : string -> string -> bool.
Variable sign : Z -> Role -> string.


Lemma find_all_false {A} (p : A -> bool) l :
  (forall x, In x l -> p x = false) -> find p l = None.
Proof.
  induction l as [|a l IH]; cbn; intros H; [reflexivity|].
  rewrite (H a (or_introl eq_refl)). apply IH. intros x Hx. apply H.
  right. exact Hx.
Qed.

Lemma users_with_users db us : users (with_users db us) = us.
Proof. reflexivity. Qed.




(** A staff deletion answered 200 found a non-admin user and stored it
    deactivated. *)
Lemma delete_staff_inv id db db' c m p :
  Login.delete_staff id db = (db', Replied c m p) ->
  exists u, findByPk User.id (users db) id = Some u
            /\ Login.is_admin (User.role u) = false
            /\ db' = with_users db
                       (save User.id (Login.deactivated u) (users db)).
Proof.
  unfold Login.delete_staff. unfold_reply.
  cbv beta iota zeta delta [Login.User_save write].
  destruct (findByPk User.id (users db) id) as [u|] eqn:F; [|discriminate].
  destruct (Login.is_admin (User.role u)) eqn:A; [discriminate|].
  intros [= <- _ _ _]. exists u.
  split; [reflexivity|]. split; [exact A | reflexivity].
Qed.

(** X21: deleting a staff member only clears [is_active], and that is
    what locks the account: once the deletion has been answered 200, and
    no other stored user has the same e-mail, no login with that e-mail is
    answered 200, whatever the password and the role; it is refused with
    400 or 401 and writes nothing. *)
Theorem deleted_staff_cannot_login env id db db1 c m p u lb :
  Login.delete_staff id db = (db1, Replied c m p) ->
  findByPk User.id (users db) id = Some u ->
  (forall v, In v (users db) -> User.email v = User.email u ->
             User.id v = User.id u) ->
  Login.email lb = User.email u ->
  exists r, Login.login isEmail compare sign env lb db1 = (db1, Refused r)
            /\ (code r = 400 \/ code r = 401).
Proof.
  intros H F Uq El.
  destruct (delete_staff_inv id db db1 c m p H) as (u' & F' & _ & ->).
  rewrite F in F'. injection F' as <-.
  assert (Fl : find (Login.matches lb)
                    (save User.id (Login.deactivated u) (users db)) = None).
  { apply find_all_false. intros x Hx.
    apply save_In in Hx. destruct Hx as [-> | [Hx Nk]].
    - unfold Login.matches. cbn [Login.deactivated User.is_active].
      rewrite Bool.andb_false_r. reflexivity.
    - unfold Login.matches. rewrite El.
      destruct (String.eqb (User.email x) (User.email u)) eqn:E;
        [|reflexivity].
      apply String.eqb_eq in E. exfalso. apply Nk.
      cbn [Login.deactivated User.id]. apply Uq; assumption. }
  unfold Login.login. unfold_reply.
  destruct (Nat.eqb _ 0); cbn [negb].
  - rewrite users_with_users, Fl. eexists. split; [reflexivity|]. right. reflexivity.
  - eexists. split; [reflexivity|]. left. reflexivity.
Qed.

(** X22: deleting a staff member neither removes a row nor touches an
    administrator: with unique primary keys, the stored ids are the same
    after the route, whatever it answered, and every stored administrator
    is stored unchanged. *)
Theorem delete_staff_keeps_admins id db :
  NoDup (map User.id (users db)) ->
  let db' := fst (Login.delete_staff id db) in
  map User.id (users db') = map User.id (users db)
  /\ forall a, In a (users db) -> User.role a = Admin -> In a (users db').
Proof.
  intros Hn db'. subst db'.
  unfold Login.delete_staff. unfold_reply.
  destruct (findByPk User.id (users db) id) as [u|] eqn:F;
    [|split; [reflexivity | intros; assumption]].
  destruct (Login.is_admin (User.role u)) eqn:A;
    [split; [reflexivity | intros; assumption]|].
  cbn [fst]. rewrite users_with_users. split.
  - apply (save_keys User.id).
  - intros a Ha Ra. apply save_keeps_other; [exact Ha|].
    cbn [Login.deactivated User.id]. intros E.
    pose proof (findByPk_In User.id _ _ _ F) as Hu.
    pose proof (unique_key User.id (users db) a u Hn Ha Hu E) as ->.
    rewrite Ra in A. discriminate.
Qed.
End AccountFacts.


Lemma deleted_staff_cannot_login_witness :
  exists r,
    Login.login SampleAuth.any_email SampleAccounts.plain_compare
      SampleAuth.plain_sign Sample.at_noon SampleAccounts.sam_logs_in
      (fst (Login.delete_staff 7 SampleAccounts.staffed))
    = (fst (Login.delete_staff 7 SampleAccounts.staffed), Refused r)
    /\ (code r = 400 \/ code r = 401).
Proof.
  apply (deleted_staff_cannot_login SampleAuth.any_email
           SampleAccounts.plain_compare SampleAuth.plain_sign Sample.at_noon
           7 SampleAccounts.staffed _ 200 "Staff member deleted successfully"
           tt (SampleBill.staff_member Staff) SampleAccounts.sam_logs_in).
  - reflexivity.
  - reflexivity.
  - intros v [<- | [<- | []]] E; [reflexivity | discriminate E].
  - reflexivity.
Defined.

Lemma delete_staff_keeps_admins_witness :
  In SampleAccounts.owner
     (users (fst (Login.delete_staff 7 SampleAccounts.staffed))).
Proof.
  apply (proj2 (delete_staff_keeps_admins 7 SampleAccounts.staffed
                  ltac:(repeat constructor; cbn; intuition discriminate))).
  - right. left. reflexivity.
  - reflexivity.
Defined.

(** ** Reading one session *)

(** X23: [GET /:id] of routes/sessions.js never answers 200 and never
    writes: an unknown id is answered 404, and for a stored session the
    order query reads [Op], which the module does not bind, so the route
    answers 500.  In a module that binds [Op] the same handler answers 200
    with the session and the orders of its table created from its start to
    its end, or to the current time while it has no end. *)
Theorem get_session_spec env id db :
  (findByPk Session.id (sessions db) id = None ->
   SessionLifecycle.get env id db
   = (db, Refused (fail 404 "Session not found")))
  /\ (forall s,
        findByPk Session.id (sessions db) id = Some s ->
        SessionLifecycle.get env id db = (db, Refused server_error)
        /\ forall G, Js.binds G "Op" = true ->
             SessionLifecycle.get_in G env id db
             = (db, Replied 200 EmptyString
                      (s, filter (in_window (Session.table_id s)
                                            (Session.start_time s)
                                            (match Session.end_time s with
                                             | Some e => e
                                             | None => now env
                                             end))
                                 (orders db)))).
Proof.
  split.
  - intros F. unfold SessionLifecycle.get, SessionLifecycle.get_in.
    unfold_reply. rewrite F. reflexivity.
  - intros s F. split.
    + unfold SessionLifecycle.get, SessionLifecycle.get_in.
      unfold_reply. rewrite F. reflexivity.
    + intros G HG. unfold SessionLifecycle.get_in. unfold_reply.
      rewrite F, HG. unfold Js.date_or.
      destruct (Session.end_time s); reflexivity.
Qed.

Lemma get_session_spec_witness :
  reply_code (snd (SessionLifecycle.get SampleRun.later 1 SampleLifecycle.running))
  = 500.
Proof.
  exact (f_equal (fun x => reply_code (snd x))
           (proj1 (proj2 (get_session_spec SampleRun.later 1
                            SampleLifecycle.running)
                         SampleBill.started_session eq_refl))).
Defined.

(** ** Deleting a table *)






(** ** Keys and numbers of the tables *)

Section FieldOfSavedRows.
Context {R B : Type} (key : R -> Z) (f : R -> B).

Lemma save_absent r rows :
  ~ In (key r) (map key rows) -> save key r rows = rows.
Proof.
  intros N. unfold save. rewrite <- (map_id rows) at 2.
  apply map_ext_in. intros x Hx.
  destruct (key x =? key r) eqn:E; [|reflexivity].
  apply Z.eqb_eq in E. exfalso. apply N. rewrite <- E. apply in_map. exact Hx.
Qed.

Lemma save_same_field r rows :
  (forall x, In x rows -> key x = key r -> f x = f r) ->
  map f (save key r rows) = map f rows.
Proof.
  intros H. unfold save. rewrite map_map. apply map_ext_in. intros x Hx.
  destruct (key x =? key r) eqn:E; [|reflexivity].
  apply Z.eqb_eq in E. symmetry. apply H; assumption.
Qed.

(** Replacing a row by one with the same key keeps a column free of
    duplicates when the new value is the old one or is not in use. *)
Lemma save_nodup_field rows t r :
  NoDup (map key rows) -> NoDup (map f rows) ->
  In t rows -> key r = key t ->
  f r = f t \/ ~ In (f r) (map f rows) ->
  NoDup (map f (save key r rows)).
Proof.
  intros Hk Hf Ht Ek [Ef | Nf].
  - rewrite save_same_field; [exact Hf|].
    intros x Hx Ex. rewrite Ef. f_equal.
    apply (unique_key key rows); [exact Hk | exact Hx | exact Ht | congruence].
  - induction rows as [|a rows IH]; [destruct Ht|].
    cbn [map] in Hk, Hf. inversion Hk as [|? ? Ka Hk']; subst.
    inversion Hf as [|? ? Fa Hf']; subst.
    cbn [save map]. fold (save key r rows).
    destruct (key a =? key r) eqn:E.
    + apply Z.eqb_eq in E. rewrite save_absent by (rewrite <- E; exact Ka).
      constructor; [|exact Hf'].
      intros Hin. apply Nf. right. exact Hin.
    + apply Z.eqb_neq in E.
      destruct Ht as [-> | Ht]; [congruence|].
      constructor.
      * intros Hin. apply in_map_iff in Hin. destruct Hin as (x & Ex & Hx).
        apply (save_In key) in Hx. destruct Hx as [-> | [Hx _]].
        -- apply Nf. left. symmetry. exact Ex.
        -- apply Fa. rewrite <- Ex. apply in_map. exact Hx.
      * apply IH; try assumption.
        intros Hin. apply Nf. right. exact Hin.
Qed.
End FieldOfSavedRows.

Lemma find_number_none n rows :
  find (Tables.has_number n) rows = None ->
  ~ In n (map Table.table_number rows).
Proof.
  intros F Hin. apply in_map_iff in Hin. destruct Hin as (x & Ex & Hx).
  pose proof (find_none _ _ F x Hx) as N. unfold Tables.has_number in N.
  rewrite Ex, String.eqb_refl in N. discriminate.
Qed.

Lemma tables_with_tables db ts : tables (with_tables db ts) = ts.
Proof. reflexivity. Qed.

(** Writing back a table row that kept its key and its number. *)
Lemma well_keyed_save db t r :
  well_keyed db -> In t (tables db) -> Table.id r = Table.id t ->
  Table.table_number r = Table.table_number t
  \/ ~ In (Table.table_number r) (map Table.table_number (tables db)) ->
  well_keyed (with_tables db (save Table.id r (tables db))).
Proof.
  intros [Hk Hn] Ht Ek En. split; rewrite tables_with_tables.
  - rewrite (save_keys Table.id). exact Hk.
  - apply (save_nodup_field Table.id Table.table_number (tables db) t r);
      assumption.
Qed.

Lemma apply_table_op_well_keyed op db :
  well_keyed db -> well_keyed (apply_table_op op db).
Proof.
  intros W. destruct op as [b | id b | id st | id plug | id a | id];
    cbn [apply_table_op].
  - unfold Tables.create, Tables.created_route. unfold_reply.
    destruct (Nat.eqb _ 0); cbn [negb fst]; [|exact W].
    destruct (find (Tables.has_number (Tables.table_number b)) (tables db))
      eqn:F; cbn [fst]; [exact W|].
    destruct W as [Hk Hn]. split; rewrite tables_with_tables, map_app;
      cbn [map Tables.new_table Table.id Table.table_number].
    + apply NoDup_app; [exact Hk | repeat constructor; intros [] |].
      intros x Hx [<- | []].
      pose proof (next_id_above _ _ Hx). lia.
    + apply NoDup_app; [exact Hn | repeat constructor; intros [] |].
      intros x Hx [<- | []].
      exact (find_number_none _ _ F Hx).
  - unfold Tables.update. unfold_reply.
    destruct (findByPk Table.id (tables db) id) as [t|] eqn:F;
      cbn [fst]; [|exact W].
    pose proof (findByPk_In Table.id _ _ _ F) as Ht.
    unfold Tables.renumbers.
    destruct (Tables.u_table_number b) as [n|] eqn:Un.
    + destruct (String.eqb n EmptyString) eqn:E0.
      * destruct (Tables.model_valid (Tables.updated t b));
          cbn [negb fst]; [|exact W].
        apply (well_keyed_save db t); [exact W | exact Ht | reflexivity |].
        left. cbn [Tables.updated Table.table_number]. unfold Tables.str_or.
        rewrite Un, E0. reflexivity.
      * destruct (String.eqb n (Table.table_number t)) eqn:E1.
        -- destruct (Tables.model_valid (Tables.updated t b));
             cbn [negb fst]; [|exact W].
           apply (well_keyed_save db t); [exact W | exact Ht | reflexivity |].
           left. cbn [Tables.updated Table.table_number]. unfold Tables.str_or.
           rewrite Un, E0. apply String.eqb_eq. exact E1.
        -- destruct (find (Tables.has_number n) (tables db)) eqn:Fn;
             cbn [fst]; [exact W|].
           destruct (Tables.model_valid (Tables.updated t b));
             cbn [negb fst]; [|exact W].
           apply (well_keyed_save db t); [exact W | exact Ht | reflexivity |].
           right. cbn [Tables.updated Table.table_number]. unfold Tables.str_or.
           rewrite Un, E0. exact (find_number_none _ _ Fn).
    + destruct (Tables.model_valid (Tables.updated t b));
        cbn [negb fst]; [|exact W].
      apply (well_keyed_save db t); [exact W | exact Ht | reflexivity |].
      left. cbn [Tables.updated Table.table_number]. unfold Tables.str_or.
      rewrite Un. reflexivity.
  - unfold Tables.update_status. unfold_reply.
    destruct st as [st|]; cbn [fst]; [|exact W].
    destruct (findByPk Table.id (tables db) id) as [t|] eqn:F;
      cbn [fst]; [|exact W].
    apply (well_keyed_save db t);
      [exact W | exact (findByPk_In Table.id _ _ _ F) | reflexivity |].
    left. reflexivity.
  - unfold Tables.map_plug. unfold_reply.
    destruct (Nat.eqb _ 0); cbn [negb fst]; [|exact W].
    destruct (findByPk Table.id (tables db) id) as [t|] eqn:F;
      cbn [fst]; [|exact W].
    apply (well_keyed_save db t);
      [exact W | exact (findByPk_In Table.id _ _ _ F) | reflexivity |].
    left. reflexivity.
  - unfold Tables.control_plug. unfold_reply.
    destruct (findByPk Table.id (tables db) id) as [t|] eqn:F;
      cbn [fst]; [|exact W].
    destruct (Js.truthy_str (Table.plug_id t)); cbn [negb fst]; [|exact W].
    apply (well_keyed_save db t);
      [exact W | exact (findByPk_In Table.id _ _ _ F) | reflexivity |].
    left. reflexivity.
  - unfold Tables.delete. unfold_reply.
    destruct (findByPk Table.id (tables db) id) as [t|] eqn:F;
      cbn [fst]; [|exact W].
    destruct (TableStatus_eqb (Table.status t) occupied); cbn [fst]; [exact W|].
    apply (well_keyed_save db t);
      [exact W | exact (findByPk_In Table.id _ _ _ F) | reflexivity |].
    left. reflexivity.
Qed.

(** X25: the table routes keep the two unique columns unique: from a
    store whose table ids and table numbers are free of duplicates, any
    sequence of create, update, status, plug and delete requests leaves
    them free of duplicates, whatever each request is answered. *)
Theorem table_numbers_stay_unique ops db :
  well_keyed db -> well_keyed (run_table_ops ops db).
Proof.
  revert db. induction ops as [|op ops IH]; intros db W; [exact W|].
  cbn [run_table_ops fold_left]. apply IH.
  apply apply_table_op_well_keyed. exact W.
Qed.

Lemma table_numbers_stay_unique_witness :
  well_keyed
    (run_table_ops
       [TCreate SampleTables.free_corner;
        TUpdate 1 SampleTables.take_number;
        TCreate SampleTables.free_corner;
        TDelete 2]
       Sample.empty_store).
Proof.
  apply (table_numbers_stay_unique _ Sample.empty_store).
  split; cbn; repeat constructor; cbn; intuition discriminate.
Defined.

Lemma update_table_inv id b db db' c m t' :
  Tables.update id b db = (db', Replied c m t') ->
  exists t, findByPk Table.id (tables db) id = Some t
            /\ t' = Tables.updated t b
            /\ Tables.model_valid t' = true
            /\ db' = with_tables db (save Table.id t' (tables db)).
Proof.
  unfold Tables.update. unfold_reply.
  destruct (findByPk Table.id (tables db) id) as [t|] eqn:F; [|discriminate].
  destruct (Tables.renumbers b t) as [n|].
  - destruct (find (Tables.has_number n) (tables db)); [discriminate|].
    destruct (Tables.model_valid (Tables.updated t b)) eqn:V;
      cbn [negb]; [|discriminate].
    intros [= <- _ _ <-]. exists t. repeat split. exact V.
  - destruct (Tables.model_valid (Tables.updated t b)) eqn:V;
      cbn [negb]; [|discriminate].
    intros [= <- _ _ <-]. exists t. repeat split. exact V.
Qed.

(** X26: [PUT /:id] takes a falsy field for a missing one, so it cannot
    clear a column: whenever it answers 200, the stored table has a
    capacity of at least 1 and a rate of at least 0, and a table that had a
    rate other than 0, or a non-empty number, name or location, still has
    one; in particular a body with [hourly_rate: 0] leaves the rate as it
    was. *)
Theorem update_cannot_clear id b db db' c m t t' :
  Tables.update id b db = (db', Replied c m t') ->
  findByPk Table.id (tables db) id = Some t ->
  findByPk Table.id (tables db') id = Some t'
  /\ 1 <= Table.capacity t'
  /\ (0 <= Table.hourly_rate t')%Q
  /\ (~ (Table.hourly_rate t == 0)%Q -> ~ (Table.hourly_rate t' == 0)%Q)
  /\ (Table.table_number t <> EmptyString -> Table.table_number t' <> EmptyString)
  /\ (Table.name t <> EmptyString -> Table.name t' <> EmptyString)
  /\ (Table.location t <> EmptyString -> Table.location t' <> EmptyString)
  /\ (forall q, Tables.u_hourly_rate b = Some q -> (q == 0)%Q ->
                Table.hourly_rate t' = Table.hourly_rate t).
Proof.
  intros H F.
  destruct (update_table_inv id b db db' c m t' H) as (t0 & F0 & -> & V & ->).
  rewrite F in F0. injection F0 as <-.
  unfold Tables.model_valid in V. apply Bool.andb_true_iff in V.
  destruct V as [Vc Vr]. apply Z.leb_le in Vc. apply Qle_bool_iff in Vr.
  assert (S : forall x y, y <> EmptyString -> Tables.str_or x y <> EmptyString).
  { intros [s|] y Hy; cbn [Tables.str_or]; [|exact Hy].
    destruct (String.eqb s EmptyString) eqn:E; [exact Hy|].
    apply String.eqb_neq. exact E. }
  split.
  { rewrite tables_with_tables.
    apply (findByPk_save_same Table.id (tables db) id t (Tables.updated t b) F).
    cbn [Tables.updated Table.id]. exact (findByPk_key Table.id _ _ _ F). }
  split; [exact Vc|]. split; [exact Vr|].
  cbn [Tables.updated Table.hourly_rate Table.table_number Table.name
       Table.location].
  split.
  { intros N. unfold Tables.num_or.
    destruct (Tables.u_hourly_rate b) as [q|]; [|exact N].
    destruct (Qeq_bool q 0) eqn:E; [exact N|].
    apply Qeq_bool_neq. exact E. }
  split; [apply S|]. split; [apply S|]. split; [apply S|].
  intros q Hq Z0. unfold Tables.num_or. rewrite Hq.
  apply Qeq_bool_iff in Z0. rewrite Z0. reflexivity.
Qed.

Lemma update_cannot_clear_witness :
  exists t',
    findByPk Table.id
      (tables (fst (Tables.update 1 SampleTables.make_free Sample.empty_store)))
      1 = Some t'
    /\ Table.hourly_rate t' = 120%Q.
Proof.
  exists (Tables.updated Sample.snooker1 SampleTables.make_free).
  destruct (update_cannot_clear 1 SampleTables.make_free Sample.empty_store
              _ 200 "Table updated successfully" Sample.snooker1
              (Tables.updated Sample.snooker1 SampleTables.make_free)
              eq_refl eq_refl)
    as (F & _ & _ & _ & _ & _ & _ & K).
  split; [exact F|].
  exact (K 0%Q eq_refl (Qeq_refl 0)).
Defined.

(** ** The bill of a session *)




(** ** The statistics of the kitchen tickets *)

Lemma filter_two_length {A} (p q : A -> bool) l :
  (forall x, p x = true -> q x = false) ->
  (List.length (filter p l) + List.length (filter q l) <= List.length l)%nat.
Proof.
  intros D. induction l as [|a l IH]; cbn; [lia|].
  destruct (p a) eqn:P.
  - rewrite (D a P). cbn. lia.
  - destruct (q a); cbn; lia.
Qed.

(** X28: [GET /stats] of routes/kot.js never answers 200 and never
    writes: building the query reads [Op], which the module does not bind,
    so every request is answered 500.  In a module that binds [Op] the
    same handler answers 200; completed and pending tickets together are
    at most the tickets of the day; and the four printer entries are all
    zero, for any store, because the query loads the items without their
    menu items. *)
Theorem kot_stats_spec midnight next_midnight env db :
  KotStats.stats midnight next_midnight env db = (db, Refused server_error)
  /\ forall G, Js.binds G "Op" = true ->
       exists st,
         KotStats.stats_in midnight next_midnight G env db
         = (db, Replied 200 EmptyString st)
         /\ (KotStats.completedKOTs st + KotStats.pendingKOTs st
             <= KotStats.totalKOTs st)%nat
         /\ KotStats.totalKOTs st
            = List.length (filter (KotStats.printed_today midnight
                                     next_midnight env) (orders db))
         /\ map fst (KotStats.printerStats st) = KotStats.printerTypes
         /\ forall p, In p (KotStats.printerStats st) ->
              snd p = {| KotStats.p_total := 0; KotStats.p_completed := 0;
                         KotStats.p_pending := 0 |}.
Proof.
  split; [reflexivity|].
  intros G HG. unfold KotStats.stats_in. unfold_reply. rewrite HG.
  eexists. split; [reflexivity|].
  cbn [KotStats.completedKOTs KotStats.pendingKOTs KotStats.totalKOTs
       KotStats.printerStats].
  split.
  { apply filter_two_length. intros x. unfold KotStats.is_completed,
      KotStats.is_pending. destruct (Order.status (KotStats.order x));
      intros; try reflexivity; discriminate. }
  split; [apply length_map|].
  assert (Z0 : forall printer,
             filter (fun o => existsb (KotStats.printed_on printer)
                                      (KotStats.items o))
                    (map (KotStats.with_items db)
                         (filter (KotStats.printed_today midnight
                                    next_midnight env) (orders db)))
             = []).
  { intros printer.
    induction (filter (KotStats.printed_today midnight next_midnight env)
                      (orders db)) as [|o os IH]; [reflexivity|].
    cbn [map filter]. rewrite IH.
    assert (E : existsb (KotStats.printed_on printer)
                        (KotStats.items (KotStats.with_items db o)) = false).
    { cbn [KotStats.with_items KotStats.items].
      induction (Kot.items_of (Order.id o) (order_items db)) as [|i l IHl];
        [reflexivity|]. cbn [map existsb]. rewrite IHl. reflexivity. }
    rewrite E. reflexivity. }
  split.
  { unfold KotStats.printerTypes. cbn [map]. reflexivity. }
  intros p Hp. apply in_map_iff in Hp. destruct Hp as (printer & <- & _).
  unfold KotStats.stat_of. rewrite Z0. reflexivity.
Qed.

Lemma kot_stats_spec_witness :
  reply_code (snd (KotStats.stats (fun t => 0) (fun t => 86400000)
                     SampleRun.later SampleLifecycle.running))
  = 500.
Proof.
  exact (f_equal (fun x => reply_code (snd x))
           (proj1 (kot_stats_spec (fun t => 0) (fun t => 86400000)
                     SampleRun.later SampleLifecycle.running))).
Defined.
